(** * WORKPLAN 2024: the calendar merge and the template projectors

    A shallow embedding of the two generator scripts
    ([.github/workflows/generate_2024_data.py] and
    [scripts/generate_2024_from_pdfs.py]) together with the parts of the
    Python run time they rely on (the proleptic Gregorian calendar of
    [datetime], insertion-ordered dictionaries, the cell store of a
    worksheet, a directory listing), and the properties of the natural
    language specification stated over that embedding. *)

From Stdlib Require Import ZArith String Ascii List Lia Bool.
From stdpp Require Import base option list list_numbers gmap strings sorting pretty fin_maps.

Local Open Scope Z_scope.

(** ** Exceptions and fallible computations *)

Inductive exn : Type :=
  | ValueError
  | OverflowError
  | TypeError
  | KeyError
  | IndexError
  | FileNotFoundError.

Inductive result (A : Type) : Type :=
  | Ok (a : A)
  | Raise (e : exn).
Arguments Ok {A} a.
Arguments Raise {A} e.

Global Instance result_ret : MRet result := fun _ a => Ok a.
Global Instance result_bind : MBind result := fun _ _ k m =>
  match m with
  | Ok a => k a
  | Raise e => Raise e
  end.

(** [[f(a) for a in l]], stopping at the first exception. *)
Fixpoint rmap {A B} (f : A -> result B) (l : list A) : result (list B) :=
  match l with
  | [] => Ok []
  | a :: l' => b ← f a; bs ← rmap f l'; Ok (b :: bs)
  end.

Global Instance result_fmap : FMap result := fun _ _ f m =>
  match m with
  | Ok a => Ok (f a)
  | Raise e => Raise e
  end.

Global Instance exn_eq_dec : EqDecision exn.
Proof. solve_decision. Defined.

Global Instance result_eq_dec {A} `{EqDecision A} : EqDecision (result A).
Proof. solve_decision. Defined.

(** [for a in l: acc = f(acc, a)], stopping at the first exception. *)
Fixpoint rfoldl {A B} (f : B -> A -> result B) (acc : B) (l : list A) : result B :=
  match l with
  | [] => Ok acc
  | a :: l' => acc' ← f acc a; rfoldl f acc' l'
  end.

(** [enumerate(l, start)] *)
Definition enumerate {A} (start : Z) (l : list A) : list (Z * A) :=
  zip (seqZ start (Z.of_nat (length l))) l.

(** [range(lo, hi)] *)
Definition range (lo hi : Z) : list Z := seqZ lo (hi - lo).

(** ** The calendar of [datetime] *)

Module Datetime.

Record date : Type := Date { year : Z; month : Z; day : Z }.

Definition MINYEAR : Z := 1.
Definition MAXYEAR : Z := 9999.
Definition MAXORDINAL : Z := 3652059.

Definition DAYS_IN_MONTH (m : Z) : Z :=
  match m with
  | 1 => 31 | 2 => 28 | 3 => 31 | 4 => 30 | 5 => 31 | 6 => 30
  | 7 => 31 | 8 => 31 | 9 => 30 | 10 => 31 | 11 => 30 | 12 => 31
  | _ => -1
  end.

Definition DAYS_BEFORE_MONTH (m : Z) : Z :=
  match m with
  | 1 => 0 | 2 => 31 | 3 => 59 | 4 => 90 | 5 => 120 | 6 => 151
  | 7 => 181 | 8 => 212 | 9 => 243 | 10 => 273 | 11 => 304 | 12 => 334
  | _ => -1
  end.

Definition is_leap (y : Z) : bool :=
  (y mod 4 =? 0) && (negb (y mod 100 =? 0) || (y mod 400 =? 0)).

Definition days_before_year (y : Z) : Z :=
  let y := y - 1 in
  y * 365 + y / 4 - y / 100 + y / 400.

Definition days_in_month (y m : Z) : Z :=
  if (m =? 2) && is_leap y then 29 else DAYS_IN_MONTH m.

Definition days_before_month (y m : Z) : Z :=
  DAYS_BEFORE_MONTH m + (if (2 <? m) && is_leap y then 1 else 0).

Definition ymd2ord (y m d : Z) : Z :=
  days_before_year y + days_before_month y m + d.

Definition DI400Y : Z := 146097.
Definition DI100Y : Z := 36524.
Definition DI4Y : Z := 1461.

(** The month and day of the [n]-th day (from 0) of a year. *)
Definition ord2md (leapyear : bool) (n : Z) : Z * Z :=
  let month := Z.shiftr (n + 50) 5 in
  let preceding :=
    DAYS_BEFORE_MONTH month + (if (2 <? month) && leapyear then 1 else 0) in
  if n <? preceding then
    let month := month - 1 in
    let preceding :=
      preceding
      - (DAYS_IN_MONTH month + (if (month =? 2) && leapyear then 1 else 0)) in
    (month, n - preceding + 1)
  else (month, n - preceding + 1).

Definition ord2ymd (n : Z) : date :=
  let n := n - 1 in
  let n400 := n / DI400Y in
  let n := n mod DI400Y in
  let y := n400 * 400 + 1 in
  let n100 := n / DI100Y in
  let n := n mod DI100Y in
  let n4 := n / DI4Y in
  let n := n mod DI4Y in
  let n1 := n / 365 in
  let n := n mod 365 in
  let y := y + n100 * 100 + n4 * 4 + n1 in
  if (n1 =? 4) || (n100 =? 4) then Date (y - 1) 12 31
  else
    let leapyear := (n1 =? 3) && (negb (n4 =? 24) || (n100 =? 3)) in
    let '(m, d) := ord2md leapyear n in
    Date y m d.

(** [date(year, month, day)]: the constructor checks its fields. *)
Definition mkdate (y m d : Z) : result date :=
  if negb ((MINYEAR <=? y) && (y <=? MAXYEAR)) then Raise ValueError
  else if negb ((1 <=? m) && (m <=? 12)) then Raise ValueError
  else if negb ((1 <=? d) && (d <=? days_in_month y m)) then Raise ValueError
  else Ok (Date y m d).

Definition toordinal (d : date) : Z := ymd2ord (year d) (month d) (day d).

Definition fromordinal (n : Z) : date := ord2ymd n.

(** [d + timedelta(days=n)] *)
Definition add_days (d : date) (n : Z) : result date :=
  let o := toordinal d + n in
  if (0 <? o) && (o <=? MAXORDINAL) then Ok (fromordinal o)
  else Raise OverflowError.

(** [(d1 - d2).days] *)
Definition sub_days (d1 d2 : date) : Z := toordinal d1 - toordinal d2.

Definition valid (d : date) : Prop :=
  MINYEAR <= year d <= MAXYEAR /\ 1 <= month d <= 12
  /\ 1 <= day d <= days_in_month (year d) (month d).

(** Chronological order, as [date.__lt__] compares the field triples. *)
Definition lt (a b : date) : Prop :=
  year a < year b
  \/ (year a = year b /\ (month a < month b
                          \/ (month a = month b /\ day a < day b))).

End Datetime.
Import Datetime.

Global Instance date_eq_dec : EqDecision date.
Proof. solve_decision. Defined.

Global Instance date_countable : Countable date.
Proof.
  refine (inj_countable' (fun d => (year d, month d, day d))
                         (fun t => Date t.1.1 t.1.2 t.2) _).
  intros []; reflexivity.
Defined.

(** ** Python values, strings and dictionaries *)

(** The objects that flow through the scripts: [None], the float [nan],
    pandas' [NaT], integers, strings and [datetime.date] objects. *)
Inductive value : Type :=
  | VNone
  | VNaN
  | VNaT
  | VInt (z : Z)
  | VStr (s : string)
  | VDate (d : date).

Global Instance value_eq_dec : EqDecision value.
Proof. solve_decision. Defined.

(** [v is None] / [pd.isnull(v)] *)
Definition is_none (v : value) : bool :=
  match v with VNone => true | _ => false end.

Definition isnull (v : value) : bool :=
  match v with VNone | VNaN | VNaT => true | _ => false end.

Module Str.

Definition digit (n : Z) : ascii := ascii_of_nat (48 + Z.to_nat (n mod 10)).

(** [%02d] and [%04d] *)
Definition pad2 (n : Z) : string :=
  String (digit (n / 10)) (String (digit n) EmptyString).
Definition pad4 (n : Z) : string :=
  String (digit (n / 1000)) (String (digit (n / 100)) (pad2 n)).

Definition is_digit (c : ascii) : bool :=
  let n := nat_of_ascii c in ((48 <=? n) && (n <=? 57))%nat.
Definition digit_val (c : ascii) : Z := Z.of_nat (nat_of_ascii c) - 48.

(** [str.lower], on the ASCII letters. *)
Definition lower_char (c : ascii) : ascii :=
  let n := nat_of_ascii c in
  if ((65 <=? n) && (n <=? 90))%nat then ascii_of_nat (n + 32) else c.
Fixpoint lower (s : string) : string :=
  match s with
  | EmptyString => EmptyString
  | String c s' => String (lower_char c) (lower s')
  end.

(** [needle in hay] *)
Fixpoint contains (needle hay : string) : bool :=
  String.prefix needle hay
  || match hay with
     | EmptyString => false
     | String _ hay' => contains needle hay'
     end.

(** [s.endswith(suffix)] *)
Definition endswith (s suffix : string) : bool :=
  bool_decide (list_ascii_of_string suffix `suffix_of` list_ascii_of_string s).

(** Text is kept in its UTF-8 encoding, one [ascii] per byte.  The
    characters [str.strip] removes are those of [str.isspace]: U+0009
    to U+000D, U+001C to U+001F, U+0020, U+0085, U+00A0, U+1680, U+2000
    to U+200A, U+2028, U+2029, U+202F, U+205F and U+3000, here by their
    bytes. *)
Definition space_encodings : list (list ascii) :=
  (fun bytes : list nat => ascii_of_nat <$> bytes)
    <$> ([[9]; [10]; [11]; [12]; [13]; [28]; [29]; [30]; [31]; [32];
          [194; 133]; [194; 160]; [225; 154; 128]]
           ++ ((fun b => [226; 128; b]) <$> seq 128 11)
           ++ [[226; 128; 168]; [226; 128; 169]; [226; 128; 175];
               [226; 129; 159]; [227; 128; 128]])%nat.

(** The number of bytes of the character of [encs] that [l] starts
    with, 0 when it starts with none. *)
Definition space_len (encs : list (list ascii)) (l : list ascii) : nat :=
  match List.find (fun enc => bool_decide (enc `prefix_of` l)) encs with
  | Some enc => length enc
  | None => 0
  end.

(** [l] without the characters of [encs] it starts with; [skip] counts
    the bytes still to drop of the character being removed. *)
Fixpoint lstrip_bytes (encs : list (list ascii)) (skip : nat) (l : list ascii)
  : list ascii :=
  match l with
  | [] => []
  | _ :: l' =>
      match skip with
      | S k => lstrip_bytes encs k l'
      | O =>
          match space_len encs l with
          | O => l
          | S k => lstrip_bytes encs k l'
          end
      end
  end.

Definition lstrip (s : string) : string :=
  string_of_list_ascii
    (lstrip_bytes space_encodings 0 (list_ascii_of_string s)).

Definition rstrip (s : string) : string :=
  string_of_list_ascii
    (reverse (lstrip_bytes (reverse <$> space_encodings) 0
                           (reverse (list_ascii_of_string s)))).

Definition strip (s : string) : string := rstrip (lstrip s).

(** [bool(s)] for a string *)
Definition truthy (s : string) : bool :=
  match s with EmptyString => false | _ => true end.

(** [s.split(sep)[0]] for a one character separator *)
Fixpoint split_head (sep : ascii) (s : string) : string :=
  match s with
  | EmptyString => EmptyString
  | String c s' =>
      if Ascii.eqb c sep then EmptyString else String c (split_head sep s')
  end.

End Str.

(** [day.strftime("%Y-%m-%d")], and [str(day)] *)
Definition strftime_ymd (d : date) : string :=
  (Str.pad4 (year d) ++ "-" ++ Str.pad2 (month d) ++ "-" ++ Str.pad2 (day d))%string.

(** [str(v)], as an f-string renders a value. *)
Definition str_of_value (v : value) : string :=
  match v with
  | VNone => "None"
  | VNaN => "nan"
  | VNaT => "NaT"
  | VInt z => pretty z
  | VStr s => s
  | VDate d => strftime_ymd d
  end.

(** A [dict] with string keys keeps its keys in insertion order;
    assigning to a key that is present replaces the value in place. *)
Module Dict.

Abbreviation t := (list (string * value)).

Fixpoint get (k : string) (d : t) : option value :=
  match d with
  | [] => None
  | (k', v) :: d' => if String.eqb k k' then Some v else get k d'
  end.

Fixpoint set (k : string) (v : value) (d : t) : t :=
  match d with
  | [] => [(k, v)]
  | (k', v') :: d' =>
      if String.eqb k k' then (k', v) :: d' else (k', v') :: set k v d'
  end.

Definition keys (d : t) : list string := d.*1.

(** [for k, v in items: d[k] = v] *)
Definition update (items : list (string * value)) (d : t) : t :=
  foldl (fun acc kv => set kv.1 kv.2 acc) d items.

End Dict.

(** A pandas row ([Series]): labels with their values, in column order. *)
Abbreviation Series := (list (string * value)).

(** [row[label]] *)
Definition series_get (label : string) (row : Series) : result value :=
  match Dict.get label row with
  | Some v => Ok v
  | None => Raise KeyError
  end.

Module DataFrame.

Record t : Type := Make { columns : list string; values : list (list value) }.

Definition len (df : t) : Z := Z.of_nat (length (values df)).

(** [df.empty]: some axis has length zero. *)
Definition empty (df : t) : bool :=
  match columns df, values df with
  | [], _ | _, [] => true
  | _, _ => false
  end.

(** [df.iterrows()], without the index. *)
Definition iterrows (df : t) : list Series :=
  map (fun vs => zip (columns df) vs) (values df).

(** [df[label]]: the values of the first column carrying the label. *)
Fixpoint position (label : string) (cols : list string) : option nat :=
  match cols with
  | [] => None
  | c :: cols' =>
      if String.eqb label c then Some 0%nat else S <$> position label cols'
  end.

Definition column (label : string) (df : t) : result (list value) :=
  match position label (columns df) with
  | Some i => Ok (map (fun vs => default VNaN (vs !! i)) (values df))
  | None => Raise KeyError
  end.

(** [df[label] = vals]: replaces the column when the label is present,
    appends it otherwise; rows without a value at their position get
    [nan]. *)
Definition set_column (label : string) (vals : list value) (df : t) : t :=
  let at_ (i : nat) := default VNaN (vals !! i) in
  match position label (columns df) with
  | Some j =>
      Make (columns df) (imap (fun i vs => <[j := at_ i]> vs) (values df))
  | None =>
      Make (columns df ++ [label]) (imap (fun i vs => vs ++ [at_ i]) (values df))
  end.

(** The keys of a list of dicts, in order of first appearance. *)
Definition add_key (seen : list string) (k : string) : list string :=
  if bool_decide (k ∈ seen) then seen else seen ++ [k].

Definition union_keys (recs : list Dict.t) : list string :=
  foldl (fun seen r => foldl add_key seen (Dict.keys r)) [] recs.

(** [pd.DataFrame(records)] for a list of dicts: one row per dict, a
    column per key, [nan] where a dict lacks the key. *)
Definition of_records (recs : list Dict.t) : t :=
  let cols := union_keys recs in
  Make cols (map (fun r => map (fun c => default VNaN (Dict.get c r)) cols) recs).

(** [dataframe_to_rows(df, index=False, header=False)] and
    [df.itertuples(index=False)] *)
Definition to_rows (df : t) : list (list value) := values df.

(** [df.dropna(axis=1, how='all')] *)
Definition dropna_columns (df : t) : t :=
  let keep (j : nat) : bool :=
    negb (forallb (fun vs => isnull (default VNaN (vs !! j))) (values df)) in
  let idx := filter (fun j => keep j = true) (seq 0 (length (columns df))) in
  Make (omap (fun j => columns df !! j) idx)
       (map (fun vs => map (fun j => default VNaN (vs !! j)) idx) (values df)).

End DataFrame.

(** ** Worksheets of [openpyxl] *)

(** A worksheet is its cell store: the cells that exist, by (row, column),
    with their values; a cell that does not exist reads as [None].
    Sheets are taken without merged ranges, whose cells [openpyxl]
    keeps read-only, and texts without the control characters that it
    refuses in a cell: what is stated of a write is stated of one that
    returns. *)
Abbreviation worksheet := (gmap (Z * Z) value).

Module Openpyxl.

(** [ws.cell(r, c).value], read without creating the cell. *)
Definition cell_value (ws : worksheet) (r c : Z) : value :=
  default VNone (ws !! (r, c)).

(** [ws.max_column]: the largest column holding a cell, 1 on a sheet
    without cells. *)
Definition max_column (ws : worksheet) : Z :=
  map_fold (fun k _ acc => Z.max k.2 acc) 1 ws.

(** [ws.cell(row=r, column=c)]: rows and columns count from 1; the cell
    is created, empty, when it is not there yet. *)
Definition cell (r c : Z) (ws : worksheet) : result worksheet :=
  if (r <? 1) || (c <? 1) then Raise ValueError
  else match ws !! (r, c) with
       | Some _ => Ok ws
       | None => Ok (<[(r, c) := VNone]> ws)
       end.

(** [ws.cell(row=r, column=c).value = v] *)
Definition set_value (r c : Z) (v : value) (ws : worksheet) : result worksheet :=
  ws' ← cell r c ws; Ok (<[(r, c) := v]> ws').

(** [ws.cell(row=r, column=c, value=v)]: a [None] value is not bound. *)
Definition cell_with_value (r c : Z) (v : value) (ws : worksheet)
  : result worksheet :=
  ws' ← cell r c ws; Ok (if is_none v then ws' else <[(r, c) := v]> ws').

(** [[c.value for c in ws[r]]]: the cells of row [r] in columns 1 to
    [max_column], which this access creates where missing. *)
Definition row_values (r : Z) (ws : worksheet) : result (worksheet * list value) :=
  let cols := range 1 (max_column ws + 1) in
  ws' ← rfoldl (fun w c => cell r c w) ws cols;
  Ok (ws', (fun c => cell_value ws' r c) <$> cols).

End Openpyxl.

(** ** [.github/workflows/generate_2024_data.py] *)

Module Workflow.

Definition PDF_MONTHS : list string :=
  ["GENNAIO_2024.pdf"; "FEBBRAIO_2024.pdf"; "MARZO_2024.pdf"; "APRILE_2024.pdf";
   "MAGGIO_2024.pdf"; "GIUGNO_2024.pdf"; "LUGLIO_2024.pdf"; "AGOSTO_2024.pdf";
   "SETTEMBRE_2024.pdf"; "OTTOBRE_2024.pdf"; "NOVEMBRE_2024.pdf";
   "DICEMBRE_2024.pdf"]%string.

Definition date_range (y : Z) : result (list date) :=
  start ← mkdate y 1 1;
  end_ ← mkdate y 12 31;
  rmap (fun n => add_days start n) (range 0 (sub_days end_ start + 1)).

(** A page table as [extract_table] returns it: rows of cells, a cell
    being a string or [None]. *)
Abbreviation pdf_cell := (option string).
Abbreviation pdf_table := (list (list (option string))).

(** The documents of a directory: for a file that exists, its pages,
    each with the table found on it, if any. *)
Definition pdf_directory : Type := string -> option (list (option pdf_table)).

Section Pandas.

(** [pd.to_datetime(column, dayfirst=True, errors='coerce').dt.date]:
    a date or [NaT] for each value of the column. *)
Variable to_datetime_column : list value -> list (option date).

(** [pd.to_datetime(text, dayfirst=True, errors='coerce').date()] on
    one string: a date, [NaT] ([None] here), or an exception. *)
Variable to_datetime : string -> result (option date).

(** [bool(pd.NaT)] *)
Variable NaT_truthy : bool.

Definition date_value (o : option date) : value :=
  match o with Some d => VDate d | None => VNaT end.

(** [next((c for c in df.columns if "date" in c.lower()), df.columns[0])];
    the default is evaluated before the search. *)
Definition find_date_col (cols : list string) : result string :=
  match cols with
  | [] => Raise IndexError
  | c0 :: _ =>
      Ok (default c0
            (List.find (fun c => Str.contains "date" (Str.lower c)) cols))
  end.

Definition parse_csv (df : DataFrame.t) : result (gmap date Series) :=
  date_col ← find_date_col (DataFrame.columns df);
  col ← DataFrame.column date_col df;
  let df := DataFrame.set_column "Date" (date_value <$> to_datetime_column col) df in
  rfoldl (fun (flights : gmap date Series) row =>
            d ← series_get "Date" row;
            Ok (match d with
                | VDate d => <[d := row]> flights
                | _ => flights
                end))
         ∅ (DataFrame.iterrows df).

Definition dt_truthy (dt : option date) : bool :=
  match dt with Some _ => true | None => NaT_truthy end.

(** The body of [for row in table]. *)
Definition parse_row (code_by_date : gmap (option date) string)
           (row : list pdf_cell) : gmap (option date) string :=
  match row with
  | [] => code_by_date
  | None :: _ => code_by_date
  | Some s0 :: rest =>
      if negb (Str.truthy s0) then code_by_date
      else
        match to_datetime s0 with
        | Raise _ => code_by_date
        | Ok dt =>
            let code :=
              match rest with
              | Some s1 :: _ => if Str.truthy s1 then Str.strip s1 else ""%string
              | _ => ""%string
              end in
            if dt_truthy dt && Str.truthy code
            then <[dt := code]> code_by_date
            else code_by_date
        end
  end.

Definition parse_page (code_by_date : gmap (option date) string)
           (page : option pdf_table) : gmap (option date) string :=
  match page with
  | Some table => foldl parse_row code_by_date table
  | None => code_by_date
  end.

Definition parse_file (dir : pdf_directory)
           (code_by_date : gmap (option date) string) (fname : string)
  : gmap (option date) string :=
  match dir fname with
  | Some pages => foldl parse_page code_by_date pages
  | None => code_by_date
  end.

Definition parse_pdfs (dir : pdf_directory) : gmap (option date) string :=
  foldl (parse_file dir) ∅ PDF_MONTHS.

End Pandas.

(** The body of [for day in date_range(2024)]. *)
Definition build_entry (flights : gmap date Series)
           (codes : gmap (option date) string) (day : date) : Dict.t :=
  let entry := [("Date"%string, VStr (strftime_ymd day))] in
  match flights !! day with
  | Some row => Dict.update row (Dict.set "Type" (VStr "Volo") entry)
  | None =>
      match codes !! Some day with
      | Some code => Dict.set "Type" (VStr code) entry
      | None => Dict.set "Type" (VStr "OFF (auto)") entry
      end
  end.

(** The list [consolidated] after the loop over the days. *)
Definition consolidate (days : list date) (flights : gmap date Series)
           (codes : gmap (option date) string) : list Dict.t :=
  build_entry flights codes <$> days.

Definition build_consolidated (flights : gmap date Series)
           (codes : gmap (option date) string) : result DataFrame.t :=
  days ← date_range 2024;
  Ok (DataFrame.of_records (consolidate days flights codes)).

(** The body of [for fname in excel_files], on the active sheet. *)
Definition overwrite_sheet (consolidated_df : DataFrame.t) (ws : worksheet)
  : result worksheet :=
  '(ws, header) ← Openpyxl.row_values 1 ws;
  rfoldl (fun ws '(i, row) =>
            rfoldl (fun ws '(j, v) =>
                      if j <? Z.of_nat (length header)
                      then Openpyxl.set_value i (j + 1) v ws
                      else Ok ws)
                   ws (enumerate 0 row))
         ws (enumerate 2 (DataFrame.to_rows consolidated_df)).

(** The files of the output directory, as [os.listdir] lists them, each
    with the active sheet of its workbook. *)
Definition overwrite_excel_files (consolidated_df : DataFrame.t)
           (out_dir : list (string * worksheet))
  : result (list (string * worksheet)) :=
  rmap (fun '(fname, ws) =>
          if Str.endswith (Str.lower fname) ".xlsx"
          then ws' ← overwrite_sheet consolidated_df ws; Ok (fname, ws')
          else Ok (fname, ws))
       out_dir.

(** [datetime.datetime.strptime(v, "%Y-%m-%d").date()]: four digits,
    a month written [1]..[9] or [01]..[12], a day written [1]..[9],
    [01]..[31] or with a leading blank, and nothing else; the fields
    are then checked as by the [date] constructor.  The digits are the
    ASCII ones, which is what [strftime] writes; the library also reads
    the decimal digits of other scripts, and text written with those is
    outside this model. *)
Definition two_digits (a b : ascii) : option Z :=
  if Str.is_digit a && Str.is_digit b
  then Some (10 * Str.digit_val a + Str.digit_val b) else None.

Definition one_digit (a : ascii) : option Z :=
  if Str.is_digit a && negb (Ascii.eqb a "0") then Some (Str.digit_val a) else None.

Definition parse_year (a b c d : ascii) : option Z :=
  hi ← two_digits a b; lo ← two_digits c d; Some (100 * hi + lo).

Definition parse_month (l : list ascii) : option Z :=
  match l with
  | [a] => one_digit a
  | [a; b] =>
      m ← two_digits a b; if (1 <=? m) && (m <=? 12) then Some m else None
  | _ => None
  end.

Definition parse_day (l : list ascii) : option Z :=
  match l with
  | [a] => one_digit a
  | [a; b] =>
      if Ascii.eqb a " " then one_digit b
      else d ← two_digits a b; if (1 <=? d) && (d <=? 31) then Some d else None
  | _ => None
  end.

Definition match_ymd (l : list ascii) : option (Z * Z * Z) :=
  match l with
  | y1 :: y2 :: y3 :: y4 :: "-"%char :: rest =>
      y ← parse_year y1 y2 y3 y4;
      match rest with
      | m1 :: "-"%char :: rest' =>
          m ← parse_month [m1]; d ← parse_day rest'; Some (y, m, d)
      | m1 :: m2 :: "-"%char :: rest' =>
          m ← parse_month [m1; m2]; d ← parse_day rest'; Some (y, m, d)
      | _ => None
      end
  | _ => None
  end.

Definition strptime_ymd (v : value) : result date :=
  match v with
  | VStr s =>
      match match_ymd (list_ascii_of_string s) with
      | Some (y, m, d) => mkdate y m d
      | None => Raise ValueError
      end
  | _ => Raise TypeError
  end.

Definition nl : string := String (ascii_of_nat 10) EmptyString.

(** [datetime.date(2024, m, 1).strftime('%B').upper()] *)
Definition month_name (m : Z) : string :=
  match m with
  | 1 => "JANUARY" | 2 => "FEBRUARY" | 3 => "MARCH" | 4 => "APRIL"
  | 5 => "MAY" | 6 => "JUNE" | 7 => "JULY" | 8 => "AUGUST"
  | 9 => "SEPTEMBER" | 10 => "OCTOBER" | 11 => "NOVEMBER" | _ => "DECEMBER"
  end%string.

(** [months = {m: [] for m in range(1, 13)}], then every row appended
    to the list of its month. *)
Definition group_by_month (consolidated_df : DataFrame.t)
  : result (gmap Z (list Series)) :=
  rfoldl (fun (months : gmap Z (list Series)) row =>
            v ← series_get "Date" row;
            dt ← strptime_ymd v;
            Ok (alter (fun rows => rows ++ [row]) (month dt) months))
         (list_to_map ((fun m => (m, [])) <$> range 1 13))
         (DataFrame.iterrows consolidated_df).

(** The counters and the text written so far, inside one month. *)
Record tally : Type :=
  Tally { vo : Z; pdf : Z; auto_off : Z; written : string }.

(** The body of [for r in months[m]]. *)
Definition tally_row (acc : tally) (r : Series) : result tally :=
  t ← series_get "Type" r;
  let acc :=
    if bool_decide (t = VStr "Volo")
    then Tally (vo acc + 1) (pdf acc) (auto_off acc) (written acc)
    else if bool_decide (t = VStr "OFF (auto)")
         then Tally (vo acc) (pdf acc) (auto_off acc + 1) (written acc)
         else Tally (vo acc) (pdf acc + 1) (auto_off acc) (written acc) in
  d ← series_get "Date" r;
  Ok (Tally (vo acc) (pdf acc) (auto_off acc)
            (written acc ++ "- " ++ str_of_value d ++ ": " ++ str_of_value t ++ nl)%string).

Definition summary_line (vo pdf auto_off : Z) : string :=
  (nl ++ "Summary: Volo=" ++ pretty vo ++ ", PDF codes=" ++ pretty pdf
      ++ ", OFF (auto)=" ++ pretty auto_off ++ nl ++ nl)%string.

(** The body of [for m in range(1, 13)]: the counters of the month and
    the text of its section. *)
Definition month_section (months : gmap Z (list Series)) (m : Z)
  : result tally :=
  rows ← match months !! m with Some rows => Ok rows | None => Raise KeyError end;
  acc ← rfoldl tally_row
          (Tally 0 0 0 ("# " ++ month_name m ++ " 2024" ++ nl)%string) rows;
  Ok (Tally (vo acc) (pdf acc) (auto_off acc)
            (written acc ++ summary_line (vo acc) (pdf acc) (auto_off acc))%string).

(** The per-month counters and sections, in the order written. *)
Definition trace_sections (consolidated_df : DataFrame.t) : result (list tally) :=
  months ← group_by_month consolidated_df;
  rmap (month_section months) (range 1 13).

(** The text of the summary file. *)
Definition generate_trace_md (consolidated_df : DataFrame.t) : result string :=
  sections ← trace_sections consolidated_df;
  Ok (foldr (fun sec text => (written sec ++ text)%string) EmptyString sections).

End Workflow.

(** ** [scripts/generate_2024_from_pdfs.py] *)

(** Byte-wise lexicographic order, as [sorted] compares strings. *)
Definition str_le (a b : string) : Prop := String.leb a b = true.

Global Instance str_le_dec : RelDecision str_le.
Proof. intros a b. unfold str_le. apply _. Defined.

Module FromPdfs.

Definition WRITE_START_ROW : Z := 4.
Definition WRITE_START_COL : Z := 1.

(** The body of the clearing loop:
    [cell = ws.cell(row=r, column=c); if cell.value is not None:
    cell.value = None] *)
Definition clear_cell (r c : Z) (ws : worksheet) : result worksheet :=
  ws' ← Openpyxl.cell r c ws;
  Ok (if is_none (Openpyxl.cell_value ws' r c) then ws'
      else <[(r, c) := VNone]> ws').

(** The clearing loop, on the first sheet of the workbook. *)
Definition clear_region (start_row max_rows_to_clear : Z) (ws : worksheet)
  : result worksheet :=
  rfoldl (fun ws r =>
            rfoldl (fun ws c => clear_cell r c ws) ws
                   (range 1 (Openpyxl.max_column ws + 1)))
         ws (range start_row (start_row + max_rows_to_clear)).

(** The writing loop. *)
Definition write_values (df : DataFrame.t) (start_row start_col : Z)
           (ws : worksheet) : result worksheet :=
  rfoldl (fun ws '(i, row) =>
            rfoldl (fun ws '(j, v) =>
                      Openpyxl.cell_with_value (start_row + i) (start_col + j) v ws)
                   ws (enumerate 0 row))
         ws (enumerate 0 (DataFrame.to_rows df)).

Definition write_df_into_workbook (df : DataFrame.t) (start_row start_col : Z)
           (ws : worksheet) : result worksheet :=
  let max_rows_to_clear := Z.max 50 (DataFrame.len df + 10) in
  ws ← clear_region start_row max_rows_to_clear ws;
  write_values df start_row start_col ws.

(** What the script prints. *)
Inductive event : Type :=
  | NoPdfs
  | Copied (template out : string)
  | NoTables (pdf_name : string)
  | Wrote (out : string)
  | ErrorProcessing (pdf : string) (e : exn)
  | Done (created : nat).

(** The files of the template and output directories (each workbook
    by its first sheet) and the lines printed so far. *)
Record state : Type :=
  State { templates : gmap string worksheet;
          outputs : gmap string worksheet;
          stdout : list event }.

Definition print (e : event) (st : state) : state :=
  State (templates st) (outputs st) (stdout st ++ [e]).

Definition save (out : string) (ws : worksheet) (st : state) : state :=
  State (templates st) (<[out := ws]> (outputs st)) (stdout st).

(** [fnmatch] of a name against [*_2024.pdf], as [glob] applies it:
    names starting with a dot are left out. *)
Definition matches_2024_pdf (name : string) : bool :=
  negb (String.prefix "." name) && Str.endswith name "_2024.pdf".

(** [sorted(glob.glob(str(DATA_DIR / '*_2024.pdf')))], as file names;
    [data_dir] lists the names in the directory. *)
Definition pdf_files (data_dir : list string) : list string :=
  merge_sort str_le (List.filter matches_2024_pdf data_dir).

Section Extraction.

(** [extract_tables_from_pdf]: the table that [pdfplumber] and the
    concatenation of the page tables yield for a document, or the
    exception they raise. *)
Variable extract_tables_from_pdf : string -> result DataFrame.t.

(** The template chosen for a month: its own, else the generic one. *)
Definition find_template (month_key : string) (st : state)
  : result (string * worksheet) :=
  let template_name := (month_key ++ " 2023.xlsx")%string in
  match templates st !! template_name with
  | Some ws => Ok (template_name, ws)
  | None =>
      match templates st !! "2023.xlsx"%string with
      | Some ws => Ok ("2023.xlsx"%string, ws)
      | None => Raise FileNotFoundError
      end
  end.

(** The state after the call, and the returned path or the exception. *)
Definition process_month_pdf (pdf_name : string) (st : state)
  : state * result string :=
  let month_key := Str.split_head "_" pdf_name in
  match find_template month_key st with
  | Raise e => (st, Raise e)
  | Ok (template_name, template) =>
      let out := (month_key ++ " 2024.xlsx")%string in
      let st := print (Copied template_name out) (save out template st) in
      match extract_tables_from_pdf pdf_name with
      | Raise e => (st, Raise e)
      | Ok df =>
          if DataFrame.empty df then (print (NoTables pdf_name) st, Ok out)
          else
            let df := DataFrame.dropna_columns df in
            match write_df_into_workbook df WRITE_START_ROW WRITE_START_COL
                    template with
            | Raise e => (st, Raise e)
            | Ok ws => (print (Wrote out) (save out ws st), Ok out)
            end
      end
  end.

(** The body of [for pdf in pdf_files]. *)
Definition main_step (acc : state * list string) (pdf : string)
  : state * list string :=
  match process_month_pdf pdf acc.1 with
  | (st, Ok out) => (st, acc.2 ++ [out])
  | (st, Raise e) => (print (ErrorProcessing pdf e) st, acc.2)
  end.

Definition main (data_dir : list string) (st : state) : state :=
  match pdf_files data_dir with
  | [] => print NoPdfs st
  | files =>
      let '(st, created) := foldl main_step (st, []) files in
      print (Done (length created)) st
  end.

End Extraction.

End FromPdfs.

(** ** The specification's side *)

(** Every calendar date of a year, January 1 to December 31. *)
Definition calendar (y : Z) : list date :=
  m ← range 1 13; Date y m <$> range 1 (days_in_month y m + 1).

Definition days_in_year (y : Z) : nat := if is_leap y then 366%nat else 365%nat.

(** A reader of the day-first form [dd/mm/yyyy], standing in for pandas'
    parser in the closed examples. *)
Definition read_dmy (s : string) : option date :=
  match list_ascii_of_string s with
  | [d1; d2; "/"; m1; m2; "/"; y1; y2; y3; y4]%char =>
      d ← Workflow.two_digits d1 d2;
      m ← Workflow.two_digits m1 m2;
      y ← Workflow.parse_year y1 y2 y3 y4;
      match mkdate y m d with Ok dt => Some dt | Raise _ => None end
  | _ => None
  end.

Definition read_dmy_column (col : list value) : list (option date) :=
  (fun v => match v with VStr s => read_dmy s | _ => None end) <$> col.

(** The date the first cell of a table row parses to, if it does. *)
Definition row_date (to_datetime : string -> result (option date))
           (row : list (option string)) : option date :=
  match row with
  | Some s :: _ =>
      if Str.truthy s
      then match to_datetime s with Ok (Some d) => Some d | _ => None end
      else None
  | _ => None
  end.

(** The second cell of a table row, trimmed; empty when it is missing. *)
Definition row_code (row : list (option string)) : string :=
  match row with
  | _ :: Some s :: _ => Str.strip s
  | _ => EmptyString
  end.


(** The table rows of a directory in the order the parser meets them:
    by file of [PDF_MONTHS], by page, by position. *)
Definition all_rows (dir : Workflow.pdf_directory) : list (list (option string)) :=
  fname ← Workflow.PDF_MONTHS; page ← default [] (dir fname); default [] page.

(** What overwrite mode leaves in a sheet [ws'] that was [ws]: outside
    rows 2 to L+1 and columns 1 to the header width nothing changes;
    inside, a cell takes the timeline value at its position, and keeps
    its own where the timeline row has none. *)
Definition sheet_overwritten (consolidated_df : DataFrame.t) (ws ws' : worksheet)
  : Prop :=
  let rows := DataFrame.to_rows consolidated_df in
  let L := DataFrame.len consolidated_df in
  let W := Openpyxl.max_column ws in
  (forall r c, r < 2 \/ L + 1 < r \/ c < 1 \/ W < c ->
               Openpyxl.cell_value ws' r c = Openpyxl.cell_value ws r c)
  /\ (forall (i j : nat) row v,
         rows !! i = Some row -> row !! j = Some v -> Z.of_nat j < W ->
         Openpyxl.cell_value ws' (2 + Z.of_nat i) (1 + Z.of_nat j) = v)
  /\ (forall (i j : nat) row,
         rows !! i = Some row -> row !! j = None ->
         Openpyxl.cell_value ws' (2 + Z.of_nat i) (1 + Z.of_nat j)
         = Openpyxl.cell_value ws (2 + Z.of_nat i) (1 + Z.of_nat j)).

(** The cells per-month mode clears before writing a table: a span of
    rows from the start row, across the columns the sheet has. *)
Definition in_cleared_region (df : DataFrame.t) (start_row : Z) (ws : worksheet)
           (r c : Z) : Prop :=
  start_row <= r < start_row + Z.max 50 (DataFrame.len df + 10)
  /\ 1 <= c <= Openpyxl.max_column ws.

Global Instance in_cleared_region_dec
    (df : DataFrame.t) (start_row : Z) (ws : worksheet) (r c : Z) :
  Decision (in_cleared_region df start_row ws r c).
Proof. unfold in_cleared_region. apply _. Defined.

(** A run of per-month mode from given templates, with no output file
    and nothing printed yet; the lines one document prints when it is
    processed on its own, the path it adds to [created], and whether it
    adds one. *)
Definition fresh (tpls : gmap string worksheet) : FromPdfs.state :=
  FromPdfs.State tpls ∅ [].

Definition step_log (extract : string -> result DataFrame.t)
           (tpls : gmap string worksheet) (pdf : string) : list FromPdfs.event :=
  FromPdfs.stdout (FromPdfs.main_step extract (fresh tpls, []) pdf).1.

Definition step_created (extract : string -> result DataFrame.t)
           (tpls : gmap string worksheet) (pdf : string) : list string :=
  (FromPdfs.main_step extract (fresh tpls, []) pdf).2.

Definition succeeds (extract : string -> result DataFrame.t)
           (tpls : gmap string worksheet) (pdf : string) : bool :=
  match (FromPdfs.process_month_pdf extract pdf (fresh tpls)).2 with
  | Ok _ => true
  | Raise _ => false
  end.

(** The month of a timeline row, read from its Date as the renderer
    reads it; the rows of a month; and the number of rows of a list
    whose Type is in a category. *)
Definition entry_month (row : Series) : option Z :=
  match Dict.get "Date" row with
  | Some v =>
      match Workflow.strptime_ymd v with
      | Ok d => Some (month d)
      | Raise _ => None
      end
  | None => None
  end.

Definition in_month (m : Z) (row : Series) : bool :=
  bool_decide (entry_month row = Some m).

Definition entries_of_month (df : DataFrame.t) (m : Z) : list Series :=
  List.filter (in_month m) (DataFrame.iterrows df).

Definition is_volo (t : value) : bool := bool_decide (t = VStr "Volo").
Definition is_off (t : value) : bool := bool_decide (t = VStr "OFF (auto)").
Definition is_code (t : value) : bool := negb (is_volo t) && negb (is_off t).

Definition count_type (p : value -> bool) (rows : list Series) : Z :=
  Z.of_nat (length (List.filter
                      (fun row => match Dict.get "Type" row with
                                  | Some t => p t
                                  | None => false
                                  end) rows)).

(** A timeline the renderer can read: every row has a Date that parses
    and a Type. *)
Definition renderable (df : DataFrame.t) : Prop :=
  Forall (fun row => is_Some (entry_month row) /\ is_Some (Dict.get "Type" row))
         (DataFrame.iterrows df).

(** The value a sequence of items binds to a label last. *)
Definition last_value (k : string) (items : list (string * value)) : option value :=
  Dict.get k (reverse items).

(** ** Definitions used in the proofs *)

(** Leap years in terms of the digits of [y - 1] in the mixed radix
    400 / 100 / 4 / 1. *)
Definition leap_digits (b c d : Z) : bool :=
  (d =? 3) && (negb (c =? 24) || (b =? 3)).

(** The months and days of a year, by leap flag. *)
Definition month_days (leapyear : bool) : list (Z * Z) :=
  m ← range 1 13;
  pair m <$> range 1 ((if (m =? 2) && leapyear then 29 else DAYS_IN_MONTH m) + 1).

Definition md_lt (a b : Z * Z) : Prop := a.1 < b.1 \/ (a.1 = b.1 /\ a.2 < b.2).

Global Instance md_lt_dec : RelDecision md_lt.
Proof. intros a b. unfold md_lt. apply _. Defined.

(** The entry as the merge assigns it, before any field is copied. *)
Definition assigned (day : date) (type : string) : Dict.t :=
  [("Date"%string, VStr (strftime_ymd day)); ("Type"%string, VStr type)].

(** The row of the frame for a record: a value for every column. *)
Definition row_of (recs : list Dict.t) (r : Dict.t) : Series :=
  zip (DataFrame.union_keys recs)
      ((fun c => default VNaN (Dict.get c r)) <$> DataFrame.union_keys recs).

(** The loop that writes a table into a sheet cell by cell, as both
    projectors run it: [op] is the cell operation, [guard] tells which
    column offsets are written, [ro] and [co] are the row and column
    where the table goes. *)
Definition grid_row (op : Z -> Z -> value -> worksheet -> result worksheet)
           (guard : Z -> bool) (ro co : Z)
           (ws : worksheet) (irow : Z * list value) : result worksheet :=
  rfoldl (fun ws jv => if guard jv.1 then op (ro + irow.1) (co + jv.1) jv.2 ws else Ok ws)
         ws (enumerate 0 irow.2).

(** The value the table has for column offset [j] of a row, and for
    row offset [i] and column offset [j]. *)
Definition row_at (guard : Z -> bool) (row : list value) (j : Z) : option value :=
  if decide (0 <= j) then (if guard j then row !! Z.to_nat j else None) else None.

Definition grid_at (guard : Z -> bool) (rows : list (list value)) (i j : Z)
  : option value :=
  if decide (0 <= i) then rows !! Z.to_nat i ≫= (fun row => row_at guard row j)
  else None.

(** The value a cell holds once [o] is written over [old]; [fin] is the
    value the cell operation leaves. *)
Definition written_over (fin : value -> value -> value)
           (o : option value) (old : value) : value :=
  match o with Some v => fin v old | None => old end.

(** The inputs of the closed examples. *)
Definition example_csv : DataFrame.t :=
  DataFrame.Make ["Date"; "Flight"]%string [[VStr "15/03/2024"; VStr "AZ100"]].

Definition example_day : date := Date 2024 3 15.

Definition example_flights : gmap date Series :=
  {[ example_day := [("Date"%string, VDate example_day);
                     ("Flight"%string, VStr "AZ100")] ]}.

Definition example_dir : Workflow.pdf_directory :=
  fun fname =>
    if String.eqb fname "GIUGNO_2024.pdf"
    then Some [Some [[Some "10/06/2024"; Some "RI"];
                     [Some "n/a"; Some "XX"];
                     [Some "10/06/2024"; Some " FE "]]]%string
    else None.

Definition example_templates : gmap string worksheet :=
  {[ "APRILE 2023.xlsx"%string := {[ (1, 1) := VStr "APRILE" ]} ]}.

Definition example_data_dir : list string :=
  ["GENNAIO_2024.pdf"; "NOTE_2024.pdf"; "readme.txt"; "APRILE_2024.pdf";
   ".hidden_2024.pdf"]%string.

(** A frame with a value in every column of every row. *)
Definition frame_wf (df : DataFrame.t) : Prop :=
  Forall (fun vs => length vs = length (DataFrame.columns df)) (DataFrame.values df).

(** Whether a header names a date, as the tabular parser decides it. *)
Definition names_date (c : string) : bool := Str.contains "date" (Str.lower c).

(** The date a record of the flights index is filed under. *)
Definition row_key (row : Series) : option date :=
  match Dict.get "Date" row with
  | Some (VDate d) => Some d
  | _ => None
  end.

Definition index_row (flights : gmap date Series) (row : Series) : gmap date Series :=
  match row_key row with
  | Some d => <[d := row]> flights
  | None => flights
  end.

(** The text of the summary, as the renderer's loops lay it out: for
    each month a heading, a line per row of the month and the line of
    the three counters. *)
Definition join (l : list string) : string := foldr String.append EmptyString l.

Definition entry_line (row : Series) : string :=
  ("- " ++ str_of_value (default VNone (Dict.get "Date" row)) ++ ": "
        ++ str_of_value (default VNone (Dict.get "Type" row)) ++ Workflow.nl)%string.

Definition section_text (df : DataFrame.t) (m : Z) : string :=
  let rows := entries_of_month df m in
  ("# " ++ Workflow.month_name m ++ " 2024" ++ Workflow.nl
        ++ join (entry_line <$> rows)
        ++ Workflow.summary_line (count_type is_volo rows) (count_type is_code rows)
                                 (count_type is_off rows))%string.

(** A directory that holds, besides the documents of [example_dir], a
    document whose name is not in the fixed list. *)
Definition example_dir_with_note : Workflow.pdf_directory :=
  fun fname =>
    if String.eqb fname "NOTE_2024.pdf"
    then Some [Some [[Some "11/06/2024"; Some "XX"]]]%string
    else example_dir fname.

(** The month of a document name, the output file of that month, and
    whether a template directory has a template for it (its own or the
    generic one). *)
Definition month_key (pdf_name : string) : string := Str.split_head "_" pdf_name.

Definition month_file (pdf_name : string) : string :=
  (month_key pdf_name ++ " 2024.xlsx")%string.

Definition has_template (tpls : gmap string worksheet) (pdf_name : string) : Prop :=
  is_Some (tpls !! (month_key pdf_name ++ " 2023.xlsx")%string)
  \/ is_Some (tpls !! "2023.xlsx"%string).

(** A name without an underscore. *)
Definition no_underscore (s : string) : Prop :=
  "_"%char ∉ list_ascii_of_string s.

(** The calendar date a timeline entry is for: the [date] object that
    its Date holds, or the date that its Date string names. *)
Definition entry_day (entry : Dict.t) : option date :=
  match Dict.get "Date" entry with
  | Some (VDate d) => Some d
  | Some (VStr s) =>
      match Workflow.strptime_ymd (VStr s) with
      | Ok d => Some d
      | Raise _ => None
      end
  | _ => None
  end.

(** A flights index whose records bring, under Date, nothing but the
    date they are filed under, as they do when [parse_csv] builds it. *)
Definition dated_by_key (flights : gmap date Series) : Prop :=
  forall d row v,
    flights !! d = Some row -> last_value "Date" row = Some v -> v = VDate d.

(** A run with two documents of the same month and one document whose
    month has no template. *)
Definition example_march_dir : list string :=
  ["MARZO_2024.pdf"; "GENNAIO_2024.pdf"; "MARZO_bis_2024.pdf"]%string.

Definition example_march_templates : gmap string worksheet :=
  {[ "MARZO 2023.xlsx"%string := {[ (1, 1) := VStr "MARZO" ]} ]}.



(** ** Calendar arithmetic *)

Section Calendar.

Lemma divmod_eq (q r k x : Z) :
  0 <= r < k -> x = k * q + r -> x / k = q /\ x mod k = r.
Proof.
  intros Hr ->. split.
  - symmetry. apply (Z.div_unique _ _ q r); lia.
  - symmetry. apply (Z.mod_unique _ _ q r); lia.
Qed.

Lemma year_digits y :
  1 <= y ->
  exists a b c d,
    0 <= a /\ 0 <= b < 4 /\ 0 <= c < 25 /\ 0 <= d < 4
    /\ y = 400 * a + 100 * b + 4 * c + d + 1
    /\ days_before_year y = 146097 * a + 36524 * b + 1461 * c + 365 * d
    /\ is_leap y = leap_digits b c d.
Proof.
  intros Hy.
  exists ((y - 1) / 400), ((y - 1) mod 400 / 100),
         ((y - 1) mod 400 mod 100 / 4), ((y - 1) mod 400 mod 100 mod 4).
  unfold days_before_year, is_leap, leap_digits.
  repeat split; try (Z.div_mod_to_equations; lia).
Qed.

Lemma ord2ymd_digits a b c d n :
  0 <= a -> 0 <= b < 4 -> 0 <= c < 25 -> 0 <= d < 4 ->
  0 <= n < 365 + (if leap_digits b c d then 1 else 0) ->
  ord2ymd (146097 * a + 36524 * b + 1461 * c + 365 * d + n + 1) =
  let '(m, dd) := ord2md (leap_digits b c d) n in
  Date (400 * a + 100 * b + 4 * c + d + 1) m dd.
Proof.
  intros Ha Hb Hc Hd Hn. unfold ord2ymd. cbv zeta.
  unfold DI400Y, DI100Y, DI4Y.
  replace (146097 * a + 36524 * b + 1461 * c + 365 * d + n + 1 - 1)
    with (146097 * a + (36524 * b + 1461 * c + 365 * d + n)) by lia.
  assert (Hleap : leap_digits b c d = true -> d = 3 /\ (c <> 24 \/ b = 3))
    by (unfold leap_digits; lia).
  destruct (divmod_eq a (36524 * b + 1461 * c + 365 * d + n) 146097
              (146097 * a + (36524 * b + 1461 * c + 365 * d + n)))
    as [-> ->]; [destruct (leap_digits b c d); lia | lia |].
  destruct (Z.eq_dec n 365) as [-> | Hn365].
  - (* the last day of a leap year *)
    destruct (leap_digits b c d) eqn:E; [| lia].
    destruct (Hleap eq_refl) as [-> Hcb].
    destruct (Z.eq_dec c 24) as [-> | Hc24].
    + assert (b = 3) as -> by lia.
      replace (36524 * 3 + 1461 * 24 + 365 * 3 + 365) with (36524 * 4) by lia.
      change (36524 * 4 / 36524) with 4. change ((36524 * 4) mod 36524) with 0.
      change (0 mod 1461) with 0. change (0 / 1461) with 0. change (0 / 365) with 0.
      change (ord2md true 365) with (12, 31). simpl. f_equal. lia.
    + destruct (divmod_eq b (1461 * c + 1460) 36524
                  (36524 * b + 1461 * c + 365 * 3 + 365)) as [-> ->]; [lia | lia |].
      destruct (divmod_eq c 1460 1461 (1461 * c + 1460)) as [-> ->]; [lia | lia |].
      change (1460 / 365) with 4. change (ord2md true 365) with (12, 31).
      simpl. f_equal. lia.
  - assert (n < 365) by (destruct (leap_digits b c d); lia).
    destruct (divmod_eq b (1461 * c + 365 * d + n) 36524
                (36524 * b + 1461 * c + 365 * d + n)) as [-> ->]; [lia | lia |].
    destruct (divmod_eq c (365 * d + n) 1461 (1461 * c + 365 * d + n))
      as [-> ->]; [lia | lia |].
    destruct (divmod_eq d n 365 (365 * d + n)) as [-> ->]; [lia | lia |].
    replace ((d =? 4) || (b =? 4)) with false by lia.
    fold (leap_digits b c d).
    destruct (ord2md (leap_digits b c d) n). f_equal. lia.
Qed.

Lemma ord2ymd_year_day y n :
  1 <= y -> 0 <= n < 365 + (if is_leap y then 1 else 0) ->
  ord2ymd (days_before_year y + n + 1) =
  let '(m, d) := ord2md (is_leap y) n in Date y m d.
Proof.
  intros Hy Hn.
  destruct (year_digits y Hy) as (a & b & c & d & Ha & Hb & Hc & Hd & Ey & Ed & El).
  rewrite Ed, El in *. rewrite ord2ymd_digits by assumption.
  destruct (ord2md (leap_digits b c d) n). f_equal. lia.
Qed.

Lemma days_before_year_bound y :
  1 <= y <= 9999 ->
  0 <= days_before_year y
  /\ days_before_year y + 365 + (if is_leap y then 1 else 0) <= MAXORDINAL.
Proof.
  intros Hy. unfold days_before_year, MAXORDINAL, is_leap. cbv zeta.
  destruct (_ && _) eqn:E; Z.div_mod_to_equations; lia.
Qed.

Lemma rmap_ok {A B} (f : A -> result B) (g : A -> B) (l : list A) :
  (forall a, a ∈ l -> f a = Ok (g a)) -> rmap f l = Ok (g <$> l).
Proof.
  induction l as [|a l IH]; intros H; [reflexivity|]. simpl.
  rewrite (H a) by left. simpl.
  rewrite IH by (intros; apply H; by right). reflexivity.
Qed.

Lemma calendar_month_days y :
  calendar y = (fun md => Date y md.1 md.2) <$> month_days (is_leap y).
Proof.
  unfold calendar, month_days, days_in_month.
  destruct (is_leap y); vm_compute; reflexivity.
Qed.

Lemma ord2md_month_days leapyear :
  ord2md leapyear <$> range 0 (365 + (if leapyear then 1 else 0))
  = month_days leapyear.
Proof. destruct leapyear; vm_compute; reflexivity. Qed.

Lemma month_days_sorted leapyear : StronglySorted md_lt (month_days leapyear).
Proof.
  destruct leapyear;
    apply (bool_decide_eq_true_1 _); vm_compute; reflexivity.
Qed.

Lemma length_month_days leapyear :
  length (month_days leapyear) = if leapyear then 366%nat else 365%nat.
Proof. destruct leapyear; vm_compute; reflexivity. Qed.

Lemma date_range_calendar y :
  MINYEAR <= y <= MAXYEAR -> Workflow.date_range y = Ok (calendar y).
Proof.
  unfold MINYEAR, MAXYEAR. intros Hy. unfold Workflow.date_range, mkdate.
  replace ((MINYEAR <=? y) && (y <=? MAXYEAR)) with true
    by (unfold MINYEAR, MAXYEAR; lia).
  assert (Hdec : days_in_month y 12 = 31) by reflexivity.
  assert (Hjan : days_in_month y 1 = 31) by reflexivity.
  rewrite Hdec, Hjan. simpl.
  assert (Hlen : sub_days (Date y 12 31) (Date y 1 1) + 1
                 = 365 + (if is_leap y then 1 else 0)).
  { unfold sub_days, toordinal, ymd2ord, days_before_month. simpl.
    destruct (is_leap y); lia. }
  rewrite Hlen.
  rewrite (rmap_ok _ (fun n => let '(m, d) := ord2md (is_leap y) n in Date y m d)).
  - f_equal. rewrite calendar_month_days, <- ord2md_month_days.
    rewrite <- list_fmap_compose. apply list_fmap_ext.
    intros _ n _. simpl. by destruct (ord2md (is_leap y) n).
  - intros n Hn. unfold range in Hn. apply elem_of_seqZ in Hn.
    destruct (days_before_year_bound y Hy) as [H0 Hmax].
    unfold add_days, toordinal, ymd2ord, days_before_month. simpl.
    replace (days_before_year y + (0 + 0) + 1 + n)
      with (days_before_year y + n + 1) by lia.
    replace ((0 <? days_before_year y + n + 1)
             && (days_before_year y + n + 1 <=? MAXORDINAL)) with true
      by (destruct (is_leap y); lia).
    unfold fromordinal. f_equal. apply ord2ymd_year_day; [lia|].
    destruct (is_leap y); lia.
Qed.

Lemma elem_of_calendar y d :
  d ∈ calendar y <->
  year d = y /\ 1 <= month d <= 12 /\ 1 <= day d <= days_in_month y (month d).
Proof.
  unfold calendar, range. rewrite list_elem_of_bind. split.
  - intros (m & Hd & Hm). apply list_elem_of_fmap in Hd as (dd & -> & Hdd).
    apply elem_of_seqZ in Hm, Hdd. simpl. lia.
  - intros (<- & Hm & Hd). exists (month d). split.
    + apply list_elem_of_fmap. exists (day d). split; [by destruct d|].
      apply elem_of_seqZ. lia.
    + apply elem_of_seqZ. lia.
Qed.

Lemma calendar_sorted y : StronglySorted Datetime.lt (calendar y).
Proof.
  rewrite calendar_month_days.
  apply (StronglySorted_fmap _ md_lt); [|apply month_days_sorted].
  intros a b Hab. unfold md_lt in Hab. unfold Datetime.lt. simpl. lia.
Qed.

Lemma length_calendar y : length (calendar y) = days_in_year y.
Proof.
  rewrite calendar_month_days, length_fmap. apply length_month_days.
Qed.

Lemma lt_irrefl d : ~ Datetime.lt d d.
Proof. unfold Datetime.lt. lia. Qed.

Lemma StronglySorted_lt_NoDup (l : list date) :
  StronglySorted Datetime.lt l -> NoDup l.
Proof.
  induction 1 as [|d l _ IH Hall]; constructor; [|assumption].
  intros Hin. rewrite Forall_forall in Hall.
  exact (lt_irrefl d (Hall d Hin)).
Qed.

End Calendar.

(** ** Dictionaries *)

Section DictFacts.

Lemma get_set_eq k v d : Dict.get k (Dict.set k v d) = Some v.
Proof.
  induction d as [|[k' v'] d IH]; simpl.
  - by rewrite String.eqb_refl.
  - destruct (String.eqb_spec k k') as [->|Hne]; simpl.
    + by rewrite String.eqb_refl.
    + destruct (String.eqb_spec k k'); [done|]. apply IH.
Qed.

Lemma get_set_ne k k' v d :
  k <> k' -> Dict.get k (Dict.set k' v d) = Dict.get k d.
Proof.
  intros Hne. induction d as [|[k0 v0] d IH]; simpl.
  - destruct (String.eqb_spec k k'); [done|reflexivity].
  - destruct (String.eqb_spec k' k0) as [->|Hne0]; simpl.
    + destruct (String.eqb_spec k k0); [done|reflexivity].
    + destruct (String.eqb_spec k k0); [reflexivity|apply IH].
Qed.

Lemma get_app k d1 d2 :
  Dict.get k (d1 ++ d2)
  = match Dict.get k d1 with Some v => Some v | None => Dict.get k d2 end.
Proof.
  induction d1 as [|[k' v'] d1 IH]; simpl; [reflexivity|].
  destruct (String.eqb_spec k k'); [reflexivity|apply IH].
Qed.

Lemma get_update k items d :
  Dict.get k (Dict.update items d)
  = match last_value k items with Some v => Some v | None => Dict.get k d end.
Proof.
  unfold Dict.update, last_value. revert d.
  induction items as [|[k' v'] items IH]; intros d; simpl; [reflexivity|].
  rewrite IH, reverse_cons, get_app. simpl.
  destruct (Dict.get k (reverse items)); [reflexivity|].
  destruct (String.eqb_spec k k') as [->|Hne].
  - apply get_set_eq.
  - by apply get_set_ne.
Qed.

Lemma get_is_Some k (d : Dict.t) : is_Some (Dict.get k d) <-> k ∈ d.*1.
Proof.
  induction d as [|[k' v'] d IH]; simpl.
  - split; [by intros [? ?]|by intros ?%elem_of_nil].
  - rewrite elem_of_cons. destruct (String.eqb_spec k k') as [->|Hne].
    + split; [by left|by eexists].
    + rewrite IH. split; [by right|]. by intros [?|?].
Qed.

Lemma last_value_is_Some k (items : list (string * value)) :
  k ∈ items.*1 -> is_Some (last_value k items).
Proof.
  intros Hk. unfold last_value. apply get_is_Some.
  by rewrite fmap_reverse, elem_of_reverse.
Qed.

(** With distinct labels, the last binding of a label is its binding. *)
Lemma last_value_NoDup k (items : list (string * value)) :
  NoDup items.*1 -> last_value k items = Dict.get k items.
Proof.
  unfold last_value. induction items as [|[k' v'] items IH]; [reflexivity|].
  rewrite fmap_cons, NoDup_cons. intros [Hnotin Hnd].
  rewrite reverse_cons, get_app, IH by done. simpl.
  destruct (String.eqb_spec k k') as [->|Hne]; [|by destruct (Dict.get k items)].
  destruct (Dict.get k' items) eqn:E; [|reflexivity].
  exfalso. apply Hnotin, get_is_Some. by eexists.
Qed.

End DictFacts.

(** ** The calendar merge *)

Section Merge.

Variable flights : gmap date Series.
Variable codes : gmap (option date) string.

Lemma build_entry_flight day row :
  flights !! day = Some row ->
  Workflow.build_entry flights codes day = Dict.update row (assigned day "Volo").
Proof. intros H. unfold Workflow.build_entry. by rewrite H. Qed.

Lemma build_entry_code day code :
  flights !! day = None -> codes !! Some day = Some code ->
  Workflow.build_entry flights codes day = assigned day code.
Proof. intros H1 H2. unfold Workflow.build_entry. by rewrite H1, H2. Qed.

Lemma build_entry_off day :
  flights !! day = None -> codes !! Some day = None ->
  Workflow.build_entry flights codes day = assigned day "OFF (auto)".
Proof. intros H1 H2. unfold Workflow.build_entry. by rewrite H1, H2. Qed.

Lemma length_consolidate days :
  length (Workflow.consolidate days flights codes) = length days.
Proof. unfold Workflow.consolidate. apply length_fmap. Qed.

Lemma build_consolidated_2024 :
  Workflow.build_consolidated flights codes
  = Ok (DataFrame.of_records
          (Workflow.consolidate (calendar 2024) flights codes)).
Proof.
  unfold Workflow.build_consolidated.
  rewrite date_range_calendar by (unfold MINYEAR, MAXYEAR; lia).
  reflexivity.
Qed.

End Merge.

(** ** The tabular parser *)

Section ParseCsv.

Variable to_datetime_column : list value -> list (option date).

(** Every record of the flights index carries, under its own Date
    label, the [date] object it is indexed by. *)
Lemma parse_csv_rows_carry_their_date (df : DataFrame.t) (flights : gmap date Series)
      (d : date) (row : Series) :
  Workflow.parse_csv to_datetime_column df = Ok flights ->
  flights !! d = Some row -> Dict.get "Date" row = Some (VDate d).
Proof.
  unfold Workflow.parse_csv. intros Hrun.
  destruct (Workflow.find_date_col _) as [date_col|]; simpl in Hrun;
    [|discriminate Hrun].
  destruct (DataFrame.column _ _) as [col|]; simpl in Hrun; [|discriminate Hrun].
  revert Hrun.
  generalize (DataFrame.iterrows
                (DataFrame.set_column "Date"
                   (Workflow.date_value <$> to_datetime_column col) df)).
  intros rows Hrun.
  assert (Hinv : forall (acc : gmap date Series),
             (forall d row, acc !! d = Some row -> Dict.get "Date" row = Some (VDate d)) ->
             forall flights,
               rfoldl (fun (flights : gmap date Series) row =>
                         d ← series_get "Date" row;
                         Ok (match d with
                             | VDate d => <[d := row]> flights
                             | _ => flights
                             end)) acc rows = Ok flights ->
               forall d row, flights !! d = Some row ->
                             Dict.get "Date" row = Some (VDate d)).
  { clear. induction rows as [|r rows IH]; intros acc Hacc fl Hrun.
    - injection Hrun as <-. exact Hacc.
    - cbn [rfoldl] in Hrun.
      destruct (series_get "Date" r) as [v|e] eqn:Ev; simpl in Hrun;
        [|discriminate Hrun].
      unfold series_get in Ev.
      destruct (Dict.get "Date" r) as [v'|] eqn:Ev'; [|discriminate Ev].
      injection Ev as ->.
      refine (IH _ _ fl Hrun).
      intros d' row'. destruct v; try apply Hacc.
      rewrite lookup_insert. destruct (decide (d = d')) as [->|]; [|apply Hacc].
      by intros [= <-]. }
  apply (Hinv ∅); [|exact Hrun].
  intros d' row' H. by rewrite lookup_empty in H.
Qed.

(** Hence, with distinct labels, the entry of a flight day holds that
    [date] object under Date, whatever the file and the parser. *)
Lemma flight_entry_date (df : DataFrame.t) (flights : gmap date Series)
      (codes : gmap (option date) string) (d : date) (row : Series) :
  Workflow.parse_csv to_datetime_column df = Ok flights ->
  flights !! d = Some row -> NoDup row.*1 ->
  Dict.get "Date" (Workflow.build_entry flights codes d) = Some (VDate d).
Proof.
  intros Hcsv Hrow Hnd.
  rewrite (build_entry_flight _ _ _ _ Hrow), get_update, last_value_NoDup by done.
  by rewrite (parse_csv_rows_carry_their_date df flights d row Hcsv Hrow).
Qed.

End ParseCsv.

(** C2 (as amended). For every day, the entry's Type follows the
    priority flights, codes, default: when the day is a key of the
    flights index every field of the record is in the entry with the
    record's value, and Type is "Volo" unless the record has a field
    named Type, whose value it then is; else, when the day is a key of
    the codes index, Type is that code; otherwise Type is "OFF (auto)". *)
Theorem C2_type_by_priority
    (flights : gmap date Series) (codes : gmap (option date) string) (day : date) :
  let entry := Workflow.build_entry flights codes day in
  match flights !! day with
  | Some row =>
      (forall k, k ∈ row.*1 ->
                 is_Some (last_value k row) /\ Dict.get k entry = last_value k row)
      /\ Dict.get "Type" entry
         = match last_value "Type" row with
           | Some v => Some v
           | None => Some (VStr "Volo")
           end
  | None =>
      match codes !! Some day with
      | Some code =>
          Dict.get "Type" entry = Some (VStr code) /\ entry = assigned day code
      | None =>
          Dict.get "Type" entry = Some (VStr "OFF (auto)")
          /\ entry = assigned day "OFF (auto)"
      end
  end.
Proof.
  intros entry. subst entry.
  destruct (flights !! day) as [row|] eqn:Hf.
  - rewrite (build_entry_flight _ _ _ _ Hf). split.
    + intros k Hk. destruct (last_value_is_Some k row Hk) as [v Hv].
      split; [by eexists|]. by rewrite get_update, Hv.
    + rewrite get_update. by destruct (last_value "Type" row).
  - destruct (codes !! Some day) as [code|] eqn:Hc.
    + by rewrite (build_entry_code _ _ _ _ Hf Hc).
    + by rewrite (build_entry_off _ _ _ Hf Hc).
Qed.

Lemma C2_witness :
  let day := Date 2024 6 10 in
  let codes : gmap (option date) string := {[ Some day := "RI"%string ]} in
  Workflow.build_entry ∅ codes day = assigned day "RI".
Proof.
  intros day codes.
  pose proof (C2_type_by_priority ∅ codes day) as H.
  cbv zeta in H. rewrite lookup_empty in H.
  unfold codes in H at 1. rewrite lookup_singleton_eq in H.
  exact (proj2 H).
Defined.

Lemma C2_counterexample :
  let day := Date 2024 3 15 in
  let row : Series := [("Date"%string, VDate day); ("Type"%string, VStr "Charter")] in
  let flights : gmap date Series := {[ day := row ]} in
  flights !! day = Some row
  /\ Dict.get "Type" (Workflow.build_entry flights ∅ day) = Some (VStr "Charter")
  /\ Dict.get "Type" (Workflow.build_entry flights ∅ day) <> Some (VStr "Volo").
Proof.
  intros day row flights.
  assert (H : flights !! day = Some row) by apply lookup_singleton_eq.
  split; [exact H|].
  rewrite (build_entry_flight _ _ _ _ H).
  split; [reflexivity|discriminate].
Qed.

(** C4. When the day is a key of the flights index, the entry is the
    merge-assigned pair (ISO date string, "Volo") updated with the items
    of the record, in order: a field named Date or Type of the record
    replaces the assigned value, whatever it is, and nothing is raised. *)
Theorem C4_record_fields_overwrite
    (flights : gmap date Series) (codes : gmap (option date) string)
    (day : date) (row : Series) :
  flights !! day = Some row ->
  Workflow.build_entry flights codes day = Dict.update row (assigned day "Volo")
  /\ forall k, k = "Date"%string \/ k = "Type"%string ->
       k ∈ row.*1 ->
       exists v, last_value k row = Some v
                 /\ Dict.get k (Workflow.build_entry flights codes day) = Some v.
Proof.
  intros Hf. rewrite (build_entry_flight _ _ _ _ Hf). split; [reflexivity|].
  intros k _ Hk. destruct (last_value_is_Some k row Hk) as [v Hv].
  exists v. split; [exact Hv|]. by rewrite get_update, Hv.
Qed.

Lemma C4_witness :
  let day := Date 2024 3 15 in
  let row : Series := [("Date"%string, VDate day); ("Type"%string, VStr "Charter")] in
  let flights : gmap date Series := {[ day := row ]} in
  flights !! day = Some row
  /\ Workflow.build_entry flights ∅ day = [("Date"%string, VDate day); ("Type"%string, VStr "Charter")].
Proof.
  intros day row flights.
  assert (H : flights !! day = Some row) by apply lookup_singleton_eq.
  split; [exact H|].
  destruct (C4_record_fields_overwrite flights ∅ day row H) as [-> _].
  reflexivity.
Defined.

(** ** The flight example of the specification *)

(** C3 (the code at the example). A CSV whose only row reads
    15/03/2024 with Flight=AZ100 is indexed under 2024-03-15 with a
    record that carries the parsed [date] object in its own Date field;
    the merge copies it over the ISO string, so the entry of that day
    holds a [date] object under Date, not the string "2024-03-15", and
    the summary renderer, which parses Date as a string, raises
    TypeError on the consolidated frame. *)
Theorem C3_example_entry_holds_a_date_object :
  Workflow.parse_csv read_dmy_column example_csv = Ok example_flights
  /\ Workflow.build_entry example_flights ∅ example_day
     = [("Date"%string, VDate example_day); ("Type"%string, VStr "Volo");
        ("Flight"%string, VStr "AZ100")]
  /\ Workflow.build_entry example_flights ∅ example_day
     <> [("Date"%string, VStr "2024-03-15"); ("Type"%string, VStr "Volo");
         ("Flight"%string, VStr "AZ100")]
  /\ (df ← Workflow.build_consolidated example_flights ∅;
      Workflow.generate_trace_md df) = Raise TypeError.
Proof.
  assert (Hl : example_flights !! example_day
               = Some [("Date"%string, VDate example_day);
                       ("Flight"%string, VStr "AZ100")])
    by apply lookup_singleton_eq.
  split; [vm_compute; reflexivity|].
  rewrite (build_entry_flight _ _ _ _ Hl).
  split; [reflexivity|]. split; [discriminate|].
  vm_compute. reflexivity.
Qed.

(** ** The document parser *)

Section ParsePdfs.

Variable to_datetime : string -> result (option date).
Variable NaT_truthy : bool.

Local Abbreviation parse_row := (Workflow.parse_row to_datetime NaT_truthy).
Local Abbreviation parse_pdfs := (Workflow.parse_pdfs to_datetime NaT_truthy).
Local Abbreviation row_date := (row_date to_datetime).

Lemma truthy_false s : Str.truthy s = false <-> s = EmptyString.
Proof. destruct s; simpl; split; congruence. Qed.

Lemma foldl_bind {A B C} (f : C -> B -> C) (g : A -> list B) (c : C) (l : list A) :
  foldl f c (l ≫= g) = foldl (fun c a => foldl f c (g a)) c l.
Proof.
  revert c. induction l as [|a l IH]; intros c; [reflexivity|].
  rewrite bind_cons, foldl_app. simpl. apply IH.
Qed.

Lemma foldl_ext {A B} (f g : B -> A -> B) (b : B) (l : list A) :
  (forall b a, f b a = g b a) -> foldl f b l = foldl g b l.
Proof.
  intros H. revert b. induction l as [|a l IH]; intros b; [reflexivity|].
  simpl. by rewrite H, IH.
Qed.

Lemma parse_pdfs_all_rows dir : parse_pdfs dir = foldl parse_row ∅ (all_rows dir).
Proof.
  unfold Workflow.parse_pdfs, all_rows. rewrite foldl_bind.
  apply foldl_ext. intros cbd fname. unfold Workflow.parse_file.
  rewrite foldl_bind. destruct (dir fname) as [pages|]; [|reflexivity]. simpl.
  apply foldl_ext. intros cbd' page. unfold Workflow.parse_page.
  by destruct page.
Qed.

(** The code the parser computes for a row is [row_code]. *)
Lemma parse_row_code (rest : list (option string)) s0 :
  match rest with
  | Some s1 :: _ => if Str.truthy s1 then Str.strip s1 else EmptyString
  | _ => EmptyString
  end = row_code (Some s0 :: rest).
Proof.
  destruct rest as [|[s1|] rest]; simpl; try reflexivity.
  destruct s1; reflexivity.
Qed.

Lemma parse_row_yield cbd row d c :
  row_date row = Some d -> row_code row = c -> c <> EmptyString ->
  parse_row cbd row = <[Some d := c]> cbd.
Proof.
  intros Hd Hc Hne. destruct row as [|[s0|] rest]; try discriminate.
  unfold Workflow.parse_row. simpl in Hd.
  destruct (Str.truthy s0); [|discriminate]. simpl.
  destruct (to_datetime s0) as [[d'|]|]; try discriminate.
  injection Hd as ->. rewrite (parse_row_code rest s0), Hc. simpl.
  destruct c; [done|reflexivity].
Qed.

Lemma parse_row_empty_code cbd row :
  row_code row = EmptyString -> parse_row cbd row = cbd.
Proof.
  intros Hc. destruct row as [|[s0|] rest]; try reflexivity.
  unfold Workflow.parse_row. destruct (Str.truthy s0); [|reflexivity]. simpl.
  destruct (to_datetime s0) as [dt|]; [|reflexivity].
  rewrite (parse_row_code rest s0), Hc. simpl. by rewrite andb_false_r.
Qed.

(** A row without a date leaves every calendar date of the index as it
    was; it changes nothing at all when [NaT] counts as false, and
    otherwise at most the entry kept under the [NaT] key. *)
Lemma parse_row_no_date cbd row :
  row_date row = None ->
  (forall d, parse_row cbd row !! Some d = cbd !! Some d)
  /\ (NaT_truthy = false -> parse_row cbd row = cbd)
  /\ (forall k, k <> None -> parse_row cbd row !! k = cbd !! k).
Proof.
  intros Hd.
  assert (H : parse_row cbd row = cbd
              \/ (NaT_truthy = true /\ exists c, parse_row cbd row = <[None := c]> cbd)).
  { destruct row as [|[s0|] rest]; try (by left).
    unfold Workflow.parse_row. simpl in Hd.
    destruct (Str.truthy s0); [|by left]. simpl.
    destruct (to_datetime s0) as [[d'|]|]; try discriminate; [|by left].
    simpl. destruct NaT_truthy; [|by left]. simpl.
    destruct (Str.truthy _); [|by left]. right. split; [done|by eexists]. }
  destruct H as [->|(Ht & c & ->)]; [done|].
  split; [|split].
  - intros d. by rewrite lookup_insert_ne.
  - congruence.
  - intros k Hk. by rewrite lookup_insert_ne.
Qed.


Lemma parse_row_other cbd row d :
  (row_date row = Some d -> row_code row = EmptyString) ->
  parse_row cbd row !! Some d = cbd !! Some d.
Proof.
  intros H. destruct (row_date row) as [d'|] eqn:Hd.
  - destruct (string_dec (row_code row) EmptyString) as [Hc|Hc].
    + by rewrite parse_row_empty_code.
    + rewrite (parse_row_yield cbd row d' _ Hd eq_refl Hc).
      apply lookup_insert_ne. intros [= ->]. by apply Hc, H.
  - by apply parse_row_no_date.
Qed.

Lemma foldl_parse_row_other cbd rows d :
  (forall r, r ∈ rows -> row_date r = Some d -> row_code r = EmptyString) ->
  foldl parse_row cbd rows !! Some d = cbd !! Some d.
Proof.
  revert cbd. induction rows as [|r rows IH]; intros cbd H; [reflexivity|].
  simpl. rewrite IH by (intros; apply H; [by right|done]).
  apply parse_row_other, H. by left.
Qed.

End ParsePdfs.




(** ** Worksheets *)

Section Sheets.

Implicit Types ws : worksheet.

Lemma rfoldl_app {A B} (f : B -> A -> result B) (b : B) (l1 l2 : list A) :
  rfoldl f b (l1 ++ l2) = b' ← rfoldl f b l1; rfoldl f b' l2.
Proof.
  revert b. induction l1 as [|a l1 IH]; intros b; [reflexivity|].
  simpl. destruct (f b a) as [b'|e]; simpl; [apply IH|reflexivity].
Qed.

Lemma rfoldl_ext {A B} (f g : B -> A -> result B) (b : B) (l : list A) :
  (forall b a, f b a = g b a) -> rfoldl f b l = rfoldl g b l.
Proof.
  intros H. revert b. induction l as [|a l IH]; intros b; [reflexivity|].
  simpl. rewrite H. destruct (g b a); simpl; [apply IH|reflexivity].
Qed.

Lemma enumerate_snoc {A} (s : Z) (l : list A) (x : A) :
  enumerate s (l ++ [x]) = enumerate s l ++ [(s + Z.of_nat (length l), x)].
Proof.
  unfold enumerate. rewrite length_app. simpl.
  replace (length l + 1)%nat with (S (length l)) by lia.
  rewrite seqZ_S.
  apply (zip_with_app pair _ [s + Z.of_nat (length l)] l [x]).
  rewrite length_seqZ. lia.
Qed.

Lemma range_snoc (lo : Z) (n : nat) :
  range lo (lo + Z.of_nat (S n)) = range lo (lo + Z.of_nat n) ++ [lo + Z.of_nat n].
Proof.
  unfold range.
  replace (lo + Z.of_nat (S n) - lo) with (Z.of_nat (S n)) by lia.
  replace (lo + Z.of_nat n - lo) with (Z.of_nat n) by lia.
  apply seqZ_S.
Qed.

Lemma cell_value_insert r c v ws r' c' :
  Openpyxl.cell_value (<[(r, c) := v]> ws) r' c'
  = if decide ((r, c) = (r', c')) then v else Openpyxl.cell_value ws r' c'.
Proof.
  unfold Openpyxl.cell_value. rewrite lookup_insert.
  by destruct (decide ((r, c) = (r', c'))).
Qed.

Lemma max_column_insert k v ws :
  Openpyxl.max_column (<[k := v]> ws) = Z.max k.2 (Openpyxl.max_column ws).
Proof.
  unfold Openpyxl.max_column.
  assert (Hcomm : forall (j1 j2 : Z * Z) (y : Z),
             Z.max j1.2 (Z.max j2.2 y) = Z.max j2.2 (Z.max j1.2 y)) by (intros; lia).
  destruct (ws !! k) as [old|] eqn:E.
  - rewrite <- (insert_delete_eq ws).
    rewrite map_fold_insert_L;
      [|intros; apply Hcomm|apply lookup_delete_eq].
    rewrite <- (insert_delete_id ws k old E) at 2.
    rewrite map_fold_insert_L;
      [|intros; apply Hcomm|apply lookup_delete_eq].
    simpl. lia.
  - rewrite map_fold_insert_L; [reflexivity|intros; apply Hcomm|exact E].
Qed.

Lemma max_column_ge_1 ws : 1 <= Openpyxl.max_column ws.
Proof.
  unfold Openpyxl.max_column.
  apply (map_fold_weak_ind (fun b _ => 1 <= b)); [lia|]. intros; lia.
Qed.

Lemma max_column_bound ws r c v : ws !! (r, c) = Some v -> c <= Openpyxl.max_column ws.
Proof.
  intros H. rewrite <- (insert_id ws (r, c) v H), max_column_insert. simpl. lia.
Qed.

Lemma cell_value_beyond ws r c :
  Openpyxl.max_column ws < c -> Openpyxl.cell_value ws r c = VNone.
Proof.
  intros H. unfold Openpyxl.cell_value.
  destruct (ws !! (r, c)) as [v|] eqn:E; [|reflexivity].
  apply max_column_bound in E. lia.
Qed.

(** Fetching a cell creates it at most; no value changes. *)
Lemma cell_spec r c ws :
  1 <= r -> 1 <= c ->
  exists ws',
    Openpyxl.cell r c ws = Ok ws'
    /\ (forall r' c', Openpyxl.cell_value ws' r' c' = Openpyxl.cell_value ws r' c')
    /\ Openpyxl.max_column ws' = Z.max c (Openpyxl.max_column ws).
Proof.
  intros Hr Hc. unfold Openpyxl.cell.
  replace ((r <? 1) || (c <? 1)) with false by lia.
  destruct (ws !! (r, c)) as [v|] eqn:E.
  - exists ws. split; [reflexivity|]. split; [reflexivity|].
    apply max_column_bound in E. lia.
  - eexists. split; [reflexivity|]. split.
    + intros r' c'. rewrite cell_value_insert.
      destruct (decide _) as [[= <- <-]|]; [|reflexivity].
      unfold Openpyxl.cell_value. by rewrite E.
    + by rewrite max_column_insert.
Qed.

Lemma set_value_spec r c v ws :
  1 <= r -> 1 <= c ->
  exists ws',
    Openpyxl.set_value r c v ws = Ok ws'
    /\ Openpyxl.cell_value ws' r c = v
    /\ (forall r' c', (r', c') <> (r, c) ->
                      Openpyxl.cell_value ws' r' c' = Openpyxl.cell_value ws r' c')
    /\ Openpyxl.max_column ws' = Z.max c (Openpyxl.max_column ws).
Proof.
  intros Hr Hc. unfold Openpyxl.set_value.
  destruct (cell_spec r c ws Hr Hc) as (ws1 & -> & Hv & Hm). simpl.
  eexists. split; [reflexivity|]. split; [|split].
  - rewrite cell_value_insert. by destruct (decide _).
  - intros r' c' Hne. rewrite cell_value_insert.
    destruct (decide _) as [[= <- <-]|]; [done|apply Hv].
  - rewrite max_column_insert, Hm. simpl. lia.
Qed.

Lemma cell_with_value_spec r c v ws :
  1 <= r -> 1 <= c ->
  exists ws',
    Openpyxl.cell_with_value r c v ws = Ok ws'
    /\ Openpyxl.cell_value ws' r c
       = (if is_none v then Openpyxl.cell_value ws r c else v)
    /\ (forall r' c', (r', c') <> (r, c) ->
                      Openpyxl.cell_value ws' r' c' = Openpyxl.cell_value ws r' c').
Proof.
  intros Hr Hc. unfold Openpyxl.cell_with_value.
  destruct (cell_spec r c ws Hr Hc) as (ws1 & -> & Hv & Hm). simpl.
  eexists. split; [reflexivity|]. destruct (is_none v).
  - split; [apply Hv|]. intros; apply Hv.
  - split.
    + rewrite cell_value_insert. by destruct (decide _).
    + intros r' c' Hne. rewrite cell_value_insert.
      destruct (decide _) as [[= <- <-]|]; [done|apply Hv].
Qed.

Lemma clear_cell_spec r c ws :
  1 <= r -> 1 <= c ->
  exists ws',
    FromPdfs.clear_cell r c ws = Ok ws'
    /\ Openpyxl.cell_value ws' r c = VNone
    /\ (forall r' c', (r', c') <> (r, c) ->
                      Openpyxl.cell_value ws' r' c' = Openpyxl.cell_value ws r' c')
    /\ Openpyxl.max_column ws' = Z.max c (Openpyxl.max_column ws).
Proof.
  intros Hr Hc. unfold FromPdfs.clear_cell.
  destruct (cell_spec r c ws Hr Hc) as (ws1 & -> & Hv & Hm). simpl.
  eexists. split; [reflexivity|].
  destruct (is_none (Openpyxl.cell_value ws1 r c)) eqn:E.
  - split; [by destruct (Openpyxl.cell_value ws1 r c)|].
    split; [intros; apply Hv|exact Hm].
  - split; [|split].
    + rewrite cell_value_insert. by destruct (decide _).
    + intros r' c' Hne. rewrite cell_value_insert.
      destruct (decide _) as [[= <- <-]|]; [done|apply Hv].
    + rewrite max_column_insert, Hm. simpl. lia.
Qed.

End Sheets.

(** ** Writing a table into a sheet, cell by cell *)

Section Grid.

(** The cell operation of the loop, with the value it leaves in the
    cell, given the written value and the one the cell had. *)
Variable op : Z -> Z -> value -> worksheet -> result worksheet.
Variable fin : value -> value -> value.
Hypothesis op_spec : forall r c v (ws : worksheet),
  1 <= r -> 1 <= c ->
  exists ws' : worksheet,
    op r c v ws = Ok ws'
    /\ Openpyxl.cell_value ws' r c = fin v (Openpyxl.cell_value ws r c)
    /\ (forall r' c', (r', c') <> (r, c) ->
                      Openpyxl.cell_value ws' r' c' = Openpyxl.cell_value ws r' c').

(** Which columns of the table are written, and where the table goes. *)
Variable guard : Z -> bool.
Variables ro co : Z.
Hypothesis co_pos : 1 <= co.

Lemma row_at_snoc row v j :
  row_at guard (row ++ [v]) j
  = if decide (j = Z.of_nat (length row))
    then (if guard j then Some v else None)
    else row_at guard row j.
Proof.
  unfold row_at. destruct (decide (0 <= j)) as [Hj|Hj].
  - destruct (guard j); [|by destruct (decide _)].
    destruct (decide (j = Z.of_nat (length row))) as [->|Hne].
    + rewrite Nat2Z.id, lookup_app_r by lia.
      by rewrite Nat.sub_diag.
    + destruct (decide (Z.to_nat j < length row)%nat).
      * by rewrite lookup_app_l.
      * rewrite !lookup_ge_None_2; [done|lia|rewrite length_app; simpl; lia].
  - destruct (decide _); [lia|done].
Qed.

Lemma grid_at_snoc rows row i j :
  grid_at guard (rows ++ [row]) i j
  = if decide (i = Z.of_nat (length rows)) then row_at guard row j else grid_at guard rows i j.
Proof.
  unfold grid_at. destruct (decide (0 <= i)) as [Hi|Hi].
  - destruct (decide (i = Z.of_nat (length rows))) as [->|Hne].
    + rewrite Nat2Z.id, lookup_app_r by lia.
      by rewrite Nat.sub_diag.
    + destruct (decide (Z.to_nat i < length rows)%nat).
      * by rewrite lookup_app_l.
      * rewrite !lookup_ge_None_2; [done|lia|rewrite length_app; simpl; lia].
  - destruct (decide _); [lia|done].
Qed.

Lemma grid_row_spec (i : Z) (row : list value) (ws : worksheet) :
  1 <= ro + i ->
  exists ws' : worksheet,
    grid_row op guard ro co ws (i, row) = Ok ws'
    /\ forall r c,
        Openpyxl.cell_value ws' r c
        = written_over fin (if decide (r = ro + i) then row_at guard row (c - co) else None)
                       (Openpyxl.cell_value ws r c).
Proof.
  intros Hi. unfold grid_row. simpl.
  induction row as [|v row IH] using rev_ind.
  - exists ws. split; [reflexivity|]. intros r c.
    destruct (decide _); [|reflexivity].
    unfold row_at. destruct (decide _); [|reflexivity].
    by destruct (guard _).
  - destruct IH as (ws1 & Hrun & Hval).
    rewrite enumerate_snoc, rfoldl_app, Hrun. simpl.
    set (j := 0 + Z.of_nat (length row)).
    destruct (guard j) eqn:Hg.
    + destruct (op_spec (ro + i) (co + j) v ws1) as (ws2 & -> & Hnew & Hold);
        [lia|lia|].
      exists ws2. split; [reflexivity|]. intros r c. rewrite row_at_snoc.
      destruct (decide ((r, c) = (ro + i, co + j))) as [[= -> ->]|Hne].
      * rewrite Hnew, Hval.
        replace (co + j - co) with j by lia.
        destruct (decide (ro + i = ro + i)); [|done].
        destruct (decide (j = Z.of_nat (length row))); [|lia].
        rewrite Hg. unfold row_at. destruct (decide (0 <= j)); [|lia].
        rewrite Hg, lookup_ge_None_2 by lia. reflexivity.
      * rewrite Hold, Hval by done.
        destruct (decide (r = ro + i)) as [->|]; [|reflexivity].
        destruct (decide (c - co = Z.of_nat (length row))); [|reflexivity].
        exfalso. apply Hne. f_equal. lia.
    + exists ws1. split; [reflexivity|]. intros r c. rewrite row_at_snoc, Hval.
      destruct (decide (r = ro + i)); [|reflexivity].
      destruct (decide (c - co = Z.of_nat (length row))) as [Hc|]; [|reflexivity].
      replace (c - co) with j by lia. rewrite Hg.
      unfold row_at. destruct (decide (0 <= j)); [|reflexivity].
      by rewrite Hg.
Qed.

Lemma grid_spec (s : Z) (rows : list (list value)) (ws : worksheet) :
  1 <= ro + s ->
  exists ws' : worksheet,
    rfoldl (grid_row op guard ro co) ws (enumerate s rows) = Ok ws'
    /\ forall r c,
        Openpyxl.cell_value ws' r c
        = written_over fin (grid_at guard rows (r - ro - s) (c - co))
                       (Openpyxl.cell_value ws r c).
Proof.
  intros Hs. induction rows as [|row rows IH] using rev_ind.
  - exists ws. split; [reflexivity|]. intros r c. unfold grid_at.
    by destruct (decide _).
  - destruct IH as (ws1 & Hrun & Hval).
    rewrite enumerate_snoc, rfoldl_app, Hrun. simpl.
    destruct (grid_row_spec (s + Z.of_nat (length rows)) row ws1)
      as (ws2 & -> & Hval2); [lia|].
    exists ws2. split; [reflexivity|]. intros r c.
    rewrite Hval2, Hval, grid_at_snoc.
    destruct (decide (r = ro + (s + Z.of_nat (length rows)))) as [->|Hne].
    + destruct (decide _) as [_|]; [|lia].
      replace (grid_at guard rows _ _) with (@None value); [reflexivity|].
      unfold grid_at. destruct (decide _); [|reflexivity].
      rewrite lookup_ge_None_2 by lia. reflexivity.
    + destruct (decide _) as [|_]; [lia|]. reflexivity.
Qed.

End Grid.

(** ** Overwrite mode *)

Section Overwrite.

Lemma touch_cells_spec (r : Z) (cols : list Z) (ws : worksheet) :
  1 <= r -> Forall (fun c => 1 <= c) cols ->
  exists ws' : worksheet,
    rfoldl (fun w c => Openpyxl.cell r c w) ws cols = Ok ws'
    /\ forall r' c', Openpyxl.cell_value ws' r' c' = Openpyxl.cell_value ws r' c'.
Proof.
  intros Hr Hcols. revert ws.
  induction Hcols as [|c cols Hc _ IH]; intros ws.
  - by exists ws.
  - simpl. destruct (cell_spec r c ws Hr Hc) as (ws1 & -> & Hv & _). simpl.
    destruct (IH ws1) as (ws2 & -> & Hv2). exists ws2.
    split; [reflexivity|]. intros. by rewrite Hv2, Hv.
Qed.

Lemma row_values_spec (r : Z) (ws : worksheet) :
  1 <= r ->
  exists (ws' : worksheet) (header : list value),
    Openpyxl.row_values r ws = Ok (ws', header)
    /\ Z.of_nat (length header) = Openpyxl.max_column ws
    /\ forall r' c', Openpyxl.cell_value ws' r' c' = Openpyxl.cell_value ws r' c'.
Proof.
  intros Hr. unfold Openpyxl.row_values.
  destruct (touch_cells_spec r (range 1 (Openpyxl.max_column ws + 1)) ws Hr)
    as (ws1 & -> & Hv).
  { unfold range. apply Forall_seqZ. lia. }
  simpl. do 2 eexists. split; [reflexivity|]. split; [|exact Hv].
  rewrite length_fmap. unfold range. rewrite length_seqZ.
  pose proof (max_column_ge_1 ws). lia.
Qed.

Lemma overwrite_sheet_spec (df : DataFrame.t) (ws : worksheet) :
  exists ws' : worksheet,
    Workflow.overwrite_sheet df ws = Ok ws'
    /\ forall r c,
        Openpyxl.cell_value ws' r c
        = written_over (fun v _ => v)
            (grid_at (fun j => j <? Openpyxl.max_column ws)
                     (DataFrame.to_rows df) (r - 0 - 2) (c - 1))
            (Openpyxl.cell_value ws r c).
Proof.
  unfold Workflow.overwrite_sheet.
  destruct (row_values_spec 1 ws) as (ws1 & header & -> & Hlen & Hv); [lia|].
  simpl. rewrite Hlen.
  destruct (grid_spec Openpyxl.set_value (fun v _ => v)) with
    (guard := fun j => j <? Openpyxl.max_column ws) (ro := 0) (co := 1)
    (s := 2) (rows := DataFrame.to_rows df) (ws := ws1)
    as (ws2 & Hrun & Hval); [|lia|lia|].
  { intros r c v w Hr Hc.
    destruct (set_value_spec r c v w Hr Hc) as (w' & ? & ? & ? & _). eauto. }
  exists ws2. split.
  - rewrite <- Hrun. apply rfoldl_ext. intros w [i row]. unfold grid_row. simpl.
    apply rfoldl_ext. intros w' [j v]. simpl. by rewrite (Z.add_comm 1 j).
  - intros r c. by rewrite Hval, Hv.
Qed.

Lemma overwrite_sheet_overwritten (df : DataFrame.t) (ws : worksheet) :
  exists ws' : worksheet,
    Workflow.overwrite_sheet df ws = Ok ws' /\ sheet_overwritten df ws ws'.
Proof.
  destruct (overwrite_sheet_spec df ws) as (ws' & Hrun & Hval).
  exists ws'. split; [exact Hrun|]. unfold sheet_overwritten. cbv zeta.
  unfold DataFrame.len, DataFrame.to_rows in *. split; [|split].
  - intros r c Hout. rewrite Hval. unfold grid_at, row_at.
    destruct (decide (0 <= r - 0 - 2)) as [Hr|]; [|reflexivity].
    destruct (DataFrame.values df !! Z.to_nat (r - 0 - 2)) as [row|] eqn:E;
      [|reflexivity].
    apply lookup_lt_Some in E. simpl.
    destruct (decide (0 <= c - 1)) as [Hc|]; [|reflexivity].
    replace (c - 1 <? Openpyxl.max_column ws) with false by lia. reflexivity.
  - intros i j row v Hi Hj Hw. rewrite Hval. unfold grid_at, row_at.
    replace (2 + Z.of_nat i - 0 - 2) with (Z.of_nat i) by lia.
    replace (1 + Z.of_nat j - 1) with (Z.of_nat j) by lia.
    destruct (decide _); [|lia]. rewrite !Nat2Z.id, Hi. simpl.
    destruct (decide _); [|lia].
    replace (Z.of_nat j <? Openpyxl.max_column ws) with true by lia.
    by rewrite Hj.
  - intros i j row Hi Hj. rewrite Hval. unfold grid_at, row_at.
    replace (2 + Z.of_nat i - 0 - 2) with (Z.of_nat i) by lia.
    replace (1 + Z.of_nat j - 1) with (Z.of_nat j) by lia.
    destruct (decide _); [|lia]. rewrite !Nat2Z.id, Hi. simpl.
    destruct (decide _); [|lia]. rewrite Hj.
    by destruct (_ <? _).
Qed.

Lemma rmap_Forall2 {A B} (f : A -> result B) (P : A -> B -> Prop) (l : list A) :
  (forall a, a ∈ l -> exists b, f a = Ok b /\ P a b) ->
  exists bs, rmap f l = Ok bs /\ Forall2 P l bs.
Proof.
  induction l as [|a l IH]; intros H.
  - exists []. split; [reflexivity|constructor].
  - destruct (H a) as (b & Hb & HP); [by left|].
    destruct IH as (bs & Hbs & HF); [intros; apply H; by right|].
    exists (b :: bs). simpl. rewrite Hb. simpl. rewrite Hbs. simpl.
    split; [reflexivity|by constructor].
Qed.

End Overwrite.

(** C6. Overwrite mode succeeds on every directory, keeps the files and
    their names, and in every spreadsheet changes cells only in rows 2
    to L+1 and columns 1 to the width of the header row: the header
    row, the rows beyond L+1 and the columns past the header width keep
    their values, each cell inside takes the timeline value at its
    position, and a header column with no timeline field keeps its own.
    Files that are not spreadsheets are left as they are. *)
Theorem C6_overwrite_frame
    (consolidated_df : DataFrame.t) (out_dir : list (string * worksheet)) :
  exists out_dir',
    Workflow.overwrite_excel_files consolidated_df out_dir = Ok out_dir'
    /\ Forall2 (fun old new =>
                  new.1 = old.1
                  /\ if Str.endswith (Str.lower old.1) ".xlsx"
                     then sheet_overwritten consolidated_df old.2 new.2
                     else new.2 = old.2)
               out_dir out_dir'.
Proof.
  unfold Workflow.overwrite_excel_files. apply rmap_Forall2.
  intros [fname ws] _. simpl.
  destruct (Str.endswith (Str.lower fname) ".xlsx").
  - destruct (overwrite_sheet_overwritten consolidated_df ws) as (ws' & -> & H).
    simpl. eexists. split; [reflexivity|]. by split.
  - eexists. split; [reflexivity|]. by split.
Qed.

Lemma C6_witness :
  let ws : worksheet := {[ (1, 1) := VStr "Date"; (1, 2) := VStr "Type" ]} in
  let df := DataFrame.Make ["Date"; "Type"]%string
                           [[VStr "2024-01-01"; VStr "OFF (auto)"]] in
  exists out_dir',
    Workflow.overwrite_excel_files df [("plan.XLSX"%string, ws)] = Ok out_dir'
    /\ length out_dir' = 1%nat.
Proof.
  intros ws df.
  destruct (C6_overwrite_frame df [("plan.XLSX"%string, ws)]) as (out' & Hrun & HF).
  exists out'. split; [exact Hrun|].
  apply Forall2_length in HF. symmetry. exact HF.
Defined.

(** ** Per-month template mode: clearing and writing *)

Section WriteDf.

Lemma clear_row_spec (r : Z) (n : nat) (ws : worksheet) :
  1 <= r -> Z.of_nat n <= Openpyxl.max_column ws ->
  exists ws' : worksheet,
    rfoldl (fun w c => FromPdfs.clear_cell r c w) ws (range 1 (1 + Z.of_nat n))
    = Ok ws'
    /\ Openpyxl.max_column ws' = Openpyxl.max_column ws
    /\ forall r' c',
        Openpyxl.cell_value ws' r' c'
        = if decide (r' = r /\ 1 <= c' <= Z.of_nat n) then VNone
          else Openpyxl.cell_value ws r' c'.
Proof.
  intros Hr. induction n as [|n IH]; intros Hn.
  - exists ws. split; [reflexivity|]. split; [reflexivity|]. intros r' c'.
    destruct (decide _); [lia|reflexivity].
  - destruct IH as (ws1 & Hrun & Hmax & Hval); [lia|].
    rewrite range_snoc, rfoldl_app, Hrun. simpl.
    destruct (clear_cell_spec r (1 + Z.of_nat n) ws1) as (ws2 & -> & Hnew & Hold & Hm);
      [lia|lia|].
    exists ws2. split; [reflexivity|]. split; [lia|]. intros r' c'.
    destruct (decide ((r', c') = (r, 1 + Z.of_nat n))) as [[= -> ->]|Hne].
    + rewrite Hnew. destruct (decide _); [reflexivity|lia].
    + rewrite Hold, Hval by done.
      destruct (decide (r' = r /\ 1 <= c' <= Z.of_nat n)) as [H|H];
        destruct (decide (r' = r /\ 1 <= c' <= Z.of_nat (S n))) as [H'|H'];
        try reflexivity; try lia.
      exfalso. apply Hne. f_equal; lia.
Qed.

Lemma clear_rows_spec (start_row : Z) (n : nat) (ws : worksheet) :
  1 <= start_row ->
  exists ws' : worksheet,
    FromPdfs.clear_region start_row (Z.of_nat n) ws = Ok ws'
    /\ Openpyxl.max_column ws' = Openpyxl.max_column ws
    /\ forall r c,
        Openpyxl.cell_value ws' r c
        = if decide (start_row <= r < start_row + Z.of_nat n
                     /\ 1 <= c <= Openpyxl.max_column ws)
          then VNone else Openpyxl.cell_value ws r c.
Proof.
  intros Hs. unfold FromPdfs.clear_region. induction n as [|n IH].
  - exists ws. replace (start_row + Z.of_nat 0) with start_row by lia.
    unfold range. rewrite Z.sub_diag. split; [reflexivity|].
    split; [reflexivity|]. intros r c. destruct (decide _); [lia|reflexivity].
  - destruct IH as (ws1 & Hrun & Hmax & Hval).
    rewrite range_snoc, rfoldl_app, Hrun. simpl.
    pose proof (max_column_ge_1 ws1) as Hge.
    replace (Openpyxl.max_column ws1 + 1)
      with (1 + Z.of_nat (Z.to_nat (Openpyxl.max_column ws1))) by lia.
    destruct (clear_row_spec (start_row + Z.of_nat n)
                (Z.to_nat (Openpyxl.max_column ws1)) ws1)
      as (ws2 & -> & Hmax2 & Hval2); [lia|lia|].
    exists ws2. split; [reflexivity|]. split; [lia|]. intros r c.
    rewrite Hval2, Hval, Z2Nat.id, Hmax by lia.
    repeat destruct (decide _); try reflexivity; lia.
Qed.

Lemma write_values_spec (df : DataFrame.t) (start_row start_col : Z) (ws : worksheet) :
  1 <= start_row -> 1 <= start_col ->
  exists ws' : worksheet,
    FromPdfs.write_values df start_row start_col ws = Ok ws'
    /\ forall r c,
        Openpyxl.cell_value ws' r c
        = written_over (fun v old => if is_none v then old else v)
            (grid_at (fun _ => true) (DataFrame.to_rows df)
                     (r - start_row - 0) (c - start_col))
            (Openpyxl.cell_value ws r c).
Proof.
  intros Hr Hc. unfold FromPdfs.write_values.
  destruct (grid_spec Openpyxl.cell_with_value
              (fun v old => if is_none v then old else v))
    with (guard := fun _ : Z => true) (ro := start_row) (co := start_col)
         (s := 0) (rows := DataFrame.to_rows df) (ws := ws)
    as (ws2 & Hrun & Hval); [|lia|lia|].
  { intros r c v w Hr' Hc'. apply cell_with_value_spec; lia. }
  exists ws2. split; [|exact Hval].
  rewrite <- Hrun. apply rfoldl_ext. intros w [i row]. unfold grid_row. simpl.
  apply rfoldl_ext. by intros w' [j v].
Qed.

Lemma grid_at_Some (rows : list (list value)) (i j : Z) v :
  grid_at (fun _ => true) rows i j = Some v ->
  exists (i' j' : nat) row,
    i = Z.of_nat i' /\ j = Z.of_nat j' /\ rows !! i' = Some row /\ row !! j' = Some v.
Proof.
  unfold grid_at, row_at. destruct (decide (0 <= i)) as [Hi|]; [|discriminate].
  destruct (rows !! Z.to_nat i) as [row|] eqn:E; [|discriminate]. simpl.
  destruct (decide (0 <= j)) as [Hj|]; [|discriminate]. intros Hv.
  exists (Z.to_nat i), (Z.to_nat j), row. repeat split; try lia; assumption.
Qed.

Lemma grid_at_lookup (rows : list (list value)) (i j : nat) row v :
  rows !! i = Some row -> row !! j = Some v ->
  grid_at (fun _ => true) rows (Z.of_nat i) (Z.of_nat j) = Some v.
Proof.
  intros Hi Hj. unfold grid_at, row_at.
  destruct (decide _); [|lia]. rewrite !Nat2Z.id, Hi. simpl.
  destruct (decide _); [|lia]. exact Hj.
Qed.

End WriteDf.

(** C7. Writing an extracted table of R rows into a template sheet,
    from a start row and column that exist (1 or more): first the cells
    of rows start_row to start_row + max(50, R+10) - 1, in columns 1 to
    the sheet's last column, are emptied and no other cell changes;
    then the value at row i, column j of the table is in cell
    (start_row + i, start_col + j); every cell that is not written
    keeps the value it had after the clearing, so a cell outside the
    cleared region that is not written keeps its template value. *)
Theorem C7_clear_then_write_positionally
    (df : DataFrame.t) (start_row start_col : Z) (ws : worksheet) :
  1 <= start_row -> 1 <= start_col ->
  exists ws1 ws2 : worksheet,
    FromPdfs.clear_region start_row (Z.max 50 (DataFrame.len df + 10)) ws = Ok ws1
    /\ (forall r c,
           Openpyxl.cell_value ws1 r c
           = if decide (in_cleared_region df start_row ws r c) then VNone
             else Openpyxl.cell_value ws r c)
    /\ FromPdfs.write_values df start_row start_col ws1 = Ok ws2
    /\ FromPdfs.write_df_into_workbook df start_row start_col ws = Ok ws2
    /\ (forall (i j : nat) row v,
           DataFrame.values df !! i = Some row -> row !! j = Some v ->
           Openpyxl.cell_value ws2 (start_row + Z.of_nat i) (start_col + Z.of_nat j)
           = v)
    /\ (forall r c,
           (forall (i j : nat) row v,
               DataFrame.values df !! i = Some row -> row !! j = Some v ->
               (r, c) <> (start_row + Z.of_nat i, start_col + Z.of_nat j)) ->
           Openpyxl.cell_value ws2 r c = Openpyxl.cell_value ws1 r c).
Proof.
  intros Hr Hc.
  set (N := Z.max 50 (DataFrame.len df + 10)).
  assert (HN : N = Z.of_nat (Z.to_nat N)) by (unfold N; lia).
  destruct (clear_rows_spec start_row (Z.to_nat N) ws Hr) as (ws1 & Hclear & Hmax & Hv1).
  rewrite <- HN in Hclear, Hv1.
  destruct (write_values_spec df start_row start_col ws1 Hr Hc) as (ws2 & Hwrite & Hv2).
  exists ws1, ws2. split; [exact Hclear|].
  assert (Hregion : forall r c,
             Openpyxl.cell_value ws1 r c
             = if decide (in_cleared_region df start_row ws r c) then VNone
               else Openpyxl.cell_value ws r c).
  { intros r c. rewrite Hv1.
    destruct (decide (in_cleared_region df start_row ws r c)) as [Hin|Hin];
      unfold in_cleared_region in Hin; fold N in Hin;
      destruct (decide _); tauto. }
  split; [exact Hregion|]. split; [exact Hwrite|]. split.
  { unfold FromPdfs.write_df_into_workbook. cbv zeta. fold N.
    rewrite Hclear. exact Hwrite. }
  split.
  - intros i j row v Hi Hj. rewrite Hv2.
    replace (start_row + Z.of_nat i - start_row - 0) with (Z.of_nat i) by lia.
    replace (start_col + Z.of_nat j - start_col) with (Z.of_nat j) by lia.
    unfold DataFrame.to_rows. rewrite (grid_at_lookup _ _ _ _ _ Hi Hj). simpl.
    destruct v; try reflexivity. simpl. rewrite Hregion.
    destruct (decide _) as [|Hout]; [reflexivity|].
    apply cell_value_beyond. unfold in_cleared_region in Hout. fold N in Hout.
    apply lookup_lt_Some in Hi. unfold DataFrame.len in N. lia.
  - intros r c Hnot. rewrite Hv2.
    destruct (grid_at _ _ _ _) as [v|] eqn:E; [|reflexivity].
    apply grid_at_Some in E as (i & j & row & Hi & Hj & Hrow & Hv).
    exfalso. apply (Hnot i j row v Hrow Hv). f_equal; lia.
Qed.

Lemma C7_witness :
  let ws : worksheet := {[ (1, 1) := VStr "Title"; (4, 1) := VStr "old";
                           (60, 1) := VStr "footer" ]} in
  let df := DataFrame.Make ["a"]%string [[VStr "x"]] in
  exists ws2 : worksheet,
    FromPdfs.write_df_into_workbook df 4 1 ws = Ok ws2
    /\ Openpyxl.cell_value ws2 4 1 = VStr "x".
Proof.
  intros ws df.
  destruct (C7_clear_then_write_positionally df 4 1 ws)
    as (ws1 & ws2 & _ & _ & _ & Hrun & Hval & _); [lia|lia|].
  exists ws2. split; [exact Hrun|].
  exact (Hval 0%nat 0%nat [VStr "x"] (VStr "x") eq_refl eq_refl).
Defined.

(** ** Per-month template mode: the run over the documents *)

Section Run.

Variable extract : string -> result DataFrame.t.

Local Abbreviation main_step := (FromPdfs.main_step extract).
Local Abbreviation process_month_pdf := (FromPdfs.process_month_pdf extract).

Global Instance str_le_total : Total str_le.
Proof. intros a b. apply String.leb_total. Qed.

Global Instance str_le_trans : Transitive str_le.
Proof.
  unfold str_le, String.leb. intros a.
  induction a as [|c1 a IH]; intros [|c2 b] [|c3 c]; simpl; try done.
  unfold Ascii.compare.
  destruct (N.compare_spec (N_of_ascii c1) (N_of_ascii c2));
    destruct (N.compare_spec (N_of_ascii c2) (N_of_ascii c3));
    destruct (N.compare_spec (N_of_ascii c1) (N_of_ascii c3));
    try done; try lia.
  apply IH.
Qed.

Lemma pdf_files_sorted data_dir : StronglySorted str_le (FromPdfs.pdf_files data_dir).
Proof. apply StronglySorted_merge_sort; apply _. Qed.

Lemma pdf_files_perm data_dir :
  FromPdfs.pdf_files data_dir ≡ₚ List.filter FromPdfs.matches_2024_pdf data_dir.
Proof. apply merge_sort_Permutation. Qed.

Lemma elem_of_pdf_files data_dir f :
  f ∈ FromPdfs.pdf_files data_dir
  <-> f ∈ data_dir
      /\ String.prefix "." f = false
      /\ list_ascii_of_string "_2024.pdf" `suffix_of` list_ascii_of_string f.
Proof.
  rewrite pdf_files_perm, list_elem_of_In, filter_In, <- list_elem_of_In.
  unfold FromPdfs.matches_2024_pdf, Str.endswith.
  rewrite andb_true_iff, negb_true_iff, bool_decide_eq_true. reflexivity.
Qed.

Lemma main_step_alone (st : FromPdfs.state) (created : list string) (pdf : string) :
  FromPdfs.templates (main_step (st, created) pdf).1 = FromPdfs.templates st
  /\ FromPdfs.stdout (main_step (st, created) pdf).1
     = FromPdfs.stdout st ++ step_log extract (FromPdfs.templates st) pdf
  /\ (main_step (st, created) pdf).2
     = created ++ step_created extract (FromPdfs.templates st) pdf.
Proof.
  unfold step_log, step_created, FromPdfs.main_step, FromPdfs.process_month_pdf,
    FromPdfs.find_template, fresh. simpl.
  destruct (FromPdfs.templates st !! _) as [tpl|];
    [|destruct (FromPdfs.templates st !! _) as [tpl|]]; simpl;
    try (destruct (extract pdf) as [df|e]; simpl;
         [destruct (DataFrame.empty df); simpl;
          [|destruct (FromPdfs.write_df_into_workbook _ _ _ _); simpl]|]);
    rewrite ?app_nil_r, <- ?app_assoc; auto.
Qed.

Lemma run_alone (files : list string) (st : FromPdfs.state) (created : list string) :
  FromPdfs.templates (foldl main_step (st, created) files).1 = FromPdfs.templates st
  /\ FromPdfs.stdout (foldl main_step (st, created) files).1
     = FromPdfs.stdout st
       ++ concat (step_log extract (FromPdfs.templates st) <$> files)
  /\ (foldl main_step (st, created) files).2
     = created ++ concat (step_created extract (FromPdfs.templates st) <$> files).
Proof.
  revert st created. induction files as [|pdf files IH]; intros st created.
  - simpl. by rewrite !app_nil_r.
  - simpl. destruct (main_step (st, created) pdf) as [st1 cr1] eqn:E.
    pose proof (main_step_alone st created pdf) as (Ht & Hs & Hc).
    rewrite E in Ht, Hs, Hc. simpl in Ht, Hs, Hc.
    destruct (IH st1 cr1) as (Ht' & Hs' & Hc').
    rewrite Ht', Hs', Hc', Ht, Hs, Hc, <- !app_assoc. auto.
Qed.

Lemma step_created_succeeds tpls pdf :
  length (step_created extract tpls pdf) = if succeeds extract tpls pdf then 1%nat else 0%nat.
Proof.
  unfold step_created, succeeds, FromPdfs.main_step. simpl.
  by destruct (process_month_pdf pdf (fresh tpls)) as [st' [out|e]].
Qed.

Lemma created_count tpls (files : list string) :
  length (concat (step_created extract tpls <$> files))
  = length (List.filter (succeeds extract tpls) files).
Proof.
  induction files as [|pdf files IH]; [reflexivity|].
  rewrite fmap_cons. simpl. rewrite length_app, IH, step_created_succeeds.
  by destruct (succeeds extract tpls pdf).
Qed.

(** What the whole run prints and leaves: nothing touches the
    templates, each document of [pdf_files] contributes the lines it
    prints on its own, in that order, and the last line counts the
    documents whose processing returned a path. *)
Lemma main_log (data_dir : list string) (st : FromPdfs.state) :
  let files := FromPdfs.pdf_files data_dir in
  let st' := FromPdfs.main extract data_dir st in
  FromPdfs.templates st' = FromPdfs.templates st
  /\ (files = [] -> st' = FromPdfs.print FromPdfs.NoPdfs st)
  /\ (files <> [] ->
      FromPdfs.stdout st'
      = FromPdfs.stdout st
        ++ concat (step_log extract (FromPdfs.templates st) <$> files)
        ++ [FromPdfs.Done
              (length (List.filter (succeeds extract (FromPdfs.templates st)) files))]).
Proof.
  intros files st'. subst st'. unfold FromPdfs.main. fold files.
  destruct files as [|f files'] eqn:E.
  - split; [reflexivity|]. split; [reflexivity|done].
  - rewrite <- E.
    destruct (foldl main_step (st, []) files) as [st1 cr1] eqn:Hrun.
    pose proof (run_alone files st []) as (Ht & Hs & Hc).
    rewrite Hrun in Ht, Hs, Hc. simpl in Ht, Hs, Hc. simpl.
    split; [exact Ht|]. split; [by rewrite E|]. intros _.
    rewrite Hs, Hc, created_count, <- app_assoc. reflexivity.
Qed.

Lemma no_template_raises (pdf : string) (st : FromPdfs.state) :
  FromPdfs.templates st !! (Str.split_head "_" pdf ++ " 2023.xlsx")%string = None ->
  FromPdfs.templates st !! "2023.xlsx"%string = None ->
  process_month_pdf pdf st = (st, Raise FileNotFoundError).
Proof.
  intros H1 H2. unfold FromPdfs.process_month_pdf, FromPdfs.find_template.
  by rewrite H1, H2.
Qed.

End Run.

(** C10. Per-month mode processes the names of the data directory that
    end in _2024.pdf and do not start with a dot, each such name and no
    other, in byte-wise ascending order of the names: the run prints,
    in that order, what each of them prints on its own, then the count.
    The list of twelve month names plays no part. *)
Theorem C10_documents_by_pattern_in_sorted_order
    (extract : string -> result DataFrame.t) (data_dir : list string)
    (st : FromPdfs.state) :
  let files := FromPdfs.pdf_files data_dir in
  let tpls := FromPdfs.templates st in
  let st' := FromPdfs.main extract data_dir st in
  (forall f, f ∈ files
             <-> f ∈ data_dir
                 /\ String.prefix "." f = false
                 /\ list_ascii_of_string "_2024.pdf" `suffix_of` list_ascii_of_string f)
  /\ files ≡ₚ List.filter FromPdfs.matches_2024_pdf data_dir
  /\ StronglySorted str_le files
  /\ (files = [] -> st' = FromPdfs.print FromPdfs.NoPdfs st)
  /\ (files <> [] ->
      FromPdfs.stdout st'
      = FromPdfs.stdout st
        ++ concat (step_log extract tpls <$> files)
        ++ [FromPdfs.Done (length (List.filter (succeeds extract tpls) files))]).
Proof.
  intros files tpls st'.
  split; [intros f; apply elem_of_pdf_files|].
  split; [apply pdf_files_perm|].
  split; [apply pdf_files_sorted|].
  destruct (main_log extract data_dir st) as (_ & Hnil & Hlog). by split.
Qed.

Lemma C10_witness :
  FromPdfs.pdf_files example_data_dir
  = ["APRILE_2024.pdf"; "GENNAIO_2024.pdf"; "NOTE_2024.pdf"]%string
  /\ StronglySorted str_le (FromPdfs.pdf_files example_data_dir)
  /\ ("NOTE_2024.pdf"%string ∈ FromPdfs.pdf_files example_data_dir
      /\ "NOTE_2024.pdf"%string ∉ Workflow.PDF_MONTHS).
Proof.
  destruct (C10_documents_by_pattern_in_sorted_order
              (fun _ => Ok (DataFrame.Make [] [])) example_data_dir
              (fresh example_templates)) as (Hmem & _ & Hsorted & _).
  split; [reflexivity|]. split; [exact Hsorted|]. split.
  - apply Hmem. split; [|split].
    + right. left.
    + reflexivity.
    + by exists (list_ascii_of_string "NOTE").
  - unfold Workflow.PDF_MONTHS. rewrite !elem_of_cons, elem_of_nil.
    intros H. repeat (destruct H as [H|H]; [discriminate H|]). exact H.
Defined.

(** ** The summary renderer *)

Section Trace.

Lemma months_init (m : Z) :
  1 <= m <= 12 ->
  (list_to_map ((fun m => (m, [])) <$> range 1 13) : gmap Z (list Series)) !! m
  = Some [].
Proof.
  intros Hm.
  assert (H : m = 1 \/ m = 2 \/ m = 3 \/ m = 4 \/ m = 5 \/ m = 6 \/ m = 7
              \/ m = 8 \/ m = 9 \/ m = 10 \/ m = 11 \/ m = 12) by lia.
  repeat (destruct H as [->|H]; [reflexivity|]). by subst.
Qed.

Lemma group_rows_spec (rows : list Series) (months0 : gmap Z (list Series))
      (base : Z -> list Series) :
  (forall m, 1 <= m <= 12 -> months0 !! m = Some (base m)) ->
  Forall (fun row => is_Some (entry_month row)) rows ->
  exists months : gmap Z (list Series),
    rfoldl (fun (months : gmap Z (list Series)) row =>
              v ← series_get "Date" row;
              dt ← Workflow.strptime_ymd v;
              Ok (alter (fun rows => rows ++ [row]) (month dt) months))
           months0 rows = Ok months
    /\ forall m, 1 <= m <= 12 ->
                 months !! m = Some (base m ++ List.filter (in_month m) rows).
Proof.
  intros Hbase Hrows. revert months0 base Hbase.
  induction Hrows as [|row rows [mm Hmm] _ IH]; intros months0 base Hbase.
  - exists months0. split; [reflexivity|]. intros m Hm. simpl.
    rewrite app_nil_r. by apply Hbase.
  - simpl. unfold entry_month in Hmm. unfold series_get.
    destruct (Dict.get "Date" row) as [v|] eqn:Ev; [|discriminate]. simpl.
    destruct (Workflow.strptime_ymd v) as [dt|] eqn:Ed; [|discriminate]. simpl.
    injection Hmm as <-.
    destruct (IH (alter (fun rows => rows ++ [row]) (month dt) months0)
                 (fun m => base m ++ (if in_month m row then [row] else [])))
      as (months & Hrun & Hm).
    { intros m Hm. rewrite lookup_alter. unfold in_month, entry_month.
      rewrite Ev, Ed. destruct (decide (month dt = m)) as [->|Hne].
      - rewrite Hbase by done. simpl. by rewrite bool_decide_eq_true_2.
      - rewrite Hbase by done. rewrite bool_decide_eq_false_2 by congruence.
        by rewrite app_nil_r. }
    exists months. split; [exact Hrun|]. intros m Hm'. rewrite Hm by done.
    rewrite <- app_assoc. by destruct (in_month m row).
Qed.

Lemma group_by_month_spec (df : DataFrame.t) :
  renderable df ->
  exists months : gmap Z (list Series),
    Workflow.group_by_month df = Ok months
    /\ forall m, 1 <= m <= 12 -> months !! m = Some (entries_of_month df m).
Proof.
  intros Hdf. unfold Workflow.group_by_month.
  destruct (group_rows_spec (DataFrame.iterrows df)
              (list_to_map ((fun m => (m, [])) <$> range 1 13)) (fun _ => []))
    as (months & Hrun & Hm).
  - apply months_init.
  - eapply Forall_impl; [exact Hdf|]. by intros row [H _].
  - exists months. split; [exact Hrun|exact Hm].
Qed.

Lemma tally_row_spec (acc : Workflow.tally) (row : Series) (t d : value) :
  Dict.get "Type" row = Some t -> Dict.get "Date" row = Some d ->
  exists acc',
    Workflow.tally_row acc row = Ok acc'
    /\ Workflow.vo acc' = Workflow.vo acc + (if is_volo t then 1 else 0)
    /\ Workflow.pdf acc' = Workflow.pdf acc + (if is_code t then 1 else 0)
    /\ Workflow.auto_off acc' = Workflow.auto_off acc + (if is_off t then 1 else 0).
Proof.
  intros Ht Hd. unfold Workflow.tally_row, series_get. rewrite Ht, Hd. simpl.
  eexists. split; [reflexivity|]. unfold is_code, is_volo, is_off.
  destruct (bool_decide (t = VStr "Volo")) eqn:E1; simpl.
  - apply bool_decide_eq_true in E1 as ->.
    rewrite (bool_decide_eq_false_2 (VStr "Volo" = VStr "OFF (auto)")) by discriminate.
    repeat split; lia.
  - destruct (bool_decide (t = VStr "OFF (auto)")); simpl; repeat split; lia.
Qed.

Lemma count_type_cons (p : value -> bool) (row : Series) (rows : list Series) t :
  Dict.get "Type" row = Some t ->
  count_type p (row :: rows) = (if p t then 1 else 0) + count_type p rows.
Proof.
  intros Ht. unfold count_type. simpl. rewrite Ht. destruct (p t); simpl; lia.
Qed.

Lemma tally_rows_spec (rows : list Series) (acc0 : Workflow.tally) :
  Forall (fun row => is_Some (entry_month row) /\ is_Some (Dict.get "Type" row)) rows ->
  exists acc,
    rfoldl Workflow.tally_row acc0 rows = Ok acc
    /\ Workflow.vo acc = Workflow.vo acc0 + count_type is_volo rows
    /\ Workflow.pdf acc = Workflow.pdf acc0 + count_type is_code rows
    /\ Workflow.auto_off acc = Workflow.auto_off acc0 + count_type is_off rows.
Proof.
  intros Hrows. revert acc0.
  induction Hrows as [|row rows [[mm Hmm] [t Ht]] _ IH]; intros acc0.
  - exists acc0. unfold count_type. simpl. repeat split; lia.
  - unfold entry_month in Hmm.
    destruct (Dict.get "Date" row) as [d|] eqn:Ed; [|discriminate].
    destruct (tally_row_spec acc0 row t d Ht Ed) as (acc1 & Hstep & Hvo1 & Hpdf1 & Hoff1).
    destruct (IH acc1) as (acc & Hrun & Hvo & Hpdf & Hoff).
    exists acc. cbn [rfoldl]. rewrite Hstep. simpl. split; [exact Hrun|].
    rewrite !(count_type_cons _ row rows t Ht). repeat split; lia.
Qed.


Lemma entries_of_month_renderable (df : DataFrame.t) (m : Z) :
  renderable df ->
  Forall (fun row => is_Some (entry_month row) /\ is_Some (Dict.get "Type" row))
         (entries_of_month df m).
Proof.
  intros Hdf. apply Forall_forall. intros row Hrow.
  apply list_elem_of_In, filter_In in Hrow as [Hrow _].
  apply list_elem_of_In in Hrow. revert row Hrow. by apply Forall_forall.
Qed.


End Trace.

(** ** The consolidated frame of 2024, as the renderer reads it *)

Section ConsolidatedFrame.

Lemma foldl_add_key_elem (seen ks : list string) (k : string) :
  k ∈ foldl DataFrame.add_key seen ks <-> k ∈ seen \/ k ∈ ks.
Proof.
  revert seen. induction ks as [|k0 ks IH]; intros seen; simpl.
  - rewrite elem_of_nil. tauto.
  - rewrite IH, elem_of_cons. unfold DataFrame.add_key.
    destruct (bool_decide (k0 ∈ seen)) eqn:E.
    + apply bool_decide_eq_true in E. split; [tauto|].
      intros [?|[->|?]]; tauto.
    + rewrite elem_of_app, list_elem_of_singleton. tauto.
Qed.

Lemma elem_of_union_keys (recs : list Dict.t) (r : Dict.t) (k : string) :
  r ∈ recs -> k ∈ Dict.keys r -> k ∈ DataFrame.union_keys recs.
Proof.
  unfold DataFrame.union_keys. generalize (@nil string).
  induction recs as [|r0 recs IH]; intros seen Hr Hk.
  - by apply elem_of_nil in Hr.
  - simpl. apply elem_of_cons in Hr as [->|Hr].
    + clear IH. generalize (foldl DataFrame.add_key seen (Dict.keys r0)),
        (proj2 (foldl_add_key_elem seen (Dict.keys r0) k) (or_intror Hk)).
      induction recs as [|r1 recs IH]; intros seen' Hs; [exact Hs|].
      simpl. apply IH, foldl_add_key_elem. by left.
    + by apply IH.
Qed.

Lemma get_zip_fmap (f : string -> value) (cols : list string) (c : string) :
  c ∈ cols -> Dict.get c (zip cols (f <$> cols)) = Some (f c).
Proof.
  induction cols as [|c0 cols IH]; intros Hc; [by apply elem_of_nil in Hc|].
  simpl. destruct (String.eqb_spec c c0) as [->|Hne]; [reflexivity|].
  apply IH. apply elem_of_cons in Hc as [?|?]; [done|assumption].
Qed.

Lemma iterrows_of_records (recs : list Dict.t) :
  DataFrame.iterrows (DataFrame.of_records recs) = row_of recs <$> recs.
Proof.
  unfold DataFrame.iterrows, DataFrame.of_records, row_of. simpl.
  by rewrite <- list_fmap_compose.
Qed.

(** A row of the frame has, under a label that the record has, the
    value of the record. *)
Lemma row_of_record_get (recs : list Dict.t) (r : Dict.t) (k : string) v :
  r ∈ recs -> Dict.get k r = Some v -> Dict.get k (row_of recs r) = Some v.
Proof.
  intros Hr Hk. unfold row_of. rewrite get_zip_fmap.
  - by rewrite Hk.
  - apply (elem_of_union_keys recs r k Hr). apply get_is_Some. by eexists.
Qed.

Lemma strptime_strftime_2024 :
  Forall (fun d => Workflow.strptime_ymd (VStr (strftime_ymd d)) = Ok d) (calendar 2024).
Proof. apply (bool_decide_eq_true_1 _). vm_compute. reflexivity. Qed.

Lemma days_per_month_2024 (m : Z) :
  1 <= m <= 12 ->
  Z.of_nat (length (List.filter (fun d => bool_decide (month d = m)) (calendar 2024)))
  = days_in_month 2024 m.
Proof.
  intros Hm.
  assert (H : m = 1 \/ m = 2 \/ m = 3 \/ m = 4 \/ m = 5 \/ m = 6 \/ m = 7
              \/ m = 8 \/ m = 9 \/ m = 10 \/ m = 11 \/ m = 12) by lia.
  repeat (destruct H as [->|H]; [vm_compute; reflexivity|]).
  subst. vm_compute. reflexivity.
Qed.

Lemma length_filter_fmap {A B} (p : B -> bool) (q : A -> bool) (f : A -> B) (l : list A) :
  Forall (fun a => p (f a) = q a) l ->
  length (List.filter p (f <$> l)) = length (List.filter q l).
Proof.
  induction 1 as [|a l Ha _ IH]; [reflexivity|].
  rewrite fmap_cons. simpl. rewrite Ha. destruct (q a); simpl; by rewrite IH.
Qed.

Variable flights : gmap date Series.
Variable codes : gmap (option date) string.

(** No flight record brings a Date field of its own. *)
Hypothesis flights_no_date :
  forall day row, flights !! day = Some row -> "Date"%string ∉ row.*1.

Lemma build_entry_date (day : date) :
  Dict.get "Date" (Workflow.build_entry flights codes day)
  = Some (VStr (strftime_ymd day)).
Proof.
  unfold Workflow.build_entry.
  destruct (flights !! day) as [row|] eqn:Hf.
  - rewrite get_update.
    destruct (last_value "Date" row) as [v|] eqn:E; [|reflexivity].
    exfalso. apply (flights_no_date day row Hf).
    unfold last_value in E.
    assert (H : is_Some (Dict.get "Date" (reverse row))) by (by eexists).
    apply get_is_Some in H. by rewrite fmap_reverse, elem_of_reverse in H.
  - by destruct (codes !! Some day).
Qed.

Lemma build_entry_type (day : date) :
  is_Some (Dict.get "Type" (Workflow.build_entry flights codes day)).
Proof.
  unfold Workflow.build_entry.
  destruct (flights !! day) as [row|] eqn:Hf.
  - rewrite get_update. destruct (last_value "Type" row); by eexists.
  - destruct (codes !! Some day); by eexists.
Qed.

Lemma consolidated_rows (days : list date) (day : date) :
  day ∈ days -> Forall (fun d => Workflow.strptime_ymd (VStr (strftime_ymd d)) = Ok d) days ->
  let recs := Workflow.consolidate days flights codes in
  let row := row_of recs (Workflow.build_entry flights codes day) in
  entry_month row = Some (month day) /\ is_Some (Dict.get "Type" row).
Proof.
  intros Hday Hrt recs row.
  assert (Hin : Workflow.build_entry flights codes day ∈ recs).
  { unfold recs, Workflow.consolidate. apply list_elem_of_fmap. by exists day. }
  split.
  - unfold entry_month, row.
    rewrite (row_of_record_get recs _ "Date" _ Hin (build_entry_date day)).
    rewrite Forall_forall in Hrt. by rewrite (Hrt day Hday).
  - destruct (build_entry_type day) as [t Ht]. exists t.
    apply (row_of_record_get recs _ "Type" _ Hin Ht).
Qed.

Lemma consolidated_renderable (df : DataFrame.t) :
  Workflow.build_consolidated flights codes = Ok df ->
  renderable df
  /\ forall m, 1 <= m <= 12 ->
       Z.of_nat (length (entries_of_month df m)) = days_in_month 2024 m.
Proof.
  rewrite build_consolidated_2024. intros Hdf.
  assert (Hdf' : df = DataFrame.of_records
                        (Workflow.consolidate (calendar 2024) flights codes))
    by congruence.
  rewrite Hdf'. clear Hdf Hdf' df.
  pose proof (fun day H => consolidated_rows (calendar 2024) day H
                             strptime_strftime_2024) as Hrow.
  cbv zeta in Hrow.
  assert (Hrows : DataFrame.iterrows
                    (DataFrame.of_records
                       (Workflow.consolidate (calendar 2024) flights codes))
                  = (fun day => row_of (Workflow.consolidate (calendar 2024) flights codes)
                                       (Workflow.build_entry flights codes day))
                      <$> calendar 2024).
  { rewrite iterrows_of_records. unfold Workflow.consolidate at 2.
    by rewrite <- list_fmap_compose. }
  split.
  - unfold renderable. rewrite Hrows.
    apply Forall_fmap, Forall_forall. intros day Hday. simpl.
    destruct (Hrow day Hday) as [Hm Ht]. split; [by eexists|exact Ht].
  - intros m Hm. rewrite <- (days_per_month_2024 m Hm). f_equal.
    unfold entries_of_month. rewrite Hrows.
    apply length_filter_fmap, Forall_forall. intros day Hday.
    destruct (Hrow day Hday) as [Hmd _]. unfold in_month. rewrite Hmd.
    destruct (decide (month day = m)) as [->|Hne].
    + by rewrite !bool_decide_eq_true_2.
    + rewrite !bool_decide_eq_false_2; congruence.
Qed.

End ConsolidatedFrame.

Section Frames.

Lemma position_Some label cols j :
  DataFrame.position label cols = Some j -> cols !! j = Some label.
Proof.
  revert j. induction cols as [|c cols IH]; intros j; simpl; [done|].
  destruct (String.eqb_spec label c) as [->|Hne].
  - by intros [= <-].
  - destruct (DataFrame.position label cols) as [j'|]; simpl; [|done].
    intros [= <-]. simpl. by apply IH.
Qed.

Lemma position_None label cols :
  DataFrame.position label cols = None <-> label ∉ cols.
Proof.
  induction cols as [|c cols IH]; simpl.
  - split; [intros _; apply not_elem_of_nil|done].
  - rewrite not_elem_of_cons. destruct (String.eqb_spec label c) as [->|Hne].
    + split; [done|]. by intros [? _].
    + destruct (DataFrame.position label cols) as [j'|]; simpl.
      * split; [done|]. intros [_ H]. by apply IH in H.
      * split; [|done]. intros _. split; [done|]. by apply IH.
Qed.

Lemma position_elem label cols :
  label ∈ cols -> exists j, DataFrame.position label cols = Some j.
Proof.
  intros H. destruct (DataFrame.position label cols) as [j|] eqn:E; [by eexists|].
  by apply position_None in E.
Qed.

Lemma get_zip_position k (cols : list string) (vs : list value) j :
  DataFrame.position k cols = Some j -> (j < length vs)%nat ->
  Dict.get k (zip cols vs) = vs !! j.
Proof.
  revert vs j. induction cols as [|c cols IH]; intros vs j; simpl; [done|].
  destruct vs as [|v vs]; [simpl; lia|]. simpl.
  destruct (String.eqb_spec k c) as [->|Hne].
  - by intros [= <-] _.
  - destruct (DataFrame.position k cols) as [j'|] eqn:E; simpl; [|done].
    intros [= <-] Hlt. simpl. apply IH; [done|lia].
Qed.

Lemma get_zip_absent k (cols : list string) (vs : list value) :
  k ∉ cols -> Dict.get k (zip cols vs) = None.
Proof.
  revert vs. induction cols as [|c cols IH]; intros vs Hk; [done|].
  destruct vs as [|v vs]; [done|]. simpl.
  apply not_elem_of_cons in Hk as [Hne Hk].
  destruct (String.eqb_spec k c); [done|]. by apply IH.
Qed.

(** The rows of a frame after [df[label] = vals]: the new value under
    the label, every other label as before, the labels distinct when
    the columns are. *)
Lemma set_column_row (label : string) (vals : list value) (df : DataFrame.t)
      (i : nat) (vs : list value) :
  DataFrame.values df !! i = Some vs -> length vs = length (DataFrame.columns df) ->
  exists row,
    DataFrame.iterrows (DataFrame.set_column label vals df) !! i = Some row
    /\ Dict.get label row = Some (default VNaN (vals !! i))
    /\ (forall k, k <> label ->
                  Dict.get k row = Dict.get k (zip (DataFrame.columns df) vs))
    /\ (NoDup (DataFrame.columns df) -> NoDup row.*1).
Proof.
  intros Hi Hlen. unfold DataFrame.iterrows, DataFrame.set_column.
  destruct (DataFrame.position label (DataFrame.columns df)) as [j|] eqn:Ej;
    cbn [DataFrame.values DataFrame.columns];
    rewrite list_lookup_fmap, list_lookup_imap, Hi; simpl;
    eexists; (split; [reflexivity|]).
  - pose proof (position_Some _ _ _ Ej) as Hj. apply lookup_lt_Some in Hj.
    split; [|split].
    + rewrite (get_zip_position _ _ _ j Ej) by (rewrite length_insert; lia).
      apply list_lookup_insert_eq. lia.
    + intros k Hk.
      destruct (DataFrame.position k (DataFrame.columns df)) as [j'|] eqn:Ek.
      * pose proof (position_Some _ _ _ Ek) as Hj'. apply lookup_lt_Some in Hj'.
        rewrite !(get_zip_position _ _ _ j' Ek) by (rewrite ?length_insert; lia).
        apply list_lookup_insert_ne. intros ->.
        apply position_Some in Ej, Ek. congruence.
      * apply position_None in Ek. by rewrite !get_zip_absent.
    + intros Hnd. rewrite fst_zip by (rewrite length_insert; lia). exact Hnd.
  - apply position_None in Ej.
    assert (Hzip : zip (DataFrame.columns df ++ [label]) (vs ++ [default VNaN (vals !! i)])
                   = zip (DataFrame.columns df) vs ++ [(label, default VNaN (vals !! i))]).
    { apply (zip_with_app pair (DataFrame.columns df) [label] vs
               [default VNaN (vals !! i)]). by rewrite Hlen. }
    rewrite Hzip. split; [|split].
    + rewrite get_app, get_zip_absent by done. simpl. by rewrite String.eqb_refl.
    + intros k Hk. rewrite get_app. simpl.
      destruct (Dict.get k (zip _ vs)); [done|].
      by destruct (String.eqb_spec k label).
    + intros Hnd. rewrite fmap_app, fst_zip by lia. simpl.
      apply NoDup_app. split; [done|]. split; [|apply NoDup_singleton].
      intros x Hx ->%list_elem_of_singleton. done.
Qed.

Lemma column_elem (label : string) (df : DataFrame.t) :
  label ∈ DataFrame.columns df ->
  exists col, DataFrame.column label df = Ok col
              /\ length col = length (DataFrame.values df).
Proof.
  intros [j Hj]%position_elem. unfold DataFrame.column. rewrite Hj.
  eexists. split; [reflexivity|]. by rewrite length_map.
Qed.

End Frames.

Section FindDateCol.

Lemma find_first {A} (p : A -> bool) (l : list A) (x : A) :
  List.find p l = Some x ->
  exists pre post, l = pre ++ x :: post /\ p x = true
                   /\ Forall (fun y => p y = false) pre.
Proof.
  induction l as [|a l IH]; simpl; [done|].
  destruct (p a) eqn:E.
  - intros [= <-]. exists [], l. by repeat split.
  - intros (pre & post & -> & Hx & Hpre)%IH.
    exists (a :: pre), post. repeat split; [done|by constructor].
Qed.

Lemma find_absent {A} (p : A -> bool) (l : list A) :
  List.find p l = None -> Forall (fun y => p y = false) l.
Proof.
  induction l as [|a l IH]; simpl; [constructor|].
  destruct (p a) eqn:E; [done|]. intros H. constructor; [done|by apply IH].
Qed.

Lemma find_date_col_spec (cols : list string) :
  match cols with
  | [] => Workflow.find_date_col cols = Raise IndexError
  | c0 :: _ =>
      exists c,
        Workflow.find_date_col cols = Ok c
        /\ ((exists pre post, cols = pre ++ c :: post /\ names_date c = true
                              /\ Forall (fun x => names_date x = false) pre)
            \/ (c = c0 /\ Forall (fun x => names_date x = false) cols))
  end.
Proof.
  destruct cols as [|c0 cols]; [reflexivity|].
  unfold Workflow.find_date_col. fold names_date.
  destruct (List.find names_date (c0 :: cols)) as [c|] eqn:E.
  - exists c. split; [reflexivity|]. left. by apply find_first.
  - exists c0. split; [reflexivity|]. right. split; [done|]. by apply find_absent.
Qed.

Lemma find_date_col_elem (cols : list string) (c : string) :
  Workflow.find_date_col cols = Ok c -> c ∈ cols.
Proof.
  pose proof (find_date_col_spec cols) as H. destruct cols as [|c0 cols].
  - by rewrite H.
  - destruct H as (c' & -> & [(pre & post & -> & _)|[-> _]]); intros [= <-].
    + apply elem_of_app. right. left.
    + left.
Qed.

Lemma find_date_col_ok (cols : list string) :
  cols <> [] -> exists c, Workflow.find_date_col cols = Ok c /\ c ∈ cols.
Proof.
  intros Hne. pose proof (find_date_col_spec cols) as H.
  destruct cols as [|c0 cols]; [done|]. destruct H as (c & Hc & _).
  exists c. split; [exact Hc|]. by apply find_date_col_elem.
Qed.

End FindDateCol.

Section Index.

Lemma index_rows_none (rows : list Series) (acc : gmap date Series) (d : date) :
  Forall (fun r => row_key r <> Some d) rows ->
  foldl index_row acc rows !! d = acc !! d.
Proof.
  intros H. revert acc. induction H as [|r rows Hr _ IH]; intros acc; [done|].
  simpl. rewrite IH. unfold index_row.
  destruct (row_key r) as [d'|]; [|done].
  apply lookup_insert_ne. congruence.
Qed.

Lemma index_rows_last (pre post : list Series) (row : Series)
      (acc : gmap date Series) (d : date) :
  row_key row = Some d -> Forall (fun r => row_key r <> Some d) post ->
  foldl index_row acc (pre ++ row :: post) !! d = Some row.
Proof.
  intros Hk Hpost. rewrite foldl_app. simpl.
  rewrite index_rows_none by done. unfold index_row. rewrite Hk.
  apply lookup_insert_eq.
Qed.

Lemma index_rows_run (rows : list Series) (acc : gmap date Series) :
  Forall (fun r => is_Some (Dict.get "Date" r)) rows ->
  rfoldl (fun (flights : gmap date Series) row =>
            d ← series_get "Date" row;
            Ok (match d with
                | VDate d => <[d := row]> flights
                | _ => flights
                end)) acc rows
  = Ok (foldl index_row acc rows).
Proof.
  intros H. revert acc. induction H as [|r rows [v Hv] _ IH]; intros acc; [done|].
  cbn [rfoldl foldl].
  assert (Hs : series_get "Date" r = Ok v) by (unfold series_get; by rewrite Hv).
  rewrite Hs. simpl. rewrite IH. f_equal. f_equal. unfold index_row, row_key. rewrite Hv.
  by destruct v.
Qed.

End Index.

Section ParseCsvSpec.

Variable to_datetime_column : list value -> list (option date).
Hypothesis parser_length : forall col, length (to_datetime_column col) = length col.

(** The rows the parser iterates, by position: each carries the parsed
    date under Date ([NaT] when there is none) and its own values under
    every other label. *)
Lemma parse_csv_spec (df : DataFrame.t) :
  DataFrame.columns df <> [] -> frame_wf df ->
  exists date_col col rows,
    Workflow.find_date_col (DataFrame.columns df) = Ok date_col
    /\ DataFrame.column date_col df = Ok col
    /\ length col = length (DataFrame.values df)
    /\ Workflow.parse_csv to_datetime_column df = Ok (foldl index_row ∅ rows)
    /\ length rows = length (DataFrame.values df)
    /\ forall i row,
        rows !! i = Some row ->
        row_key row = mjoin (to_datetime_column col !! i)
        /\ (forall d, row_key row = Some d -> Dict.get "Date" row = Some (VDate d))
        /\ (forall k, k <> "Date"%string ->
              Dict.get k row = DataFrame.iterrows df !! i ≫= Dict.get k)
        /\ (NoDup (DataFrame.columns df) -> NoDup row.*1).
Proof.
  intros Hcols Hwf.
  destruct (find_date_col_ok _ Hcols) as (date_col & Hfind & Hin).
  destruct (column_elem date_col df Hin) as (col & Hcol & Hlen).
  set (vals := Workflow.date_value <$> to_datetime_column col).
  set (rows := DataFrame.iterrows (DataFrame.set_column "Date" vals df)).
  assert (Hrow : forall i row,
             rows !! i = Some row ->
             exists vs, DataFrame.values df !! i = Some vs
               /\ Dict.get "Date" row = Some (default VNaN (vals !! i))
               /\ (forall k, k <> "Date"%string ->
                     Dict.get k row = Dict.get k (zip (DataFrame.columns df) vs))
               /\ (NoDup (DataFrame.columns df) -> NoDup row.*1)).
  { intros i row Hi.
    assert (Hlt : (i < length (DataFrame.values df))%nat).
    { apply lookup_lt_Some in Hi. unfold rows, DataFrame.iterrows in Hi.
      rewrite length_map in Hi. unfold DataFrame.set_column in Hi.
      destruct (DataFrame.position _ _); simpl in Hi;
        by rewrite length_imap in Hi. }
    destruct (lookup_lt_is_Some_2 _ _ Hlt) as [vs Hvs].
    destruct (set_column_row "Date" vals df i vs Hvs) as (row' & Hr' & H1 & H2 & H3).
    { unfold frame_wf in Hwf. rewrite Forall_forall in Hwf.
      apply Hwf. by eapply list_elem_of_lookup_2. }
    fold rows in Hr'. rewrite Hi in Hr'. injection Hr' as <-.
    exists vs. auto. }
  exists date_col, col, rows.
  split; [exact Hfind|]. split; [exact Hcol|]. split; [exact Hlen|]. split.
  { unfold Workflow.parse_csv. rewrite Hfind. simpl. rewrite Hcol.
    simpl. fold vals. fold rows. apply index_rows_run.
    apply Forall_forall. intros row [i Hi]%list_elem_of_lookup_1.
    destruct (Hrow i row Hi) as (vs & _ & H & _). by eexists. }
  split.
  { unfold rows, DataFrame.iterrows. rewrite length_map.
    unfold DataFrame.set_column. destruct (DataFrame.position _ _); simpl;
      by rewrite length_imap. }
  intros i row Hi. destruct (Hrow i row Hi) as (vs & Hvs & Hd & Hk & Hnd).
  assert (Hkey : row_key row = mjoin (to_datetime_column col !! i)).
  { unfold row_key. rewrite Hd. unfold vals. rewrite list_lookup_fmap.
    by destruct (to_datetime_column col !! i) as [[d|]|]. }
  split; [exact Hkey|]. split; [|split; [|exact Hnd]].
  - intros d Hrk. unfold row_key in Hrk.
    destruct (Dict.get "Date" row) as [[]|]; try discriminate Hrk. congruence.
  - intros k Hne. rewrite (Hk k Hne). unfold DataFrame.iterrows.
    by rewrite list_lookup_fmap, Hvs.
Qed.

End ParseCsvSpec.

Section LastOccurrence.

Lemma last_occurrence {A} `{EqDecision A} (l : list A) (x : A) :
  x ∈ l -> exists i, l !! i = Some x /\ forall j, (i < j)%nat -> l !! j <> Some x.
Proof.
  intros (l1 & l2 & -> & Hnot)%list_elem_of_split_r.
  exists (length l1). split.
  - by rewrite lookup_app_r, Nat.sub_diag by lia.
  - intros j Hj Hl. rewrite lookup_app_r in Hl by lia.
    destruct (j - length l1)%nat as [|n] eqn:E; [lia|]. simpl in Hl.
    apply Hnot. by eapply list_elem_of_lookup_2.
Qed.

End LastOccurrence.

(** X1. The tabular parser takes as date column the first column whose
    lower-cased name contains "date" and, when no name does, the first
    column; a frame without columns raises IndexError. *)
Theorem X1_date_column_first_match_else_first (cols : list string) :
  match cols with
  | [] => Workflow.find_date_col cols = Raise IndexError
  | c0 :: _ =>
      exists c,
        Workflow.find_date_col cols = Ok c
        /\ c ∈ cols
        /\ ((exists pre post, cols = pre ++ c :: post /\ names_date c = true
                              /\ Forall (fun x => names_date x = false) pre)
            \/ (c = c0 /\ Forall (fun x => names_date x = false) cols))
  end.
Proof.
  pose proof (find_date_col_spec cols) as H. destruct cols as [|c0 cols]; [exact H|].
  destruct H as (c & Hc & H). exists c. split; [exact Hc|].
  split; [by apply find_date_col_elem|exact H].
Qed.

(** X2. On a frame with at least one column and a value in every
    column of every row, the tabular parser returns an index whose keys
    are exactly the dates the date parser found in the date column;
    rows without a date are left out, and of several rows with the
    same date the last one is kept.  The record kept has the date
    object under Date and the row's own value under every other
    label. *)
Theorem X2_flights_index_keeps_last_row_of_each_date
    (to_datetime_column : list value -> list (option date)) (df : DataFrame.t) :
  (forall col, length (to_datetime_column col) = length col) ->
  DataFrame.columns df <> [] -> frame_wf df ->
  exists date_col col flights,
    Workflow.find_date_col (DataFrame.columns df) = Ok date_col
    /\ DataFrame.column date_col df = Ok col
    /\ Workflow.parse_csv to_datetime_column df = Ok flights
    /\ forall d,
        (is_Some (flights !! d) <-> Some d ∈ to_datetime_column col)
        /\ forall i,
            to_datetime_column col !! i = Some (Some d) ->
            (forall j, (i < j)%nat -> to_datetime_column col !! j <> Some (Some d)) ->
            exists row,
              flights !! d = Some row
              /\ Dict.get "Date" row = Some (VDate d)
              /\ forall k, k <> "Date"%string ->
                   Dict.get k row = DataFrame.iterrows df !! i ≫= Dict.get k.
Proof.
  intros Hparser Hcols Hwf.
  destruct (parse_csv_spec to_datetime_column df Hcols Hwf)
    as (date_col & col & rows & Hfind & Hcol & Hlen & Hrun & Hrows & Hrow).
  exists date_col, col, (foldl index_row ∅ rows).
  split; [exact Hfind|]. split; [exact Hcol|]. split; [exact Hrun|].
  set (dates := to_datetime_column col) in *.
  assert (Hlast : forall d i,
             dates !! i = Some (Some d) ->
             (forall j, (i < j)%nat -> dates !! j <> Some (Some d)) ->
             exists row,
               foldl index_row ∅ rows !! d = Some row
               /\ Dict.get "Date" row = Some (VDate d)
               /\ forall k, k <> "Date"%string ->
                    Dict.get k row = DataFrame.iterrows df !! i ≫= Dict.get k).
  { intros d i Hi Hafter.
    assert (Hlt : (i < length rows)%nat).
    { apply lookup_lt_Some in Hi. unfold dates in Hi. rewrite Hparser in Hi. lia. }
    destruct (lookup_lt_is_Some_2 _ _ Hlt) as [row Hr].
    destruct (Hrow i row Hr) as (Hkey & Hdate & Hother & _).
    rewrite Hi in Hkey. simpl in Hkey.
    exists row. split; [|split; [by apply Hdate|exact Hother]].
    rewrite <- (take_drop_middle rows i row Hr).
    apply index_rows_last; [exact Hkey|].
    apply Forall_forall. intros r [j Hj]%list_elem_of_lookup_1.
    rewrite lookup_drop in Hj. destruct (Hrow _ r Hj) as (Hk & _).
    rewrite Hk. intros Hd. apply (Hafter (S i + j)%nat); [lia|].
    destruct (dates !! (S i + j)%nat) as [[d'|]|]; simpl in Hd; congruence. }
  intros d. split; [|apply Hlast]. split.
  - intros [row Hd]. destruct (decide (Some d ∈ dates)) as [|Hnot]; [done|].
    rewrite index_rows_none, lookup_empty in Hd; [done|].
    apply Forall_forall. intros r [i Hi]%list_elem_of_lookup_1.
    destruct (Hrow i r Hi) as (Hk & _). rewrite Hk. intros Hd'. apply Hnot.
    destruct (dates !! i) as [[d'|]|] eqn:E; simpl in Hd'; try congruence.
    injection Hd' as ->. by eapply list_elem_of_lookup_2.
  - intros (i & Hi & Hafter)%last_occurrence.
    destruct (Hlast d i Hi Hafter) as (row & Hd & _). by eexists.
Qed.

Lemma X2_witness :
  exists flights,
    Workflow.parse_csv read_dmy_column example_csv = Ok flights
    /\ is_Some (flights !! example_day).
Proof.
  destruct (X2_flights_index_keeps_last_row_of_each_date read_dmy_column example_csv)
    as (date_col & col & flights & Hfind & Hcol & Hrun & Hkeys).
  - intros col. unfold read_dmy_column. apply length_fmap.
  - discriminate.
  - repeat constructor.
  - exists flights. split; [exact Hrun|].
    apply (proj1 (Hkeys example_day)).
    vm_compute in Hfind. injection Hfind as <-.
    vm_compute in Hcol. injection Hcol as <-.
    vm_compute. left.
Defined.

(** ** The text of the summary *)

Section TraceText.

Lemma string_app_assoc (a b c : string) : ((a ++ b) ++ c = a ++ (b ++ c))%string.
Proof.
  induction a as [|x a IH]; [reflexivity|].
  change (String x ((a ++ b) ++ c) = String x (a ++ (b ++ c)))%string.
  by rewrite IH.
Qed.

Lemma string_app_empty_r (a : string) : (a ++ "" = a)%string.
Proof.
  induction a as [|x a IH]; [reflexivity|].
  change (String x (a ++ "") = String x a)%string. by rewrite IH.
Qed.

Lemma tally_row_written (acc acc' : Workflow.tally) (row : Series) :
  Workflow.tally_row acc row = Ok acc' ->
  is_Some (Dict.get "Type" row)
  /\ Workflow.written acc' = (Workflow.written acc ++ entry_line row)%string.
Proof.
  unfold Workflow.tally_row, series_get, entry_line.
  destruct (Dict.get "Type" row) as [t|]; simpl; [|discriminate].
  destruct (Dict.get "Date" row) as [d|]; simpl; [|discriminate].
  intros [= <-]. split; [by eexists|].
  destruct (bool_decide (t = VStr "Volo")); [reflexivity|].
  destruct (bool_decide (t = VStr "OFF (auto)")); reflexivity.
Qed.

Lemma tally_rows_written (rows : list Series) (acc0 acc : Workflow.tally) :
  rfoldl Workflow.tally_row acc0 rows = Ok acc ->
  Forall (fun row => is_Some (Dict.get "Type" row)) rows
  /\ Workflow.written acc
     = (Workflow.written acc0 ++ join (entry_line <$> rows))%string.
Proof.
  revert acc0. induction rows as [|row rows IH]; intros acc0.
  - intros [= <-]. split; [constructor|]. simpl. by rewrite string_app_empty_r.
  - cbn [rfoldl].
    destruct (Workflow.tally_row acc0 row) as [acc1|e] eqn:E; simpl; [|discriminate].
    intros Hrun. destruct (tally_row_written _ _ _ E) as [Ht Hw].
    destruct (IH acc1 Hrun) as [Hall Hw']. split; [by constructor|].
    rewrite Hw', Hw. apply string_app_assoc.
Qed.

Lemma month_section_text (df : DataFrame.t) (months : gmap Z (list Series)) (m : Z) :
  renderable df ->
  months !! m = Some (entries_of_month df m) ->
  exists sec,
    Workflow.month_section months m = Ok sec
    /\ Workflow.written sec = section_text df m.
Proof.
  intros Hdf Hm. unfold Workflow.month_section. rewrite Hm. simpl.
  match goal with
  | |- context [rfoldl Workflow.tally_row ?a _] =>
      destruct (tally_rows_spec (entries_of_month df m) a)
        as (acc & Hrun & Hvo & Hpdf & Hoff)
  end; [by apply entries_of_month_renderable|].
  rewrite Hrun. simpl. eexists. split; [reflexivity|]. simpl.
  destruct (tally_rows_written _ _ _ Hrun) as [_ Hw]. rewrite Hw. simpl in *.
  unfold section_text. cbv zeta.
  replace (Workflow.vo acc) with (count_type is_volo (entries_of_month df m)) by lia.
  replace (Workflow.pdf acc) with (count_type is_code (entries_of_month df m)) by lia.
  replace (Workflow.auto_off acc) with (count_type is_off (entries_of_month df m))
    by lia.
  rewrite !string_app_assoc. reflexivity.
Qed.

Lemma join_written (ms : list Z) (sections : list Workflow.tally) (f : Z -> string) :
  Forall2 (fun m sec => Workflow.written sec = f m) ms sections ->
  foldr (fun sec text => (Workflow.written sec ++ text)%string) EmptyString sections
  = join (f <$> ms).
Proof.
  induction 1 as [|m sec ms sections Hw _ IH]; [reflexivity|].
  rewrite fmap_cons. simpl. by rewrite Hw, IH.
Qed.

Lemma trace_text (df : DataFrame.t) :
  renderable df ->
  Workflow.generate_trace_md df = Ok (join (section_text df <$> range 1 13)).
Proof.
  intros Hdf.
  destruct (group_by_month_spec df Hdf) as (months & Hgroup & Hmonths).
  destruct (rmap_Forall2 (Workflow.month_section months)
              (fun m sec => Workflow.written sec = section_text df m)
              (range 1 13)) as (sections & Hrun & HF).
  { intros m Hm. unfold range in Hm. apply elem_of_seqZ in Hm.
    apply (month_section_text df months m Hdf). apply Hmonths. lia. }
  assert (Htrace : Workflow.trace_sections df = Ok sections)
    by (unfold Workflow.trace_sections; rewrite Hgroup; exact Hrun).
  unfold Workflow.generate_trace_md. rewrite Htrace.
  exact (f_equal Ok (join_written (range 1 13) sections _ HF)).
Qed.

Lemma bind_Ok_inv {A B} (m : result A) (k : A -> result B) (b : B) :
  m ≫= k = Ok b -> exists a, m = Ok a /\ k a = Ok b.
Proof. destruct m as [a|e]; simpl; [by eexists|discriminate]. Qed.

End TraceText.

(** X3. On a timeline whose rows have a Date the renderer can parse
    and a Type, the summary is, for the months 1 to 12 in order, the
    heading of the month, one line "- Date: Type" for each row of that
    month in the order of the timeline, and the line of the three
    counters. *)
Theorem X3_summary_text_by_month (df : DataFrame.t) :
  renderable df ->
  Workflow.generate_trace_md df = Ok (join (section_text df <$> range 1 13))
  /\ forall m, 1 <= m <= 12 ->
       section_text df m
       = ("# " ++ Workflow.month_name m ++ " 2024" ++ Workflow.nl
               ++ join (entry_line <$> entries_of_month df m)
               ++ Workflow.nl ++ "Summary: Volo="
               ++ pretty (count_type is_volo (entries_of_month df m))
               ++ ", PDF codes=" ++ pretty (count_type is_code (entries_of_month df m))
               ++ ", OFF (auto)=" ++ pretty (count_type is_off (entries_of_month df m))
               ++ Workflow.nl ++ Workflow.nl)%string.
Proof.
  intros Hdf. split; [by apply trace_text|]. intros m _.
  reflexivity.
Qed.

Lemma X3_witness :
  Workflow.generate_trace_md
    (DataFrame.Make ["Date"; "Type"]%string [[VStr "2024-02-29"; VStr "RI"]])
  = Ok (join (section_text
                (DataFrame.Make ["Date"; "Type"]%string [[VStr "2024-02-29"; VStr "RI"]])
              <$> range 1 13)).
Proof.
  apply X3_summary_text_by_month.
  unfold renderable. repeat constructor; by eexists.
Defined.

(** ** From the tabular source to the summary *)

Section Pipeline.

Lemma NoDup_fst_zip (l : list string) (k : list value) :
  NoDup l -> NoDup (zip l k).*1.
Proof.
  intros Hnd. revert k. induction Hnd as [|a l Ha _ IH]; intros k; [constructor|].
  destruct k as [|v k]; [constructor|]. simpl. constructor; [|apply IH].
  intros ([x y] & -> & Hin)%list_elem_of_fmap. by apply elem_of_zip_l in Hin.
Qed.

Lemma set_column_NoDup (label : string) (vals : list value) (df : DataFrame.t) :
  NoDup (DataFrame.columns df) ->
  NoDup (DataFrame.columns (DataFrame.set_column label vals df)).
Proof.
  intros Hnd. unfold DataFrame.set_column.
  destruct (DataFrame.position label (DataFrame.columns df)) as [j|] eqn:E;
    [exact Hnd|].
  apply position_None in E. simpl. apply NoDup_app.
  split; [exact Hnd|]. split; [|apply NoDup_singleton].
  by intros x Hx ->%list_elem_of_singleton.
Qed.

Lemma iterrows_NoDup (df : DataFrame.t) (row : Series) :
  NoDup (DataFrame.columns df) -> row ∈ DataFrame.iterrows df -> NoDup row.*1.
Proof.
  intros Hnd (vs & -> & _)%list_elem_of_fmap. by apply NoDup_fst_zip.
Qed.

Lemma index_run_elem (rows : list Series) (acc flights : gmap date Series) :
  rfoldl (fun (flights : gmap date Series) row =>
            d ← series_get "Date" row;
            Ok (match d with
                | VDate d => <[d := row]> flights
                | _ => flights
                end)) acc rows = Ok flights ->
  forall d row, flights !! d = Some row -> acc !! d = Some row \/ row ∈ rows.
Proof.
  revert acc. induction rows as [|r rows IH]; intros acc Hrun d row Hd.
  - injection Hrun as <-. by left.
  - cbn [rfoldl] in Hrun.
    destruct (series_get "Date" r) as [v|e]; simpl in Hrun; [|discriminate Hrun].
    destruct (IH _ Hrun d row Hd) as [Hacc|Hin]; [|right; by right].
    destruct v; try (by left).
    rewrite lookup_insert in Hacc. destruct (decide (d0 = d)) as [->|]; [|by left].
    injection Hacc as <-. right. left.
Qed.

(** With distinct column labels, the records of the flights index have
    distinct labels. *)
Lemma parse_csv_rows_NoDup (to_datetime_column : list value -> list (option date))
      (df : DataFrame.t) (flights : gmap date Series) (d : date) (row : Series) :
  NoDup (DataFrame.columns df) ->
  Workflow.parse_csv to_datetime_column df = Ok flights ->
  flights !! d = Some row -> NoDup row.*1.
Proof.
  intros Hnd Hrun Hd. unfold Workflow.parse_csv in Hrun.
  apply bind_Ok_inv in Hrun as (date_col & _ & Hrun).
  apply bind_Ok_inv in Hrun as (col & _ & Hrun).
  destruct (index_run_elem _ _ _ Hrun d row Hd) as [Hempty|Hin].
  - by rewrite lookup_empty in Hempty.
  - eapply iterrows_NoDup; [|exact Hin]. by apply set_column_NoDup.
Qed.

Lemma rfoldl_raise {A B} (f : B -> A -> result B) (e : exn) (l : list A) :
  Forall (fun a => forall b, f b a = Raise e \/ exists b', f b a = Ok b') l ->
  Exists (fun a => forall b, f b a = Raise e) l ->
  forall b, rfoldl f b l = Raise e.
Proof.
  induction 1 as [|a l Ha _ IH]; intros Hex b; [by apply Exists_nil in Hex|].
  simpl. apply Exists_cons in Hex as [Hhere|Hlater].
  - by rewrite Hhere.
  - destruct (Ha b) as [->|[b' ->]]; [reflexivity|]. simpl. by apply IH.
Qed.

Lemma consolidate_no_flights (days : list date) (flights : gmap date Series)
      (codes : gmap (option date) string) :
  (forall d, d ∈ days -> flights !! d = None) ->
  Workflow.consolidate days flights codes = Workflow.consolidate days ∅ codes.
Proof.
  intros H. unfold Workflow.consolidate. apply list_fmap_ext.
  intros i d Hd. unfold Workflow.build_entry.
  rewrite (H d) by (by eapply list_elem_of_lookup_2). by rewrite lookup_empty.
Qed.

Variable flights : gmap date Series.
Variable codes : gmap (option date) string.

(** Every flight record has distinct labels and carries the date it is
    filed under. *)
Hypothesis flights_rows :
  forall d row, flights !! d = Some row ->
                NoDup row.*1 /\ Dict.get "Date" row = Some (VDate d).

Lemma entry_date_cases (day : date) :
  Dict.get "Date" (Workflow.build_entry flights codes day)
  = Some (match flights !! day with
          | Some _ => VDate day
          | None => VStr (strftime_ymd day)
          end).
Proof.
  destruct (flights !! day) as [row|] eqn:Hf.
  - destruct (flights_rows day row Hf) as [Hnd Hdate].
    by rewrite (build_entry_flight _ _ _ _ Hf), get_update, last_value_NoDup, Hdate.
  - unfold Workflow.build_entry. rewrite Hf. by destruct (codes !! Some day).
Qed.

Lemma group_raises (days : list date) (day : date) :
  Forall (fun d => Workflow.strptime_ymd (VStr (strftime_ymd d)) = Ok d) days ->
  day ∈ days -> is_Some (flights !! day) ->
  Workflow.group_by_month
    (DataFrame.of_records (Workflow.consolidate days flights codes))
  = Raise TypeError.
Proof.
  intros Hrt Hday Hflight. unfold Workflow.group_by_month.
  rewrite iterrows_of_records. unfold Workflow.consolidate at 2.
  rewrite <- list_fmap_compose.
  set (recs := Workflow.consolidate days flights codes).
  assert (Hdate : forall d, d ∈ days ->
            series_get "Date" (row_of recs (Workflow.build_entry flights codes d))
            = Ok (match flights !! d with
                  | Some _ => VDate d
                  | None => VStr (strftime_ymd d)
                  end)).
  { intros d Hd. unfold series_get.
    rewrite (row_of_record_get recs _ "Date" _ (list_elem_of_fmap_2 _ _ _ Hd)
               (entry_date_cases d)). reflexivity. }
  apply rfoldl_raise.
  - apply Forall_fmap, Forall_forall. intros d Hd months. simpl.
    rewrite (Hdate d Hd). simpl. destruct (flights !! d); [by left|].
    rewrite Forall_forall in Hrt. rewrite (Hrt d Hd). simpl. right. by eexists.
  - apply Exists_fmap, Exists_exists. exists day. split; [exact Hday|].
    intros months. simpl. rewrite (Hdate day Hday). simpl.
    by destruct Hflight as [row ->].
Qed.

End Pipeline.

(** X5. The run from the tabular source to the summary: with distinct
    column labels, when the flights index that parse_csv returns has a
    key in 2024 the summary renderer raises TypeError on the
    consolidated frame (the entry of that day holds a date object where
    the renderer parses a string), and when it has none the renderer
    returns the summary. *)
Theorem X5_summary_fails_on_any_flight_of_2024
    (to_datetime_column : list value -> list (option date)) (df : DataFrame.t)
    (flights : gmap date Series) (codes : gmap (option date) string) :
  NoDup (DataFrame.columns df) ->
  Workflow.parse_csv to_datetime_column df = Ok flights ->
  ((exists d, valid d /\ year d = 2024 /\ is_Some (flights !! d)) ->
   (cdf ← Workflow.build_consolidated flights codes; Workflow.generate_trace_md cdf)
   = Raise TypeError)
  /\ ((forall d, valid d -> year d = 2024 -> flights !! d = None) ->
      exists text,
        (cdf ← Workflow.build_consolidated flights codes; Workflow.generate_trace_md cdf)
        = Ok text).
Proof.
  intros Hnd Hcsv. rewrite build_consolidated_2024. split.
  - intros (d & Hvalid & Hyear & Hflight).
    change (Workflow.generate_trace_md
              (DataFrame.of_records
                 (Workflow.consolidate (calendar 2024) flights codes))
            = Raise TypeError).
    unfold Workflow.generate_trace_md, Workflow.trace_sections.
    rewrite (group_raises flights codes) with (day := d); [reflexivity| | | |exact Hflight].
    + intros d' row Hrow. split.
      * by eapply parse_csv_rows_NoDup.
      * by eapply parse_csv_rows_carry_their_date.
    + apply strptime_strftime_2024.
    + apply elem_of_calendar. unfold valid in Hvalid. rewrite <- Hyear. tauto.
  - intros Hnone.
    rewrite consolidate_no_flights, <- build_consolidated_2024.
    + destruct (Workflow.build_consolidated ∅ codes) as [cdf|e] eqn:E.
      * simpl. eexists. apply trace_text.
        apply (consolidated_renderable ∅ codes); [|exact E].
        intros day row H. by rewrite lookup_empty in H.
      * by rewrite build_consolidated_2024 in E.
    + intros d (Hy & Hm & Hd)%elem_of_calendar. apply Hnone; [|exact Hy].
      unfold valid. rewrite Hy. unfold MINYEAR, MAXYEAR. lia.
Qed.

Lemma X5_witness :
  (cdf ← Workflow.build_consolidated example_flights ∅; Workflow.generate_trace_md cdf)
  = Raise TypeError.
Proof.
  apply (X5_summary_fails_on_any_flight_of_2024 read_dmy_column example_csv
           example_flights ∅).
  - apply (bool_decide_eq_true_1 _). reflexivity.
  - vm_compute. reflexivity.
  - exists example_day. split; [|split].
    + unfold valid, example_day, MINYEAR, MAXYEAR. simpl.
      change (days_in_month 2024 3) with 31. lia.
    + reflexivity.
    + exists [("Date"%string, VDate example_day); ("Flight"%string, VStr "AZ100")].
      apply lookup_singleton_eq.
Defined.

(** ** The summary of the timeline that the merge builds *)

Section PipelineTallies.

Variable to_datetime_column : list value -> list (option date).
Variable csv : DataFrame.t.
Variable flights : gmap date Series.
Variable codes : gmap (option date) string.

Hypothesis csv_labels : NoDup (DataFrame.columns csv).
Hypothesis csv_flights : Workflow.parse_csv to_datetime_column csv = Ok flights.



End PipelineTallies.



(** ** The codes index *)

Section StripBytes.

Variable encs : list (list ascii).

Lemma space_len_nil : Str.space_len encs [] = 0%nat.
Proof.
  unfold Str.space_len.
  destruct (List.find _ encs) as [enc|] eqn:E; [|reflexivity].
  apply find_some in E as [_ E]. apply bool_decide_eq_true in E.
  by apply prefix_nil_inv in E as ->.
Qed.

Lemma space_len_0 (l : list ascii) :
  [] ∉ encs ->
  Str.space_len encs l = 0%nat <-> forall enc, enc ∈ encs -> ~ enc `prefix_of` l.
Proof.
  intros Hne. unfold Str.space_len.
  destruct (List.find _ encs) as [enc|] eqn:E.
  - apply find_some in E as [Hin E]. apply bool_decide_eq_true in E.
    apply list_elem_of_In in Hin. split.
    + intros Hlen. destruct enc; [done|discriminate].
    + intros H. by destruct (H enc Hin).
  - split; [|done]. intros _ enc Hin Hp.
    apply list_elem_of_In in Hin.
    pose proof (find_none _ _ E enc Hin) as H. simpl in H.
    by rewrite bool_decide_eq_true_2 in H.
Qed.

Lemma space_len_prefix (l1 l2 : list ascii) :
  [] ∉ encs -> l1 `prefix_of` l2 ->
  Str.space_len encs l2 = 0%nat -> Str.space_len encs l1 = 0%nat.
Proof.
  intros Hne Hp. rewrite !space_len_0 by done. intros H enc Hin Hp'.
  apply (H enc Hin). by etrans.
Qed.

Lemma lstrip_bytes_drop (k : nat) (l : list ascii) :
  exists n, Str.lstrip_bytes encs k l = drop n l.
Proof.
  revert k. induction l as [|c l IH]; intros k; [by exists 0%nat|].
  destruct k as [|k]; simpl.
  - destruct (Str.space_len encs (c :: l)) as [|k]; [by exists 0%nat|].
    destruct (IH k) as [n Hn]. by exists (S n).
  - destruct (IH k) as [n Hn]. by exists (S n).
Qed.

Lemma lstrip_bytes_no_space (k : nat) (l : list ascii) :
  Str.space_len encs (Str.lstrip_bytes encs k l) = 0%nat.
Proof.
  revert k. induction l as [|c l IH]; intros k; [apply space_len_nil|].
  destruct k as [|k]; simpl; [|apply IH].
  destruct (Str.space_len encs (c :: l)) as [|k] eqn:E; [exact E|apply IH].
Qed.

Lemma lstrip_bytes_id (l : list ascii) :
  Str.space_len encs l = 0%nat -> Str.lstrip_bytes encs 0 l = l.
Proof. destruct l as [|c l]; [done|]. simpl. by intros ->. Qed.

End StripBytes.

Lemma space_encodings_nonempty :
  ([] ∉ Str.space_encodings) /\ ([] ∉ (reverse <$> Str.space_encodings)).
Proof. split; apply (bool_decide_eq_true_1 _); vm_compute; reflexivity. Qed.

Lemma strip_idem (s : string) : Str.strip (Str.strip s) = Str.strip s.
Proof.
  unfold Str.strip, Str.rstrip, Str.lstrip.
  rewrite !list_ascii_of_string_of_list_ascii.
  set (x := Str.lstrip_bytes Str.space_encodings 0 (list_ascii_of_string s)).
  set (y := Str.lstrip_bytes (reverse <$> Str.space_encodings) 0 (reverse x)).
  assert (Hr : Str.lstrip_bytes Str.space_encodings 0 (reverse y) = reverse y).
  { apply lstrip_bytes_id.
    apply (space_len_prefix _ _ x); [apply space_encodings_nonempty| |].
    - destruct (lstrip_bytes_drop (reverse <$> Str.space_encodings) 0 (reverse x))
        as [n Hn].
      fold y in Hn. rewrite Hn, drop_reverse, reverse_involutive.
      apply prefix_take.
    - apply lstrip_bytes_no_space. }
  rewrite Hr, reverse_involutive.
  rewrite (lstrip_bytes_id _ y) by apply lstrip_bytes_no_space.
  reflexivity.
Qed.

Section Strip.

Lemma row_code_stripped (row : list (option string)) :
  Str.strip (row_code row) = row_code row.
Proof.
  destruct row as [|c0 [|[s1|] rest]]; try reflexivity. simpl. apply strip_idem.
Qed.

End Strip.

Section CodesIndex.

Variable to_datetime : string -> result (option date).
Variable NaT_truthy : bool.

Local Abbreviation parse_row := (Workflow.parse_row to_datetime NaT_truthy).
Local Abbreviation parse_pdfs := (Workflow.parse_pdfs to_datetime NaT_truthy).
Local Abbreviation row_date := (row_date to_datetime).

(** What one row can add to the index. *)
Lemma parse_row_sound cbd row k c :
  parse_row cbd row !! k = Some c ->
  cbd !! k = Some c
  \/ (k = row_date row /\ c = row_code row /\ c <> EmptyString
      /\ (k = None -> NaT_truthy = true)).
Proof.
  destruct row as [|[s0|] rest]; try (by left).
  unfold Workflow.parse_row.
  remember (row_code (Some s0 :: rest)) as code eqn:Hcode.
  remember (row_date (Some s0 :: rest)) as rd eqn:Hrd.
  destruct (Str.truthy s0) eqn:E0; cbn [negb]; [|by left].
  destruct (to_datetime s0) as [dt|e] eqn:Edt0; [|by left].
  rewrite (parse_row_code rest s0), <- Hcode.
  destruct (Workflow.dt_truthy NaT_truthy dt) eqn:Edt; cbn [andb]; [|by left].
  destruct (Str.truthy code) eqn:Ec; [|by left].
  rewrite lookup_insert. destruct (decide (dt = k)) as [<-|]; [|by left].
  intros [= <-]. right. split.
  { rewrite Hrd. simpl. rewrite E0, Edt0. by destruct dt. }
  split; [reflexivity|]. split.
  - intros Hc. rewrite Hc in Ec. discriminate.
  - intros ->. exact Edt.
Qed.

Lemma foldl_parse_row_sound rows k c :
  foldl parse_row ∅ rows !! k = Some c ->
  (exists row, row ∈ rows /\ k = row_date row /\ c = row_code row
               /\ c <> EmptyString)
  /\ (k = None -> NaT_truthy = true).
Proof.
  induction rows as [|r rows IH] using rev_ind.
  - simpl. by rewrite lookup_empty.
  - rewrite foldl_snoc.
    intros [Hold|(Hk & Hc & Hne & Hnat)]%parse_row_sound.
    + destruct (IH Hold) as [(row & Hrow & H) Hnat]. split; [|exact Hnat].
      exists row. split; [|exact H]. apply elem_of_app. by left.
    + split; [|exact Hnat]. exists r. split; [|done].
      apply elem_of_app. right. left.
Qed.

Lemma foldl_parse_row_absent rows cbd d :
  foldl parse_row cbd rows !! Some d = None ->
  forall r, r ∈ rows -> row_date r = Some d -> row_code r = EmptyString.
Proof.
  induction rows as [|r rows IH] using rev_ind.
  - intros _ r Hr. by apply elem_of_nil in Hr.
  - rewrite foldl_snoc. intros Hnone r' Hr' Hd.
    assert (Hprev : foldl parse_row cbd rows !! Some d = None
                    /\ (row_date r = Some d -> row_code r = EmptyString)).
    { destruct (decide (row_date r = Some d)) as [Hrd|Hrd].
      - destruct (string_dec (row_code r) EmptyString) as [Hc|Hc].
        + by rewrite parse_row_empty_code in Hnone by done.
        + rewrite (parse_row_yield _ _ _ r d _ Hrd eq_refl Hc), lookup_insert_eq in Hnone.
          discriminate.
      - by rewrite parse_row_other in Hnone by (intros; congruence). }
    destruct Hprev as [Hprev Hr].
    apply elem_of_app in Hr' as [Hr'|Hr']; [by apply IH|].
    apply list_elem_of_singleton in Hr' as ->. by apply Hr.
Qed.

Lemma foldl_ext_in {A B} (f g : B -> A -> B) (b : B) (l : list A) :
  (forall a, a ∈ l -> forall b, f b a = g b a) -> foldl f b l = foldl g b l.
Proof.
  revert b. induction l as [|a l IH]; intros b H; [reflexivity|].
  simpl. rewrite (H a) by left. apply IH. intros a' Ha'. apply H. by right.
Qed.

End CodesIndex.

(** X6. Every entry of the codes index comes from a table row: a date
    is mapped to a code only if some row of the documents parses to
    that date and has that code as its trimmed second cell, and the
    code is never empty and has no white space at either end.  A date
    is absent from the index exactly when every row that parses to it
    has an empty code.  When [NaT] counts as false nothing is ever
    filed under [NaT]. *)
Theorem X6_codes_come_from_rows_and_are_trimmed
    (to_datetime : string -> result (option date)) (NaT_truthy : bool)
    (dir : Workflow.pdf_directory) :
  (forall d c,
      Workflow.parse_pdfs to_datetime NaT_truthy dir !! Some d = Some c ->
      (exists row, row ∈ all_rows dir /\ row_date to_datetime row = Some d
                   /\ row_code row = c)
      /\ c <> EmptyString /\ Str.strip c = c)
  /\ (forall d,
         Workflow.parse_pdfs to_datetime NaT_truthy dir !! Some d = None
         <-> forall row, row ∈ all_rows dir -> row_date to_datetime row = Some d ->
                         row_code row = EmptyString)
  /\ (NaT_truthy = false ->
      Workflow.parse_pdfs to_datetime NaT_truthy dir !! None = None).
Proof.
  rewrite parse_pdfs_all_rows. split; [|split].
  - intros d c Hd.
    destruct (foldl_parse_row_sound _ _ _ _ _ Hd) as [(row & Hrow & Hk & Hc & Hne) _].
    split; [by exists row|]. split; [exact Hne|].
    rewrite Hc. apply row_code_stripped.
  - intros d. split.
    + apply foldl_parse_row_absent.
    + intros H. rewrite foldl_parse_row_other by done. apply lookup_empty.
  - intros Hnat.
    destruct (foldl (Workflow.parse_row to_datetime NaT_truthy) ∅ (all_rows dir)
                !! None) as [c|] eqn:E; [|reflexivity].
    destruct (foldl_parse_row_sound _ _ _ _ _ E) as [_ H].
    rewrite H in Hnat by done. discriminate.
Qed.

Lemma X6_witness :
  exists row,
    row ∈ all_rows example_dir
    /\ row_date (fun s => Ok (read_dmy s)) row = Some (Date 2024 6 10)
    /\ row_code row = "FE"%string.
Proof.
  refine (proj1 (proj1 (X6_codes_come_from_rows_and_are_trimmed
                          (fun s => Ok (read_dmy s)) true example_dir)
                       (Date 2024 6 10) "FE"%string _)).
  vm_compute. reflexivity.
Defined.

(** X7. The document parser reads the twelve fixed file names and no
    other: two directories that agree on those names give the same
    codes index, whatever else they hold, and a directory with none of
    them gives the empty index. *)
Theorem X7_only_the_twelve_named_documents_are_read
    (to_datetime : string -> result (option date)) (NaT_truthy : bool)
    (dir dir' : Workflow.pdf_directory) :
  (forall fname, fname ∈ Workflow.PDF_MONTHS -> dir fname = dir' fname) ->
  Workflow.parse_pdfs to_datetime NaT_truthy dir
  = Workflow.parse_pdfs to_datetime NaT_truthy dir'
  /\ ((forall fname, fname ∈ Workflow.PDF_MONTHS -> dir' fname = None) ->
      Workflow.parse_pdfs to_datetime NaT_truthy dir = ∅).
Proof.
  intros Hagree.
  assert (Heq : Workflow.parse_pdfs to_datetime NaT_truthy dir
                = Workflow.parse_pdfs to_datetime NaT_truthy dir').
  { unfold Workflow.parse_pdfs. apply foldl_ext_in.
    intros fname Hf cbd. unfold Workflow.parse_file. by rewrite (Hagree fname Hf). }
  split; [exact Heq|]. intros Hnone. rewrite Heq.
  unfold Workflow.parse_pdfs.
  assert (H : forall (l : list string) cbd,
             (forall f, f ∈ l -> dir' f = None) ->
             foldl (Workflow.parse_file to_datetime NaT_truthy dir') cbd l = cbd).
  { induction l as [|f l IH]; intros cbd Hl; [reflexivity|]. simpl.
    unfold Workflow.parse_file at 2. rewrite (Hl f) by left.
    apply IH. intros f' Hf'. apply Hl. by right. }
  by apply H.
Qed.

Lemma X7_witness :
  Workflow.parse_pdfs (fun s => Ok (read_dmy s)) true example_dir_with_note
  = Workflow.parse_pdfs (fun s => Ok (read_dmy s)) true example_dir.
Proof.
  apply X7_only_the_twelve_named_documents_are_read.
  intros fname Hf. unfold Workflow.PDF_MONTHS in Hf.
  rewrite !elem_of_cons, elem_of_nil in Hf.
  repeat (destruct Hf as [->|Hf]; [reflexivity|]). done.
Defined.

(** ** The shape of the consolidated frame *)

Section FrameShape.

Lemma keys_set (k : string) (v : value) (d : Dict.t) :
  exists extra, Dict.keys (Dict.set k v d) = Dict.keys d ++ extra.
Proof.
  unfold Dict.keys. induction d as [|[k' v'] d IH].
  - by exists [k].
  - cbn [Dict.set]. destruct (String.eqb k k').
    + exists []. by rewrite app_nil_r.
    + destruct IH as [extra IH]. exists extra. by rewrite !fmap_cons, IH.
Qed.

Lemma keys_update (items : list (string * value)) (d : Dict.t) :
  exists extra, Dict.keys (Dict.update items d) = Dict.keys d ++ extra.
Proof.
  unfold Dict.update. revert d. induction items as [|[k v] items IH]; intros d; simpl.
  - exists []. by rewrite app_nil_r.
  - destruct (IH (Dict.set k v d)) as [e2 ->].
    destruct (keys_set k v d) as [e1 ->]. exists (e1 ++ e2). by rewrite app_assoc.
Qed.

Lemma keys_build_entry (flights : gmap date Series)
      (codes : gmap (option date) string) (day : date) :
  exists extra,
    Dict.keys (Workflow.build_entry flights codes day)
    = ["Date"; "Type"]%string ++ extra
    /\ (flights !! day = None -> extra = []).
Proof.
  unfold Workflow.build_entry. destruct (flights !! day) as [row|].
  - destruct (keys_update row
                (Dict.set "Type" (VStr "Volo") [("Date"%string, VStr (strftime_ymd day))]))
      as [extra ->].
    exists extra. split; [reflexivity|done].
  - exists []. split; [|done]. by destruct (codes !! Some day).
Qed.

Lemma add_keys_prefix (seen ks : list string) :
  exists extra, foldl DataFrame.add_key seen ks = seen ++ extra.
Proof.
  revert seen. induction ks as [|k ks IH]; intros seen; simpl.
  - exists []. by rewrite app_nil_r.
  - unfold DataFrame.add_key at 2. destruct (bool_decide (k ∈ seen)); [apply IH|].
    destruct (IH (seen ++ [k])) as [extra ->]. exists ([k] ++ extra).
    by rewrite app_assoc.
Qed.

Lemma add_keys_NoDup (seen ks : list string) :
  NoDup seen -> NoDup (foldl DataFrame.add_key seen ks).
Proof.
  revert seen. induction ks as [|k ks IH]; intros seen Hnd; [exact Hnd|].
  simpl. apply IH. unfold DataFrame.add_key.
  destruct (bool_decide (k ∈ seen)) eqn:E; [exact Hnd|].
  apply bool_decide_eq_false in E. apply NoDup_app.
  split; [exact Hnd|]. split; [|apply NoDup_singleton].
  by intros x Hx ->%list_elem_of_singleton.
Qed.

Lemma add_keys_known (seen ks : list string) :
  (forall k, k ∈ ks -> k ∈ seen) -> foldl DataFrame.add_key seen ks = seen.
Proof.
  induction ks as [|k ks IH]; intros H; [reflexivity|]. simpl.
  unfold DataFrame.add_key at 2. rewrite bool_decide_eq_true_2 by (apply H; left).
  apply IH. intros k' Hk'. apply H. by right.
Qed.

Lemma union_fold_prefix (recs : list Dict.t) (seen : list string) :
  exists extra,
    foldl (fun seen r => foldl DataFrame.add_key seen (Dict.keys r)) seen recs
    = seen ++ extra.
Proof.
  revert seen. induction recs as [|r recs IH]; intros seen; simpl.
  - exists []. by rewrite app_nil_r.
  - destruct (add_keys_prefix seen (Dict.keys r)) as [e1 ->].
    destruct (IH (seen ++ e1)) as [e2 ->]. exists (e1 ++ e2). by rewrite app_assoc.
Qed.

Lemma union_fold_NoDup (recs : list Dict.t) (seen : list string) :
  NoDup seen ->
  NoDup (foldl (fun seen r => foldl DataFrame.add_key seen (Dict.keys r)) seen recs).
Proof.
  revert seen. induction recs as [|r recs IH]; intros seen Hnd; [exact Hnd|].
  simpl. by apply IH, add_keys_NoDup.
Qed.

Lemma union_fold_known (recs : list Dict.t) (seen : list string) :
  Forall (fun r => forall k, k ∈ Dict.keys r -> k ∈ seen) recs ->
  foldl (fun seen r => foldl DataFrame.add_key seen (Dict.keys r)) seen recs = seen.
Proof.
  induction 1 as [|r recs Hr _ IH]; [reflexivity|]. simpl.
  by rewrite add_keys_known.
Qed.

Lemma union_keys_NoDup (recs : list Dict.t) : NoDup (DataFrame.union_keys recs).
Proof. apply union_fold_NoDup. constructor. Qed.

(** The columns of the frame made from the entries of a list of days
    that is not empty: Date, Type, then the labels the flight records
    add. *)
Lemma columns_consolidate (day : date) (days : list date)
      (flights : gmap date Series) (codes : gmap (option date) string) :
  exists more,
    DataFrame.union_keys (Workflow.consolidate (day :: days) flights codes)
    = ["Date"; "Type"]%string ++ more
    /\ ((forall d, d ∈ day :: days -> flights !! d = None) -> more = []).
Proof.
  unfold DataFrame.union_keys, Workflow.consolidate. rewrite fmap_cons. simpl.
  destruct (keys_build_entry flights codes day) as (e0 & -> & He0).
  change (foldl DataFrame.add_key [] (["Date"; "Type"]%string ++ e0))
    with (foldl DataFrame.add_key ["Date"; "Type"]%string e0).
  destruct (add_keys_prefix ["Date"; "Type"]%string e0) as [e1 He1].
  destruct (union_fold_prefix (Workflow.build_entry flights codes <$> days)
              (["Date"; "Type"]%string ++ e1)) as [e2 He2].
  exists (e1 ++ e2). split.
  - rewrite He1, He2. by rewrite <- app_assoc.
  - intros Hnone. rewrite (He0 (Hnone day ltac:(left))) in He1. simpl in He1.
    injection He1 as <-. simpl in He2.
    rewrite union_fold_known in He2.
    + by injection He2 as <-.
    + apply Forall_fmap, Forall_forall. intros d Hd k. simpl.
      destruct (keys_build_entry flights codes d) as (e & -> & He).
      rewrite He by (apply Hnone; by right). by rewrite app_nil_r.
Qed.

End FrameShape.

Section ConsolidatedRows.

Variable flights : gmap date Series.
Variable codes : gmap (option date) string.

Lemma build_entry_has (day : date) (k : string) :
  k = "Date"%string \/ k = "Type"%string ->
  is_Some (Dict.get k (Workflow.build_entry flights codes day)).
Proof.
  intros Hk. apply get_is_Some.
  destruct (keys_build_entry flights codes day) as (extra & Hkeys & _).
  unfold Dict.keys in Hkeys. rewrite Hkeys.
  destruct Hk as [->| ->]; [left|right; left].
Qed.

(** The consolidated frame: its columns, and its row for each day. *)
Lemma consolidated_frame :
  exists df more,
    Workflow.build_consolidated flights codes = Ok df
    /\ DataFrame.columns df = ["Date"; "Type"]%string ++ more
    /\ NoDup (DataFrame.columns df)
    /\ frame_wf df
    /\ ((forall d, d ∈ calendar 2024 -> flights !! d = None) -> more = [])
    /\ forall (i : nat) day,
        calendar 2024 !! i = Some day ->
        exists vd vt rest,
          DataFrame.values df !! i = Some (vd :: vt :: rest)
          /\ Dict.get "Date" (Workflow.build_entry flights codes day) = Some vd
          /\ Dict.get "Type" (Workflow.build_entry flights codes day) = Some vt
          /\ (flights !! day = None -> Forall (fun v => v = VNaN) rest).
Proof.
  rewrite build_consolidated_2024.
  pose proof (length_calendar 2024) as Hlen.
  generalize dependent (calendar 2024). intros days Hlen.
  destruct days as [|day0 days]; [discriminate Hlen|]. clear Hlen.
  destruct (columns_consolidate day0 days flights codes) as (more & Hcols & Hmore).
  remember (Workflow.consolidate (day0 :: days) flights codes) as recs eqn:Erecs.
  exists (DataFrame.of_records recs), more.
  split; [reflexivity|]. split; [exact Hcols|].
  split; [apply union_keys_NoDup|]. split.
  { unfold frame_wf, DataFrame.of_records. cbn [DataFrame.values DataFrame.columns].
    apply Forall_fmap, Forall_forall. intros r _. simpl. apply length_map. }
  split; [exact Hmore|].
  intros i day Hi.
  pose proof (union_keys_NoDup recs) as Hnd. rewrite Hcols in Hnd.
  destruct (build_entry_has day "Date") as [vd Hvd]; [by left|].
  destruct (build_entry_has day "Type") as [vt Hvt]; [by right|].
  exists vd, vt,
    ((fun c => default VNaN (Dict.get c (Workflow.build_entry flights codes day)))
       <$> more).
  split; [|split; [exact Hvd|split; [exact Hvt|]]].
  - unfold DataFrame.of_records. cbn [DataFrame.values].
    assert (Hrec : recs !! i = Some (Workflow.build_entry flights codes day)).
    { rewrite Erecs. unfold Workflow.consolidate. by rewrite list_lookup_fmap, Hi. }
    rewrite list_lookup_fmap, Hrec. simpl. rewrite Hcols. simpl.
    by rewrite Hvd, Hvt.
  - intros Hnone. apply Forall_fmap, Forall_forall. intros c Hc. simpl.
    destruct (Dict.get c (Workflow.build_entry flights codes day)) as [v|] eqn:E;
      [|reflexivity].
    exfalso.
    assert (Hin : c ∈ Dict.keys (Workflow.build_entry flights codes day)).
    { apply get_is_Some. by eexists. }
    destruct (keys_build_entry flights codes day) as (extra & Hkeys & Hextra).
    rewrite Hkeys, (Hextra Hnone), app_nil_r in Hin.
    apply NoDup_app in Hnd as (_ & Hdisj & _). by apply (Hdisj c).
Qed.

End ConsolidatedRows.

Section OverwriteTwice.

Lemma rfoldl_inv {A B} (P : B -> Prop) (f : B -> A -> result B) (l : list A) :
  (forall b a b', a ∈ l -> P b -> f b a = Ok b' -> P b') ->
  forall b b', P b -> rfoldl f b l = Ok b' -> P b'.
Proof.
  induction l as [|a l IH]; intros Hstep b b' Hb Hrun.
  - by injection Hrun as <-.
  - simpl in Hrun. destruct (f b a) as [b1|e] eqn:E; simpl in Hrun; [|discriminate].
    apply (IH (fun b a b' Ha => Hstep b a b' (list_elem_of_further _ _ _ Ha)) b1 b');
      [|exact Hrun].
    apply (Hstep b a b1); [left|exact Hb|exact E].
Qed.

Lemma elem_of_enumerate {A} (s : Z) (l : list A) (j : Z) (x : A) :
  (j, x) ∈ enumerate s l -> s <= j < s + Z.of_nat (length l).
Proof.
  unfold enumerate. intros H. apply elem_of_zip_l in H. by apply elem_of_seqZ in H.
Qed.

Lemma cell_max_column (r c : Z) (ws ws' : worksheet) :
  Openpyxl.cell r c ws = Ok ws' ->
  Openpyxl.max_column ws' = Z.max c (Openpyxl.max_column ws).
Proof.
  unfold Openpyxl.cell. destruct ((r <? 1) || (c <? 1)); [discriminate|].
  destruct (ws !! (r, c)) as [v|] eqn:E; intros [= <-].
  - apply max_column_bound in E. lia.
  - apply max_column_insert.
Qed.

Lemma set_value_max_column (r c : Z) (v : value) (ws ws' : worksheet) :
  Openpyxl.set_value r c v ws = Ok ws' ->
  Openpyxl.max_column ws' = Z.max c (Openpyxl.max_column ws).
Proof.
  unfold Openpyxl.set_value. intros (ws1 & Hcell & [= <-])%bind_Ok_inv.
  rewrite max_column_insert, (cell_max_column _ _ _ _ Hcell). simpl. lia.
Qed.

(** Overwrite mode does not widen the sheet. *)
Lemma overwrite_sheet_max_column (df : DataFrame.t) (ws ws' : worksheet) :
  Workflow.overwrite_sheet df ws = Ok ws' ->
  Openpyxl.max_column ws' = Openpyxl.max_column ws.
Proof.
  unfold Workflow.overwrite_sheet, Openpyxl.row_values.
  intros ([ws1 header] & Hrow & Hrun)%bind_Ok_inv.
  apply bind_Ok_inv in Hrow as (ws0 & Htouch & [= <- <-]).
  set (W := Openpyxl.max_column ws) in *.
  assert (H0 : Openpyxl.max_column ws0 = W).
  { revert Htouch. apply (rfoldl_inv (fun w => Openpyxl.max_column w = W)); [|done].
    intros w c w' Hc Hw Hcell. unfold range in Hc. apply elem_of_seqZ in Hc.
    rewrite (cell_max_column _ _ _ _ Hcell). lia. }
  assert (Hlen : Z.of_nat (length ((fun c => Openpyxl.cell_value ws0 1 c)
                                     <$> range 1 (W + 1))) = W).
  { rewrite length_fmap. unfold range. rewrite length_seqZ.
    pose proof (max_column_ge_1 ws). fold W in H. lia. }
  rewrite Hlen in Hrun.
  revert Hrun. apply (rfoldl_inv (fun w => Openpyxl.max_column w = W)); [|exact H0].
  intros w [i row] w' _ Hw.
  apply (rfoldl_inv (fun w => Openpyxl.max_column w = W)); [|exact Hw].
  intros w1 [j v] w2 Hj Hw1. apply elem_of_enumerate in Hj.
  destruct (j <? W) eqn:E; [|by intros [= <-]].
  intros Hset. rewrite (set_value_max_column _ _ _ _ _ Hset). lia.
Qed.

End OverwriteTwice.

(** X8. The consolidated frame has one row for each day of 2024, its
    first two columns are Date and Type, its column labels are
    distinct and every row has a value in every column; the row of a
    day holds the entry's Date and Type in the first two places and,
    for a day without a flight record, [nan] in every other column.
    Without any flight in 2024 the frame has those two columns only. *)
Theorem X8_consolidated_frame_starts_with_date_and_type
    (flights : gmap date Series) (codes : gmap (option date) string) :
  exists df more,
    Workflow.build_consolidated flights codes = Ok df
    /\ DataFrame.columns df = ["Date"; "Type"]%string ++ more
    /\ NoDup (DataFrame.columns df)
    /\ frame_wf df
    /\ ((forall d, d ∈ calendar 2024 -> flights !! d = None) -> more = [])
    /\ forall (i : nat) day,
        calendar 2024 !! i = Some day ->
        exists vd vt rest,
          DataFrame.values df !! i = Some (vd :: vt :: rest)
          /\ Dict.get "Date" (Workflow.build_entry flights codes day) = Some vd
          /\ Dict.get "Type" (Workflow.build_entry flights codes day) = Some vt
          /\ (flights !! day = None -> Forall (fun v => v = VNaN) rest).
Proof. apply consolidated_frame. Qed.

(** X9. Overwrite mode after the merge: in every sheet, the row 2 + i
    holds the i-th day of 2024 (counting from 0), with the entry's Date
    in column 1 and, when the sheet has at least two columns, its Type
    in column 2; on a sheet with a single column (or no cell at all)
    only column 1 is written. *)
Theorem X9_overwrite_puts_day_i_on_row_i_plus_2
    (flights : gmap date Series) (codes : gmap (option date) string)
    (ws : worksheet) :
  exists df ws',
    Workflow.build_consolidated flights codes = Ok df
    /\ Workflow.overwrite_sheet df ws = Ok ws'
    /\ forall (i : nat) day,
        calendar 2024 !! i = Some day ->
        Some (Openpyxl.cell_value ws' (2 + Z.of_nat i) 1)
        = Dict.get "Date" (Workflow.build_entry flights codes day)
        /\ (2 <= Openpyxl.max_column ws ->
            Some (Openpyxl.cell_value ws' (2 + Z.of_nat i) 2)
            = Dict.get "Type" (Workflow.build_entry flights codes day))
        /\ (Openpyxl.max_column ws < 2 ->
            forall c, 2 <= c ->
                      Openpyxl.cell_value ws' (2 + Z.of_nat i) c
                      = Openpyxl.cell_value ws (2 + Z.of_nat i) c).
Proof.
  destruct (consolidated_frame flights codes)
    as (df & more & Hdf & _ & _ & _ & _ & Hrows).
  destruct (overwrite_sheet_overwritten df ws) as (ws' & Hrun & Hframe & Hin & _).
  exists df, ws'. split; [exact Hdf|]. split; [exact Hrun|].
  intros i day Hi. destruct (Hrows i day Hi) as (vd & vt & rest & Hrow & Hvd & Hvt & _).
  pose proof (max_column_ge_1 ws) as Hge. split; [|split].
  - rewrite Hvd. f_equal.
    apply (Hin i 0%nat (vd :: vt :: rest) vd Hrow eq_refl). simpl. lia.
  - intros Hw. rewrite Hvt. f_equal.
    apply (Hin i 1%nat (vd :: vt :: rest) vt Hrow eq_refl). simpl. lia.
  - intros Hw c Hc. apply Hframe. lia.
Qed.

(** X10. Overwrite mode does not widen a sheet, and running it again
    with the same timeline changes no cell value. *)
Theorem X10_overwrite_twice_is_overwrite_once
    (df : DataFrame.t) (ws ws' : worksheet) :
  Workflow.overwrite_sheet df ws = Ok ws' ->
  Openpyxl.max_column ws' = Openpyxl.max_column ws
  /\ exists ws'',
      Workflow.overwrite_sheet df ws' = Ok ws''
      /\ forall r c, Openpyxl.cell_value ws'' r c = Openpyxl.cell_value ws' r c.
Proof.
  intros Hrun. pose proof (overwrite_sheet_max_column df ws ws' Hrun) as Hmax.
  split; [exact Hmax|].
  destruct (overwrite_sheet_spec df ws) as (w1 & Hrun1 & Hval1).
  rewrite Hrun in Hrun1. injection Hrun1 as <-.
  destruct (overwrite_sheet_spec df ws') as (ws'' & Hrun2 & Hval2).
  exists ws''. split; [exact Hrun2|]. intros r c.
  rewrite Hval2, Hmax, Hval1.
  by destruct (grid_at _ _ _ _).
Qed.

Lemma X10_witness :
  let ws : worksheet := {[ (1, 1) := VStr "Date"; (1, 2) := VStr "Type" ]} in
  let df := DataFrame.Make ["Date"; "Type"]%string
                           [[VStr "2024-01-01"; VStr "OFF (auto)"]] in
  exists ws' : worksheet,
    Workflow.overwrite_sheet df ws = Ok ws' /\ Openpyxl.max_column ws' = 2.
Proof.
  intros ws df.
  destruct (overwrite_sheet_spec df ws) as (ws' & Hrun & _).
  exists ws'. split; [exact Hrun|].
  rewrite (proj1 (X10_overwrite_twice_is_overwrite_once df ws ws' Hrun)).
  reflexivity.
Defined.

(** ** Per-month template mode: errors, copies and names *)

Section WriteErrors.

Lemma range_cons (lo hi : Z) : lo < hi -> range lo hi = lo :: range (lo + 1) hi.
Proof.
  intros H. unfold range. rewrite seqZ_cons by lia.
  replace (Z.succ lo) with (lo + 1) by lia.
  replace (Z.pred (hi - lo)) with (hi - (lo + 1)) by lia. reflexivity.
Qed.

Lemma enumerate_cons {A} (s : Z) (x : A) (l : list A) :
  enumerate s (x :: l) = (s, x) :: enumerate (s + 1) l.
Proof.
  unfold enumerate. simpl length. rewrite seqZ_cons by lia.
  replace (Z.succ s) with (s + 1) by lia.
  replace (Z.pred (Z.of_nat (S (length l)))) with (Z.of_nat (length l)) by lia.
  reflexivity.
Qed.

Lemma clear_region_raises (start_row n : Z) (ws : worksheet) :
  start_row < 1 -> 0 < n -> FromPdfs.clear_region start_row n ws = Raise ValueError.
Proof.
  intros Hr Hn. unfold FromPdfs.clear_region.
  rewrite (range_cons start_row) by lia. cbn [rfoldl].
  pose proof (max_column_ge_1 ws).
  rewrite (range_cons 1) by lia. cbn [rfoldl].
  unfold FromPdfs.clear_cell, Openpyxl.cell.
  replace (start_row <? 1) with true by lia. reflexivity.
Qed.

Lemma write_rows_raise (rows : list (list value)) (s start_row start_col : Z)
      (ws : worksheet) :
  start_col < 1 -> Exists (fun row => row <> []) rows ->
  rfoldl (fun ws '(i, row) =>
            rfoldl (fun ws '(j, v) =>
                      Openpyxl.cell_with_value (start_row + i) (start_col + j) v ws)
                   ws (enumerate 0 row))
         ws (enumerate s rows) = Raise ValueError.
Proof.
  intros Hc Hex. revert s. induction Hex as [row rows Hrow|row rows _ IH]; intros s.
  - rewrite enumerate_cons. cbn [rfoldl]. destruct row as [|v row]; [done|].
    rewrite enumerate_cons. cbn [rfoldl].
    unfold Openpyxl.cell_with_value, Openpyxl.cell.
    replace (start_col + 0 <? 1) with true by lia. by rewrite orb_true_r.
  - rewrite enumerate_cons. cbn [rfoldl]. destruct row as [|v row].
    + simpl. apply IH.
    + rewrite enumerate_cons. cbn [rfoldl].
      unfold Openpyxl.cell_with_value, Openpyxl.cell.
      replace (start_col + 0 <? 1) with true by lia. by rewrite orb_true_r.
Qed.

Lemma write_df_ok (df : DataFrame.t) (start_row start_col : Z) (ws : worksheet) :
  1 <= start_row -> 1 <= start_col ->
  exists ws1 ws2 : worksheet,
    FromPdfs.write_df_into_workbook df start_row start_col ws = Ok ws2
    /\ (forall r c,
           Openpyxl.cell_value ws1 r c
           = if decide (in_cleared_region df start_row ws r c) then VNone
             else Openpyxl.cell_value ws r c)
    /\ forall r c,
        Openpyxl.cell_value ws2 r c
        = written_over (fun v old => if is_none v then old else v)
            (grid_at (fun _ => true) (DataFrame.to_rows df)
                     (r - start_row - 0) (c - start_col))
            (Openpyxl.cell_value ws1 r c).
Proof.
  intros Hr Hc.
  set (N := Z.max 50 (DataFrame.len df + 10)).
  assert (HN : N = Z.of_nat (Z.to_nat N)) by (unfold N; lia).
  destruct (clear_rows_spec start_row (Z.to_nat N) ws Hr) as (ws1 & Hclear & _ & Hv1).
  rewrite <- HN in Hclear, Hv1.
  destruct (write_values_spec df start_row start_col ws1 Hr Hc) as (ws2 & Hwrite & Hv2).
  exists ws1, ws2. split; [|split; [|exact Hv2]].
  - unfold FromPdfs.write_df_into_workbook. cbv zeta. fold N.
    rewrite Hclear. exact Hwrite.
  - intros r c. rewrite Hv1.
    destruct (decide (in_cleared_region df start_row ws r c)) as [Hin|Hin];
      unfold in_cleared_region in Hin; fold N in Hin;
      destruct (decide _); tauto.
Qed.

End WriteErrors.

(** X11. Writing a table into a sheet raises ValueError when the start
    row is below 1 (at the first cell it clears) and when the start
    column is below 1 and the table has a row with a value (at the
    first cell it writes); so it returns a sheet only for a start row
    of at least 1 and, unless the table has no value at all, a start
    column of at least 1. *)
Theorem X11_write_fails_below_the_first_row_or_column
    (df : DataFrame.t) (start_row start_col : Z) (ws : worksheet) :
  (start_row < 1
   \/ (start_col < 1 /\ Exists (fun row => row <> []) (DataFrame.values df)) ->
   FromPdfs.write_df_into_workbook df start_row start_col ws = Raise ValueError)
  /\ (forall ws',
         FromPdfs.write_df_into_workbook df start_row start_col ws = Ok ws' ->
         1 <= start_row
         /\ (1 <= start_col \/ Forall (fun row => row = []) (DataFrame.values df))).
Proof.
  set (N := Z.max 50 (DataFrame.len df + 10)).
  assert (HN : N = Z.of_nat (Z.to_nat N)) by (unfold N; lia).
  assert (Hbad : start_row < 1
                 \/ (start_col < 1 /\ Exists (fun row => row <> []) (DataFrame.values df)) ->
                 FromPdfs.write_df_into_workbook df start_row start_col ws
                 = Raise ValueError).
  { intros Hbad. unfold FromPdfs.write_df_into_workbook. cbv zeta. fold N.
    destruct (Z_lt_le_dec start_row 1) as [Hr|Hr].
    - rewrite clear_region_raises by lia. reflexivity.
    - destruct Hbad as [?|[Hc Hex]]; [lia|].
      destruct (clear_rows_spec start_row (Z.to_nat N) ws Hr) as (ws1 & Hclear & _).
      rewrite <- HN in Hclear. rewrite Hclear. simpl.
      unfold FromPdfs.write_values, DataFrame.to_rows.
      by apply write_rows_raise. }
  split; [exact Hbad|]. intros ws' Hrun.
  destruct (Z_lt_le_dec start_row 1) as [Hr|Hr].
  { rewrite Hbad in Hrun by (by left). discriminate Hrun. }
  split; [exact Hr|].
  destruct (Z_lt_le_dec start_col 1) as [Hc|Hc]; [|by left]. right.
  apply Forall_forall. intros row Hrow.
  destruct row as [|v row]; [reflexivity|]. exfalso.
  rewrite Hbad in Hrun; [discriminate Hrun|]. right. split; [exact Hc|].
  apply Exists_exists. exists (v :: row). by split.
Qed.

Lemma X11_witness :
  FromPdfs.write_df_into_workbook (DataFrame.Make ["a"]%string [[VStr "x"]]) 0 1 ∅
  = Raise ValueError.
Proof.
  apply (proj1 (X11_write_fails_below_the_first_row_or_column _ 0 1 ∅)).
  left. lia.
Defined.

Section MonthDocument.

Variable extract : string -> result DataFrame.t.

Lemma find_template_spec (key : string) (st : FromPdfs.state) :
  match FromPdfs.templates st !! (key ++ " 2023.xlsx")%string with
  | Some tpl =>
      FromPdfs.find_template key st = Ok ((key ++ " 2023.xlsx")%string, tpl)
  | None =>
      match FromPdfs.templates st !! "2023.xlsx"%string with
      | Some tpl => FromPdfs.find_template key st = Ok ("2023.xlsx"%string, tpl)
      | None => FromPdfs.find_template key st = Raise FileNotFoundError
      end
  end.
Proof.
  unfold FromPdfs.find_template.
  destruct (FromPdfs.templates st !! _) as [tpl|]; [reflexivity|].
  by destruct (FromPdfs.templates st !! _).
Qed.

Lemma find_template_has (pdf : string) (st : FromPdfs.state) :
  has_template (FromPdfs.templates st) pdf
  <-> exists name tpl, FromPdfs.find_template (month_key pdf) st = Ok (name, tpl).
Proof.
  pose proof (find_template_spec (month_key pdf) st) as H. unfold has_template. split.
  - intros [[tpl Ht]|[tpl Ht]].
    + rewrite Ht in H. eauto.
    + destruct (FromPdfs.templates st !! (month_key pdf ++ " 2023.xlsx")%string);
        [eauto|]. rewrite Ht in H. eauto.
  - intros (name & tpl & Hfind).
    destruct (FromPdfs.templates st !! (month_key pdf ++ " 2023.xlsx")%string);
      [left; by eexists|].
    destruct (FromPdfs.templates st !! "2023.xlsx"%string); [right; by eexists|].
    congruence.
Qed.

(** What processing one document does to the state, once a template is
    found. *)
Lemma process_with_template (pdf name : string) (tpl : worksheet)
      (st : FromPdfs.state) :
  FromPdfs.find_template (month_key pdf) st = Ok (name, tpl) ->
  let out := month_file pdf in
  let copied := FromPdfs.print (FromPdfs.Copied name out) (FromPdfs.save out tpl st) in
  match extract pdf with
  | Raise e => FromPdfs.process_month_pdf extract pdf st = (copied, Raise e)
  | Ok df =>
      if DataFrame.empty df
      then FromPdfs.process_month_pdf extract pdf st
           = (FromPdfs.print (FromPdfs.NoTables pdf) copied, Ok out)
      else exists ws,
          FromPdfs.write_df_into_workbook (DataFrame.dropna_columns df)
            FromPdfs.WRITE_START_ROW FromPdfs.WRITE_START_COL tpl = Ok ws
          /\ FromPdfs.process_month_pdf extract pdf st
             = (FromPdfs.print (FromPdfs.Wrote out) (FromPdfs.save out ws copied),
                Ok out)
  end.
Proof.
  intros Hfind out copied. unfold FromPdfs.process_month_pdf.
  fold (month_key pdf). rewrite Hfind. fold (month_file pdf). fold out. fold copied.
  destruct (extract pdf) as [df|e]; [|reflexivity].
  destruct (DataFrame.empty df); [reflexivity|].
  destruct (write_df_ok (DataFrame.dropna_columns df) FromPdfs.WRITE_START_ROW
              FromPdfs.WRITE_START_COL tpl) as (ws1 & ws & Hrun & _);
    [unfold FromPdfs.WRITE_START_ROW; lia|unfold FromPdfs.WRITE_START_COL; lia|].
  exists ws. split; [exact Hrun|]. by rewrite Hrun.
Qed.

(** The output files after one step of the run. *)
Lemma main_step_outputs (st : FromPdfs.state) (created : list string) (pdf : string)
      (n : string) :
  is_Some (FromPdfs.outputs (FromPdfs.main_step extract (st, created) pdf).1 !! n)
  <-> is_Some (FromPdfs.outputs st !! n)
      \/ (has_template (FromPdfs.templates st) pdf /\ n = month_file pdf).
Proof.
  unfold FromPdfs.main_step. simpl.
  pose proof (find_template_has pdf st) as Hhas.
  destruct (FromPdfs.find_template (month_key pdf) st) as [[name tpl]|e] eqn:Hfind.
  - pose proof (process_with_template pdf name tpl st Hfind) as H. cbv zeta in H.
    assert (Ht : has_template (FromPdfs.templates st) pdf) by (apply Hhas; eauto).
    assert (Hins : forall (ws : worksheet) (m : gmap string worksheet),
               is_Some (<[month_file pdf := ws]> m !! n)
               <-> is_Some (m !! n) \/ n = month_file pdf).
    { intros ws m. rewrite lookup_insert_is_Some.
      destruct (decide (month_file pdf = n)) as [<-|Hne]; [tauto|].
      split; [intros [?|[_ ?]]; [congruence|tauto]|].
      intros [?|?]; [tauto|congruence]. }
    destruct (extract pdf) as [df|e].
    + destruct (DataFrame.empty df).
      * rewrite H. simpl. rewrite Hins. tauto.
      * destruct H as (ws & _ & ->). simpl. rewrite !Hins. tauto.
    + rewrite H. simpl. rewrite Hins. tauto.
  - unfold FromPdfs.process_month_pdf. fold (month_key pdf). rewrite Hfind. simpl.
    split; [by left|]. intros [?|[Ht _]]; [done|].
    apply Hhas in Ht as (name & tpl & Ht). congruence.
Qed.

Lemma run_outputs (files : list string) (st : FromPdfs.state) (created : list string)
      (n : string) :
  is_Some (FromPdfs.outputs (foldl (FromPdfs.main_step extract) (st, created) files).1
             !! n)
  <-> is_Some (FromPdfs.outputs st !! n)
      \/ exists pdf, pdf ∈ files /\ has_template (FromPdfs.templates st) pdf
                     /\ n = month_file pdf.
Proof.
  revert st created. induction files as [|pdf files IH]; intros st created.
  - simpl. split; [by left|]. intros [?|(pdf & Hin & _)]; [done|].
    by apply elem_of_nil in Hin.
  - simpl.
    destruct (FromPdfs.main_step extract (st, created) pdf) as [st1 cr1] eqn:E.
    rewrite IH.
    pose proof (main_step_outputs st created pdf n) as Hstep.
    pose proof (main_step_alone extract st created pdf) as (Ht & _).
    rewrite E in Hstep, Ht. simpl in Hstep, Ht. rewrite Hstep, Ht. split.
    + intros [[?|[? ?]]|(pdf' & Hin & ? & ?)]; [by left| |].
      * right. exists pdf. split; [left|done].
      * right. exists pdf'. split; [by right|done].
    + intros [?|(pdf' & Hin & ? & ?)]; [by left; left|].
      apply elem_of_cons in Hin as [->|Hin]; [left; right; done|].
      right. exists pdf'. done.
Qed.

End MonthDocument.

Section MonthKey.

Lemma split_head_no_underscore (s : string) : no_underscore (month_key s).
Proof.
  unfold no_underscore, month_key. induction s as [|c s IH]; simpl.
  - apply not_elem_of_nil.
  - destruct (Ascii.eqb_spec c "_"%char) as [->|Hne]; simpl.
    + apply not_elem_of_nil.
    + apply not_elem_of_cons. split; [congruence|exact IH].
Qed.

Lemma split_head_app (key rest : string) :
  no_underscore key -> month_key (key ++ "_" ++ rest) = key.
Proof.
  unfold no_underscore, month_key. induction key as [|c key IH]; intros Hk.
  - reflexivity.
  - simpl in Hk. apply not_elem_of_cons in Hk as [Hc Hk].
    change (Str.split_head "_" (String c (key ++ "_" ++ rest)) = String c key).
    simpl. destruct (Ascii.eqb_spec c "_"%char) as [->|_]; [done|].
    f_equal. by apply IH.
Qed.

End MonthKey.

(** ** Per-month template mode: what the write can do to a month file *)

Section WriteOutcome.


End WriteOutcome.





(** X14. The run of per-month mode never changes a template and never
    removes an output file; after it, the output directory holds the
    files it held before and, for each processed document that has a
    template, the file of its month, and no other file. *)
Theorem X14_run_adds_only_month_files
    (extract : string -> result DataFrame.t) (data_dir : list string)
    (st : FromPdfs.state) :
  let st' := FromPdfs.main extract data_dir st in
  FromPdfs.templates st' = FromPdfs.templates st
  /\ forall n,
      is_Some (FromPdfs.outputs st' !! n)
      <-> is_Some (FromPdfs.outputs st !! n)
          \/ exists pdf, pdf ∈ FromPdfs.pdf_files data_dir
                         /\ has_template (FromPdfs.templates st) pdf
                         /\ n = month_file pdf.
Proof.
  intros st'. split; [apply main_log|]. intros n. subst st'.
  unfold FromPdfs.main.
  destruct (FromPdfs.pdf_files data_dir) as [|f files] eqn:E.
  - simpl. split; [by left|]. intros [?|(pdf & Hin & _)]; [done|].
    by apply elem_of_nil in Hin.
  - pose proof (run_outputs extract (f :: files) st [] n) as H.
    destruct (foldl (FromPdfs.main_step extract) (st, []) (f :: files)) as [st1 cr1].
    exact H.
Qed.

(** X15. The month of a document is the part of its name before the
    first underscore: it has no underscore, a name built as month,
    underscore, rest gives back the month, and every document of that
    month is written to the same output file, named by the month
    alone. *)
Theorem X15_month_key_is_the_text_before_the_first_underscore :
  (forall s, no_underscore (month_key s))
  /\ (forall key rest, no_underscore key -> month_key (key ++ "_" ++ rest) = key)
  /\ (forall key rest rest',
         no_underscore key ->
         month_file (key ++ "_" ++ rest) = month_file (key ++ "_" ++ rest')
         /\ month_file (key ++ "_" ++ rest) = (key ++ " 2024.xlsx")%string).
Proof.
  split; [apply split_head_no_underscore|]. split; [apply split_head_app|].
  intros key rest rest' Hk. unfold month_file.
  by rewrite !split_head_app.
Qed.

Lemma X15_witness :
  month_key "MARZO_2024.pdf" = "MARZO"%string
  /\ month_file "MARZO_2024.pdf" = "MARZO 2024.xlsx"%string.
Proof.
  destruct X15_month_key_is_the_text_before_the_first_underscore as (_ & Hkey & Hfile).
  assert (Hno : no_underscore "MARZO").
  { unfold no_underscore. apply (bool_decide_eq_true_1 _). reflexivity. }
  split.
  - exact (Hkey "MARZO" "2024.pdf" Hno)%string.
  - exact (proj2 (Hfile "MARZO" "2024.pdf" "2024.pdf" Hno))%string.
Defined.

(** ** Per-month template mode: the files a run leaves *)

Section RunFiles.

Variable extract : string -> result DataFrame.t.

Lemma list_ascii_of_string_app (a b : string) :
  list_ascii_of_string (a ++ b) = list_ascii_of_string a ++ list_ascii_of_string b.
Proof.
  induction a as [|c a IH]; [reflexivity|].
  change (c :: list_ascii_of_string (a ++ b)
          = c :: (list_ascii_of_string a ++ list_ascii_of_string b)).
  by rewrite IH.
Qed.

Lemma month_file_key (a b : string) :
  month_file a = month_file b -> month_key a = month_key b.
Proof.
  unfold month_file. intros H.
  apply (f_equal list_ascii_of_string) in H.
  rewrite !list_ascii_of_string_app in H. apply app_inv_tail in H.
  rewrite <- (string_of_list_ascii_of_string (month_key a)),
    <- (string_of_list_ascii_of_string (month_key b)).
  by rewrite H.
Qed.

Lemma has_template_key (tpls : gmap string worksheet) (a b : string) :
  month_key a = month_key b -> has_template tpls a -> has_template tpls b.
Proof. unfold has_template. by intros ->. Qed.

Lemma succeeds_has_template (tpls : gmap string worksheet) (pdf : string) :
  succeeds extract tpls pdf = true -> has_template tpls pdf.
Proof.
  unfold succeeds. intros H.
  apply (find_template_has pdf (fresh tpls)).
  unfold FromPdfs.process_month_pdf in H. fold (month_key pdf) in H.
  destruct (FromPdfs.find_template (month_key pdf) (fresh tpls)) as [[name tpl]|e];
    [by eauto|discriminate H].
Qed.

Lemma main_outputs (data_dir : list string) (st : FromPdfs.state) (n : string) :
  is_Some (FromPdfs.outputs (FromPdfs.main extract data_dir st) !! n)
  <-> is_Some (FromPdfs.outputs st !! n)
      \/ exists pdf, pdf ∈ FromPdfs.pdf_files data_dir
                     /\ has_template (FromPdfs.templates st) pdf
                     /\ n = month_file pdf.
Proof.
  unfold FromPdfs.main.
  destruct (FromPdfs.pdf_files data_dir) as [|f files] eqn:E.
  - simpl. split; [by left|]. intros [?|(pdf & Hin & _)]; [done|].
    by apply elem_of_nil in Hin.
  - pose proof (run_outputs extract (f :: files) st [] n) as H.
    destruct (foldl (FromPdfs.main_step extract) (st, []) (f :: files)) as [st1 cr1].
    exact H.
Qed.

End RunFiles.

(** C8 (as amended). When neither the template of a document's month
    nor the generic one exists, processing that document raises
    FileNotFoundError and leaves the state as it was: no output file is
    created and nothing is printed by it, and the run as a whole leaves
    no file for that month.  The run catches the failure and reports it
    for that document only: every document still contributes the lines
    it prints on its own, each document that has a template leaves the
    file of its month, and these are the only files the run adds.  The
    run ends with the count of the documents that returned a path; each
    of them has its file, but two documents of one month are counted
    twice for the one file they write. *)
Theorem C8_missing_template_stops_that_month_only
    (extract : string -> result DataFrame.t) (data_dir : list string)
    (st : FromPdfs.state) (pdf : string) :
  pdf ∈ FromPdfs.pdf_files data_dir ->
  FromPdfs.templates st !! (Str.split_head "_" pdf ++ " 2023.xlsx")%string = None ->
  FromPdfs.templates st !! "2023.xlsx"%string = None ->
  let files := FromPdfs.pdf_files data_dir in
  let tpls := FromPdfs.templates st in
  let st' := FromPdfs.main extract data_dir st in
  (forall st0, FromPdfs.templates st0 = tpls ->
               FromPdfs.process_month_pdf extract pdf st0 = (st0, Raise FileNotFoundError))
  /\ step_log extract tpls pdf = [FromPdfs.ErrorProcessing pdf FileNotFoundError]
  /\ succeeds extract tpls pdf = false
  /\ FromPdfs.stdout st'
     = FromPdfs.stdout st
       ++ concat (step_log extract tpls <$> files)
       ++ [FromPdfs.Done (length (List.filter (succeeds extract tpls) files))]
  /\ FromPdfs.ErrorProcessing pdf FileNotFoundError ∈ FromPdfs.stdout st'
  /\ last (FromPdfs.stdout st')
     = Some (FromPdfs.Done (length (List.filter (succeeds extract tpls) files)))
  /\ (is_Some (FromPdfs.outputs st' !! month_file pdf)
      <-> is_Some (FromPdfs.outputs st !! month_file pdf))
  /\ (forall n,
         is_Some (FromPdfs.outputs st' !! n)
         <-> is_Some (FromPdfs.outputs st !! n)
             \/ exists pdf', pdf' ∈ files /\ has_template tpls pdf'
                             /\ n = month_file pdf')
  /\ (forall pdf', pdf' ∈ files -> succeeds extract tpls pdf' = true ->
                   is_Some (FromPdfs.outputs st' !! month_file pdf')).
Proof.
  intros Hin H1 H2 files tpls st'.
  assert (Hraise : forall st0, FromPdfs.templates st0 = tpls ->
             FromPdfs.process_month_pdf extract pdf st0 = (st0, Raise FileNotFoundError)).
  { intros st0 Ht. apply no_template_raises; by rewrite Ht. }
  assert (Hlog : step_log extract tpls pdf
                 = [FromPdfs.ErrorProcessing pdf FileNotFoundError]).
  { unfold step_log, FromPdfs.main_step. simpl.
    by rewrite (Hraise (fresh tpls) eq_refl). }
  assert (Hout : FromPdfs.stdout st'
     = FromPdfs.stdout st
       ++ concat (step_log extract tpls <$> files)
       ++ [FromPdfs.Done (length (List.filter (succeeds extract tpls) files))]).
  { apply main_log. intros Hnil. rewrite Hnil in Hin.
    by apply elem_of_nil in Hin. }
  assert (Hnone : ~ has_template tpls pdf).
  { unfold has_template, month_key. fold tpls in H1, H2. rewrite H1, H2.
    intros [[? ?]|[? ?]]; discriminate. }
  assert (Hfiles : forall n,
             is_Some (FromPdfs.outputs st' !! n)
             <-> is_Some (FromPdfs.outputs st !! n)
                 \/ exists pdf', pdf' ∈ files /\ has_template tpls pdf'
                                 /\ n = month_file pdf')
    by apply main_outputs.
  split; [exact Hraise|]. split; [exact Hlog|]. split.
  { unfold succeeds. by rewrite (Hraise (fresh tpls) eq_refl). }
  split; [exact Hout|]. split.
  { rewrite Hout, !elem_of_app. right. left.
    apply list_elem_of_In, in_concat. exists (step_log extract tpls pdf). split.
    - apply list_elem_of_In, list_elem_of_fmap. by exists pdf.
    - rewrite Hlog. by left. }
  split; [rewrite Hout, !app_assoc; apply last_snoc|].
  split.
  { rewrite Hfiles. split; [|by left].
    intros [?|(pdf' & _ & Ht & Heq)]; [done|].
    destruct Hnone. apply (has_template_key tpls pdf' pdf); [|exact Ht].
    symmetry. by apply month_file_key. }
  split; [exact Hfiles|].
  intros pdf' Hin' Hs. apply Hfiles. right. exists pdf'.
  split; [exact Hin'|]. split; [|reflexivity]. by eapply succeeds_has_template.
Qed.

Lemma C8_witness :
  FromPdfs.stdout
    (FromPdfs.main (fun _ => Ok (DataFrame.Make [] [])) example_data_dir
                   (fresh example_templates))
  = [FromPdfs.Copied "APRILE 2023.xlsx" "APRILE 2024.xlsx";
     FromPdfs.NoTables "APRILE_2024.pdf";
     FromPdfs.ErrorProcessing "GENNAIO_2024.pdf" FileNotFoundError;
     FromPdfs.ErrorProcessing "NOTE_2024.pdf" FileNotFoundError;
     FromPdfs.Done 1]%string
  /\ is_Some (FromPdfs.outputs
                (FromPdfs.main (fun _ => Ok (DataFrame.Make [] [])) example_data_dir
                               (fresh example_templates))
              !! "APRILE 2024.xlsx"%string)
  /\ ~ is_Some (FromPdfs.outputs
                  (FromPdfs.main (fun _ => Ok (DataFrame.Make [] [])) example_data_dir
                                 (fresh example_templates))
                !! "GENNAIO 2024.xlsx"%string).
Proof.
  assert (Hin : "GENNAIO_2024.pdf"%string ∈ FromPdfs.pdf_files example_data_dir).
  { apply elem_of_pdf_files. split; [|split].
    - left.
    - reflexivity.
    - by exists (list_ascii_of_string "GENNAIO"). }
  destruct (C8_missing_template_stops_that_month_only
              (fun _ => Ok (DataFrame.Make [] [])) example_data_dir
              (fresh example_templates) "GENNAIO_2024.pdf"%string Hin)
    as (_ & _ & _ & Hout & _ & _ & Hgone & _ & Hdone); [reflexivity|reflexivity|].
  split; [rewrite Hout; reflexivity|]. split.
  - apply (Hdone "APRILE_2024.pdf"%string); [|reflexivity].
    apply elem_of_pdf_files. split; [|split].
    + do 3 right. left.
    + reflexivity.
    + by exists (list_ascii_of_string "APRILE").
  - intros H. apply Hgone in H. destruct H as [ws H]. discriminate H.
Defined.

(** The final count is not the number of files produced: with two
    documents of March and the template of March, the run ends with a
    count of 2 and has produced one file. *)
Lemma C8_counterexample :
  FromPdfs.pdf_files example_march_dir
  = ["GENNAIO_2024.pdf"; "MARZO_2024.pdf"; "MARZO_bis_2024.pdf"]%string
  /\ last (FromPdfs.stdout
             (FromPdfs.main (fun _ => Ok (DataFrame.Make [] [])) example_march_dir
                            (fresh example_march_templates)))
     = Some (FromPdfs.Done 2)
  /\ FromPdfs.outputs
       (FromPdfs.main (fun _ => Ok (DataFrame.Make [] [])) example_march_dir
                      (fresh example_march_templates))
     = {[ "MARZO 2024.xlsx"%string := {[ (1, 1) := VStr "MARZO" ]} ]}.
Proof. split; [reflexivity|]. split; reflexivity. Qed.

(** ** Dates as text *)

Section DateText.

Lemma digit_spec (n : Z) :
  Str.is_digit (Str.digit n) = true /\ Str.digit_val (Str.digit n) = n mod 10.
Proof.
  unfold Str.digit.
  assert (H : 0 <= n mod 10 < 10) by (apply Z.mod_pos_bound; lia).
  remember (Z.to_nat (n mod 10)) as k eqn:Ek.
  assert (Hk : n mod 10 = Z.of_nat k) by lia.
  assert (Hlt : (k < 10)%nat) by lia.
  rewrite Hk. clear Ek Hk H.
  do 10 (destruct k as [|k]; [split; reflexivity|]). lia.
Qed.

Lemma two_digits_digit (a b : Z) :
  Workflow.two_digits (Str.digit a) (Str.digit b) = Some (10 * (a mod 10) + b mod 10).
Proof.
  unfold Workflow.two_digits.
  destruct (digit_spec a) as [-> ->]. destruct (digit_spec b) as [-> ->]. reflexivity.
Qed.

Lemma parse_year_digits (y : Z) :
  0 <= y <= 9999 ->
  Workflow.parse_year (Str.digit (y / 1000)) (Str.digit (y / 100))
                      (Str.digit (y / 10)) (Str.digit y) = Some y.
Proof.
  intros Hy. unfold Workflow.parse_year. rewrite !two_digits_digit. simpl.
  f_equal. Z.div_mod_to_equations. lia.
Qed.

Lemma match_month_day (y1 y2 y3 y4 : ascii) (y : Z) (mk dk : nat) :
  Workflow.parse_year y1 y2 y3 y4 = Some y ->
  (1 <= mk <= 12)%nat -> (1 <= dk <= 31)%nat ->
  Workflow.match_ymd
    (y1 :: y2 :: y3 :: y4 :: "-"%char
        :: list_ascii_of_string
             (Str.pad2 (Z.of_nat mk) ++ "-" ++ Str.pad2 (Z.of_nat dk)))
  = Some (y, Z.of_nat mk, Z.of_nat dk).
Proof.
  intros Hy Hm Hd. unfold Workflow.match_ymd. cbv beta iota. rewrite Hy.
  destruct mk as [|mk]; [lia|].
  do 12 (destruct mk as [|mk];
         [destruct dk as [|dk]; [lia|];
          do 31 (destruct dk as [|dk]; [vm_compute; reflexivity|]); lia|]).
  lia.
Qed.

Lemma strptime_strftime (d : date) :
  valid d -> 1000 <= year d ->
  Workflow.strptime_ymd (VStr (strftime_ymd d)) = Ok d.
Proof.
  intros (Hy & Hm & Hd) Hy'. destruct d as [y m dd].
  cbn [year month day] in Hy, Hm, Hd, Hy'.
  unfold MINYEAR, MAXYEAR in Hy.
  assert (Hdim : days_in_month y m <= 31).
  { unfold days_in_month, DAYS_IN_MONTH.
    assert (Hms : m = 1 \/ m = 2 \/ m = 3 \/ m = 4 \/ m = 5 \/ m = 6 \/ m = 7
                  \/ m = 8 \/ m = 9 \/ m = 10 \/ m = 11 \/ m = 12) by lia.
    repeat (destruct Hms as [->|Hms]); try subst m;
      destruct (is_leap y); simpl; lia. }
  unfold Workflow.strptime_ymd.
  change (list_ascii_of_string (strftime_ymd (Date y m dd)))
    with (Str.digit (y / 1000) :: Str.digit (y / 100) :: Str.digit (y / 10)
            :: Str.digit y :: "-"%char
            :: list_ascii_of_string (Str.pad2 m ++ "-" ++ Str.pad2 dd)).
  rewrite <- (Z2Nat.id m), <- (Z2Nat.id dd) at 1 by lia.
  rewrite (match_month_day _ _ _ _ y (Z.to_nat m) (Z.to_nat dd))
    by (try apply parse_year_digits; lia).
  rewrite !Z2Nat.id by lia.
  unfold mkdate, MINYEAR, MAXYEAR.
  replace ((1 <=? y) && (y <=? 9999)) with true by lia.
  replace ((1 <=? m) && (m <=? 12)) with true by lia.
  replace ((1 <=? dd) && (dd <=? days_in_month y m)) with true by lia.
  reflexivity.
Qed.

End DateText.

(** X16. The Date string the merge writes for a day is read back by
    the summary renderer as that same day: parsing the year-month-day
    text of a calendar date (year 1000 or later, where the text has
    four digits of year) gives the date, so two different days never
    get the same Date string. *)
Theorem X16_the_date_string_reads_back_as_the_day (d : date) :
  valid d -> 1000 <= year d ->
  Workflow.strptime_ymd (VStr (strftime_ymd d)) = Ok d
  /\ forall d', valid d' -> 1000 <= year d' ->
                strftime_ymd d' = strftime_ymd d -> d' = d.
Proof.
  intros Hv Hy. split; [by apply strptime_strftime|].
  intros d' Hv' Hy' Heq.
  pose proof (strptime_strftime d' Hv' Hy') as H'.
  rewrite Heq, (strptime_strftime d Hv Hy) in H'. by injection H'.
Qed.

Lemma X16_witness :
  Workflow.strptime_ymd (VStr (strftime_ymd (Date 2024 2 29))) = Ok (Date 2024 2 29).
Proof.
  apply X16_the_date_string_reads_back_as_the_day.
  - unfold valid, MINYEAR, MAXYEAR. simpl.
    change (days_in_month 2024 2) with 29. lia.
  - simpl. lia.
Defined.

(** ** The timeline by its dates *)

Section TimelineDates.

Lemma parse_csv_dated_by_key (to_datetime_column : list value -> list (option date))
      (csv : DataFrame.t) (flights : gmap date Series) :
  NoDup (DataFrame.columns csv) ->
  Workflow.parse_csv to_datetime_column csv = Ok flights ->
  dated_by_key flights.
Proof.
  intros Hnd Hcsv d row v Hrow Hlast.
  rewrite last_value_NoDup in Hlast by (by eapply parse_csv_rows_NoDup).
  rewrite (parse_csv_rows_carry_their_date _ csv flights d row Hcsv Hrow) in Hlast.
  by injection Hlast as <-.
Qed.

Variable flights : gmap date Series.
Variable codes : gmap (option date) string.

Lemma build_entry_date_cases (day : date) :
  Dict.get "Date" (Workflow.build_entry flights codes day)
  = match flights !! day with
    | Some row =>
        match last_value "Date" row with
        | Some v => Some v
        | None => Some (VStr (strftime_ymd day))
        end
    | None => Some (VStr (strftime_ymd day))
    end.
Proof.
  unfold Workflow.build_entry.
  destruct (flights !! day) as [row|] eqn:Hf.
  - rewrite get_update. by destruct (last_value "Date" row).
  - by destruct (codes !! Some day).
Qed.

Lemma entry_day_text (entry : Dict.t) (day : date) :
  valid day -> 1000 <= year day ->
  Dict.get "Date" entry = Some (VStr (strftime_ymd day)) ->
  entry_day entry = Some day.
Proof.
  intros Hv Hy Hd. unfold entry_day. rewrite Hd.
  rewrite (strptime_strftime day Hv Hy). reflexivity.
Qed.

Lemma entry_day_build_entry (day : date) :
  dated_by_key flights -> valid day -> 1000 <= year day ->
  entry_day (Workflow.build_entry flights codes day) = Some day.
Proof.
  intros Hkey Hv Hy. pose proof (build_entry_date_cases day) as Hd.
  destruct (flights !! day) as [row|] eqn:Hf.
  - destruct (last_value "Date" row) as [v|] eqn:Hl.
    + rewrite (Hkey day row v Hf Hl) in Hd. unfold entry_day. rewrite Hd.
      reflexivity.
    + exact (entry_day_text _ day Hv Hy Hd).
  - exact (entry_day_text _ day Hv Hy Hd).
Qed.

Lemma entry_day_row_of (recs : list Dict.t) (entry : Dict.t) :
  entry ∈ recs -> is_Some (Dict.get "Date" entry) ->
  entry_day (row_of recs entry) = entry_day entry.
Proof.
  intros Hin [v Hv]. unfold entry_day.
  by rewrite (row_of_record_get recs entry "Date" v Hin Hv), Hv.
Qed.

Lemma entry_days (days : list date) :
  dated_by_key flights -> Forall (fun d => valid d /\ 1000 <= year d) days ->
  entry_day <$> Workflow.consolidate days flights codes = Some <$> days.
Proof.
  intros Hkey Hdays. unfold Workflow.consolidate. rewrite <- list_fmap_compose.
  apply list_fmap_ext. intros i d Hd. simpl.
  rewrite Forall_forall in Hdays.
  destruct (Hdays d) as [Hv Hy]; [by eapply list_elem_of_lookup_2|].
  by apply entry_day_build_entry.
Qed.

Lemma frame_days (days : list date) :
  dated_by_key flights -> Forall (fun d => valid d /\ 1000 <= year d) days ->
  entry_day <$> DataFrame.iterrows
                  (DataFrame.of_records (Workflow.consolidate days flights codes))
  = Some <$> days.
Proof.
  intros Hkey Hdays. rewrite iterrows_of_records, <- (entry_days days Hkey Hdays).
  rewrite <- list_fmap_compose. apply list_fmap_ext. intros i entry Hentry. simpl.
  apply entry_day_row_of; [by eapply list_elem_of_lookup_2|].
  apply list_elem_of_lookup_2 in Hentry. unfold Workflow.consolidate in Hentry.
  apply list_elem_of_fmap in Hentry as (d & -> & _).
  rewrite build_entry_date_cases.
  destruct (flights !! d) as [row|]; [|by eexists].
  destruct (last_value "Date" row); by eexists.
Qed.

End TimelineDates.

(** C1. For every year the calendar supports, the days the merge loop
    visits are exactly the calendar dates of that year: as many as the
    year has days (366 in a leap year, 365 otherwise), each date of the
    year once, in ascending order, and the timeline holds one entry per
    visited day, in the same order.  With a flights index as
    [parse_csv] builds it (a record brings no Date but the date it is
    filed under) and a year written with four digits, the Dates of the
    entries, read as dates, are the days themselves in that order: one
    entry for each calendar date of the year, none twice, none missing.
    [build_consolidated] runs this loop for 2024 and returns a frame of
    366 rows that carry those Dates. *)
Theorem C1_timeline_covers_the_year
    (y : Z) (flights : gmap date Series) (codes : gmap (option date) string) :
  MINYEAR <= y <= MAXYEAR ->
  exists days,
    Workflow.date_range y = Ok days
    /\ length (Workflow.consolidate days flights codes) = days_in_year y
    /\ Forall2 (fun day entry => entry = Workflow.build_entry flights codes day)
               days (Workflow.consolidate days flights codes)
    /\ (forall d, d ∈ days <-> valid d /\ year d = y)
    /\ NoDup days
    /\ StronglySorted Datetime.lt days
    /\ (forall to_datetime_column csv,
           NoDup (DataFrame.columns csv) ->
           Workflow.parse_csv to_datetime_column csv = Ok flights ->
           dated_by_key flights)
    /\ (1000 <= y -> dated_by_key flights ->
        entry_day <$> Workflow.consolidate days flights codes = Some <$> days
        /\ NoDup (entry_day <$> Workflow.consolidate days flights codes)
        /\ (forall d, Some d ∈ entry_day <$> Workflow.consolidate days flights codes
                      <-> valid d /\ year d = y))
    /\ (y = 2024 ->
        exists df,
          Workflow.build_consolidated flights codes = Ok df
          /\ df = DataFrame.of_records (Workflow.consolidate days flights codes)
          /\ DataFrame.len df = 366
          /\ (dated_by_key flights ->
              entry_day <$> DataFrame.iterrows df = Some <$> days)).
Proof.
  intros Hy. exists (calendar y).
  assert (Hmem : forall d, d ∈ calendar y <-> valid d /\ year d = y).
  { intros d. rewrite elem_of_calendar. unfold valid. split.
    - intros (<- & Hm & Hd). auto.
    - intros ((_ & Hm & Hd) & <-). auto. }
  assert (Hnd : NoDup (calendar y)) by apply StronglySorted_lt_NoDup, calendar_sorted.
  assert (Hdays : 1000 <= y -> Forall (fun d => valid d /\ 1000 <= year d) (calendar y)).
  { intros Hy'. apply Forall_forall. intros d [Hv <-]%Hmem. done. }
  split; [by apply date_range_calendar|].
  split; [by rewrite length_consolidate, length_calendar|].
  split.
  { unfold Workflow.consolidate. apply Forall2_fmap_r, Forall_Forall2_diag.
    by apply Forall_forall. }
  split; [exact Hmem|]. split; [exact Hnd|].
  split; [apply calendar_sorted|].
  split; [intros parser csv; apply parse_csv_dated_by_key|].
  split.
  { intros Hy' Hkey. rewrite (entry_days flights codes (calendar y) Hkey (Hdays Hy')).
    split; [reflexivity|]. split.
    - apply (NoDup_fmap_2 Some), Hnd.
    - intros d. rewrite <- Hmem. split.
      + by intros (d' & [= <-] & Hd')%list_elem_of_fmap.
      + intros Hd. apply list_elem_of_fmap. by exists d. }
  intros ->. eexists. split; [apply build_consolidated_2024|].
  split; [reflexivity|]. split.
  - unfold DataFrame.len, DataFrame.of_records. cbn [DataFrame.values].
    rewrite length_fmap, length_consolidate, length_calendar. reflexivity.
  - intros Hkey. apply frame_days; [exact Hkey|]. apply Hdays. lia.
Qed.

Lemma C1_witness_2024 :
  MINYEAR <= 2024 <= MAXYEAR
  /\ exists days,
       Workflow.date_range 2024 = Ok days /\ length days = 366%nat
       /\ entry_day <$> Workflow.consolidate days example_flights ∅ = Some <$> days.
Proof.
  assert (H : MINYEAR <= 2024 <= MAXYEAR) by (unfold MINYEAR, MAXYEAR; lia).
  split; [exact H|].
  destruct (C1_timeline_covers_the_year 2024 example_flights ∅ H)
    as (days & Hr & Hl & _ & _ & _ & _ & Hcsv & Hdates & _).
  exists days. split; [exact Hr|].
  split; [rewrite length_consolidate in Hl; exact Hl|].
  apply Hdates; [lia|].
  apply (Hcsv read_dmy_column example_csv).
  - apply (bool_decide_eq_true_1 _). reflexivity.
  - vm_compute. reflexivity.
Defined.
